(** * Deep CFR poker trainer: a shallow embedding of the bookkeeping code

    The development follows [src/game_env.py] (the [HandProcessor] class) and
    [src/deep_cfr.py] (the [DeepCFR] class).

    Conventions of the embedding.
    - Numbers.  Python floats and numpy float arrays are modelled by exact
      canonical rationals [Qc]; a numpy array of shape [(n,)] is a [list Qc].
      Rounding error of binary floating point is therefore outside the model,
      with one exception: the exploration rate is also computed in binary64
      (module [Float64]), where the rounding of every product is what
      separates the program from the closed form of its schedule.
    - Exceptions.  A call either returns, raises, or (numpy only) produces
      [nan]/[inf]; the type [outcome] records which.
    - Objects.  The cumulative-regret arrays are numpy objects that the code
      mutates in place and stores in two containers, so they live in an
      explicit store and the containers hold references.
    - Libraries outside the repository ([deuces], [pettingzoo], [torch]) are
      either written out from their published source where they are small
      ([deuces.Card]) or taken as parameters of a section. *)

From Stdlib Require Import ZArith QArith Qcanon Qround Lia Ascii String.
From stdpp Require Import base decidable option list numbers strings sorting gmap fin_maps.
From Stdlib Require Import Lqa Qabs.
From Corelib Require PrimFloat SpecFloat FloatOps.

Open Scope Z_scope.

(** ** Outcomes of a call *)

Inductive exn : Set :=
  | IndexError
  | KeyError
  | TypeError
  | ValueError
  | ZeroDivisionError.

Inductive outcome (A : Type) : Type :=
  | Returns (a : A)
  | NonFinite
  | Raises (e : exn).

Arguments Returns {A} a.
Arguments NonFinite {A}.
Arguments Raises {A} e.

#[global] Instance exn_eq_dec : EqDecision exn.
Proof. solve_decision. Defined.

#[global] Instance outcome_eq_dec {A} `{EqDecision A} : EqDecision (outcome A).
Proof. solve_decision. Defined.

#[global] Instance outcome_ret : MRet outcome := fun _ a => Returns a.

#[global] Instance outcome_bind : MBind outcome := fun _ _ f m =>
  match m with
  | Returns a => f a
  | NonFinite => NonFinite
  | Raises e => Raises e
  end.

#[global] Instance outcome_fmap : FMap outcome := fun _ _ f m =>
  match m with
  | Returns a => Returns (f a)
  | NonFinite => NonFinite
  | Raises e => Raises e
  end.

(** [try: m except IndexError: h] *)
Definition catch_only {A} (e0 : exn) (m : outcome A) (h : outcome A) : outcome A :=
  match m with
  | Raises e => if decide (e = e0) then h else Raises e
  | _ => m
  end.

(** [try: m except Exception: h] *)
Definition catch_all {A} (m : outcome A) (h : outcome A) : outcome A :=
  match m with
  | Raises _ => h
  | _ => m
  end.

(** A call into library code that returns or raises. *)
Definition of_sum {A} (r : exn + A) : outcome A :=
  match r with
  | inl e => Raises e
  | inr a => Returns a
  end.

Definition finite {A} (m : outcome A) : Prop := m <> NonFinite.

Definition raised {A} (m : outcome A) : Prop := exists e, m = Raises e.

(** Python's [l[i]] on a list: a negative index counts from the end, an index
    out of range raises [IndexError]. *)
Definition py_index {A} (l : list A) (i : Z) : outcome A :=
  let n := Z.of_nat (length l) in
  let j := if i <? 0 then i + n else i in
  if (0 <=? j) && (j <? n)
  then match l !! Z.to_nat j with
       | Some x => Returns x
       | None => Raises IndexError
       end
  else Raises IndexError.

(** Collect the results of a list of calls, left to right, stopping at the
    first one that does not return. *)
Fixpoint sequence {A} (ms : list (outcome A)) : outcome (list A) :=
  match ms with
  | [] => Returns []
  | m :: ms' => x ← m; xs ← sequence ms'; Returns (x :: xs)
  end.

(** ** Decimal literals and rounding *)

Definition dec (n : Z) (d : positive) : Qc := Q2Qc (n # d).

Definition Qc_floor (x : Qc) : Z := Qfloor (this x).

(** Round to the nearest integer, ties to the even one (Python's [round] and
    numpy's [rint]). *)
Definition rint (x : Qc) : Z :=
  let f := Qc_floor x in
  let r := (x - Qc_of_Z f)%Qc in
  match (r ?= dec 1 2)%Qc with
  | Lt => f
  | Gt => f + 1
  | Eq => if Z.even f then f else f + 1
  end.

(** [round(x, ndigits)] *)
Definition round (x : Qc) (ndigits : nat) : Qc :=
  let s := Qc_of_Z (10 ^ Z.of_nat ndigits) in
  (Qc_of_Z (rint (x * s)) / s)%Qc.

(** ** The [deuces] card encoding

    [deuces.Card] packs a card into an integer:
    [bitrank << 16 | suit << 12 | rank << 8 | prime]. *)

Module Card.

Definition STR_RANKS : list ascii :=
  ["2"; "3"; "4"; "5"; "6"; "7"; "8"; "9"; "T"; "J"; "Q"; "K"; "A"]%char.

Definition PRIMES : list Z := [2; 3; 5; 7; 11; 13; 17; 19; 23; 29; 31; 37; 41].

Fixpoint index_of (c : ascii) (l : list ascii) (i : Z) : option Z :=
  match l with
  | [] => None
  | x :: l' => if decide (x = c) then Some i else index_of c l' (i + 1)
  end.

Definition CHAR_RANK_TO_INT_RANK (c : ascii) : outcome Z :=
  match index_of c STR_RANKS 0 with
  | Some i => Returns i
  | None => Raises KeyError
  end.

Definition CHAR_SUIT_TO_INT_SUIT (c : ascii) : outcome Z :=
  if decide (c = "s"%char) then Returns 1
  else if decide (c = "h"%char) then Returns 2
  else if decide (c = "d"%char) then Returns 4
  else if decide (c = "c"%char) then Returns 8
  else Raises KeyError.

Definition new (s : string) : outcome Z :=
  rank_char ← py_index (list_ascii_of_string s) 0;
  suit_char ← py_index (list_ascii_of_string s) 1;
  rank_int ← CHAR_RANK_TO_INT_RANK rank_char;
  suit_int ← CHAR_SUIT_TO_INT_SUIT suit_char;
  rank_prime ← py_index PRIMES rank_int;
  let bitrank := Z.shiftl (Z.shiftl 1 rank_int) 16 in
  let suit := Z.shiftl suit_int 12 in
  let rank := Z.shiftl rank_int 8 in
  Returns (Z.lor (Z.lor (Z.lor bitrank suit) rank) rank_prime).

(** A card is an [int] or [None]; shifting [None] raises [TypeError]. *)
Definition get_rank_int (card_int : option Z) : outcome Z :=
  match card_int with
  | Some c => Returns (Z.land (Z.shiftr c 8) 15)
  | None => Raises TypeError
  end.

Definition get_suit_int (card_int : option Z) : outcome Z :=
  match card_int with
  | Some c => Returns (Z.land (Z.shiftr c 12) 15)
  | None => Raises TypeError
  end.

(** [LookupTable.MAX_HIGH_CARD] *)
Definition MAX_HIGH_CARD : Z := 7462.

(** [Evaluator.get_five_card_rank_percentage] *)
Definition get_five_card_rank_percentage (hand_rank : Z) : Qc :=
  (Qc_of_Z hand_rank / Qc_of_Z MAX_HIGH_CARD)%Qc.

End Card.

(** ** [HandProcessor] *)

Module HandProcessor.

Definition ranks : list string :=
  ["2"; "3"; "4"; "5"; "6"; "7"; "8"; "9"; "T"; "J"; "Q"; "K"; "A"]%string.
Definition suits : list string := ["c"; "d"; "h"; "s"]%string.

(** [convert_card]: [None] for index 0 and, through the handler, for an
    index whose rank is out of range.  [//] and [%] are floor division and
    its remainder, as [Z.div] and [Z.modulo] are for a positive divisor. *)
Definition convert_card (idx : Z) : outcome (option Z) :=
  if decide (idx = 0) then Returns None
  else
    let rank_idx := (idx - 1) / 4 in
    let suit_idx := (idx - 1) mod 4 in
    catch_only IndexError
      (r ← py_index ranks rank_idx;
       s ← py_index suits suit_idx;
       c ← Card.new (r +:+ s);
       Returns (Some c))
      (Returns None).

(** [_estimate_preflop_strength] *)
Definition _estimate_preflop_strength (hole : list (option Z)) : outcome Qc :=
  rs ← sequence (Card.get_rank_int <$> hole);
  let ranks := merge_sort Z.le rs in
  h0 ← py_index hole 0;
  s0 ← Card.get_suit_int h0;
  h1 ← py_index hole 1;
  s1 ← Card.get_suit_int h1;
  let suited := bool_decide (s0 = s1) in
  r0 ← py_index ranks 0;
  r1 ← py_index ranks 1;
  if decide (r0 = r1) then Returns (dec 9 10)
  else
    r1' ← py_index ranks 1;
    r0' ← py_index ranks 0;
    if decide (r1' - r0' = 1) then Returns (if suited then dec 7 10 else dec 6 10)
    else if suited then Returns (dec 5 10)
    else Returns (dec 4 10).

Section Evaluator.

(** [deuces.Evaluator.evaluate(board, hole)]: the table-driven 5/6/7 card
    evaluator of the library, a parameter here. *)
Variable evaluate : list (option Z) -> list (option Z) -> exn + Z.

(** [get_strength]: every exception of the body is caught and turned into
    the strength [0.0]. *)
Definition get_strength (hole_indices board_indices : list Z) : outcome Qc :=
  catch_all
    (hole ← sequence (convert_card <$> filter (fun i => 0 < i) hole_indices);
     board ← sequence (convert_card <$> filter (fun i => 0 < i) board_indices);
     if decide (length board < 3)%nat then _estimate_preflop_strength hole
     else
       score ← of_sum (evaluate board hole);
       Returns (1 - Card.get_five_card_rank_percentage score)%Qc)
    (Returns 0%Qc).

End Evaluator.

End HandProcessor.


(** ** Reading a card id

    What [convert_card] makes of a card id in [1, 52]: the rank index is
    [(idx - 1) // 4] (0 for a deuce, 12 for an ace), the suit index is
    [(idx - 1) % 4] into [suits]. *)

Definition card_rank (idx : Z) : Z := (idx - 1) / 4.
Definition card_suit (idx : Z) : Z := (idx - 1) mod 4.

Definition is_pair (h1 h2 : Z) : Prop := card_rank h1 = card_rank h2.
Definition is_connector (h1 h2 : Z) : Prop := Z.abs (card_rank h1 - card_rank h2) = 1.
Definition is_suited (h1 h2 : Z) : Prop := card_suit h1 = card_suit h2.

(** The suit code [deuces] gives to the suit index of [suits]. *)
Definition suit_code (s : Z) : Z :=
  if decide (s = 0) then 8 else if decide (s = 1) then 4
  else if decide (s = 2) then 2 else 1.

(** An evaluator that knows no hand, for the closed examples that stay
    pre-flop and never reach [deuces]. *)
Definition no_table_evaluate (board hole : list (option Z)) : exn + Z := inl KeyError.

(** The check that an id converts to a card whose [deuces] rank and suit are
    the ones read off the id. *)
Definition valid_card_check (idx : Z) : bool :=
  match HandProcessor.convert_card idx with
  | Returns (Some c) =>
      bool_decide (Card.get_rank_int (Some c) = Returns (card_rank idx)) &&
      bool_decide (Card.get_suit_int (Some c) = Returns (suit_code (card_suit idx)))
  | _ => false
  end.

#[global] Instance is_pair_dec h1 h2 : Decision (is_pair h1 h2).
Proof. unfold is_pair. apply _. Defined.
#[global] Instance is_connector_dec h1 h2 : Decision (is_connector h1 h2).
Proof. unfold is_connector. apply _. Defined.
#[global] Instance is_suited_dec h1 h2 : Decision (is_suited h1 h2).
Proof. unfold is_suited. apply _. Defined.

(** The pre-flop table of the hand-strength heuristic, read off the two ids. *)
Definition preflop_table (h1 h2 : Z) : Qc :=
  if decide (is_pair h1 h2) then dec 9 10
  else if decide (is_connector h1 h2)
       then (if decide (is_suited h1 h2) then dec 7 10 else dec 6 10)
       else if decide (is_suited h1 h2) then dec 5 10 else dec 4 10.

(** The number of board cards [get_strength] sees: the ids that pass its
    [i > 0] filter. *)
Definition board_size (board_indices : list Z) : nat :=
  length (filter (fun i => 0 < i) board_indices).

(** ** numpy arrays of shape [(n,)] *)

Definition np_zeros (n : nat) : list Qc := replicate n 0%Qc.

(** [a.sum()] *)
Definition np_sum (a : list Qc) : Qc := foldr Qcplus 0%Qc a.

(** [a[i]] with a non-negative index. *)
Definition np_get (a : list Qc) (i : nat) : outcome Qc :=
  match a !! i with
  | Some x => Returns x
  | None => Raises IndexError
  end.

(** [a[i] = x] with a non-negative index. *)
Definition np_set (a : list Qc) (i : nat) (x : Qc) : outcome (list Qc) :=
  if decide (i < length a)%nat then Returns (<[i := x]> a) else Raises IndexError.

(** [a op b] for two arrays: equal shapes combine entry by entry, a shape
    [(1,)] is broadcast, any other pair of shapes raises [ValueError]. *)
Definition np_binop (op : Qc -> Qc -> Qc) (a b : list Qc) : outcome (list Qc) :=
  if decide (length a = length b) then Returns (zip_with op a b)
  else match a, b with
       | [x], _ => Returns (op x <$> b)
       | _, [y] => Returns ((fun x => op x y) <$> a)
       | _, _ => Raises ValueError
       end.

(** [a += b]: the result keeps the shape of [a], so only [b] is broadcast. *)
Definition np_iadd (a b : list Qc) : outcome (list Qc) :=
  if decide (length a = length b) then Returns (zip_with Qcplus a b)
  else match b with
       | [y] => Returns ((fun x => x + y)%Qc <$> a)
       | _ => Raises ValueError
       end.

(** [a * s] for a scalar [s]. *)
Definition np_scale (a : list Qc) (s : Qc) : list Qc := (fun x => x * s)%Qc <$> a.

(** [a / s] for a scalar [s]: numpy warns and fills the array with [nan] or
    [inf] when [s] is zero. *)
Definition np_div_scalar (a : list Qc) (s : Qc) : outcome (list Qc) :=
  if decide (s = 0%Qc)
  then (if decide (a = []) then Returns [] else NonFinite)
  else Returns ((fun x => x / s)%Qc <$> a).

(** [np.where(a == 1)[0]] *)
Definition np_where_eq1 (a : list Qc) : list Z :=
  omap (fun '(i, x) => if decide (x = 1%Qc) then Some i else None)
       (zip (seqZ 0 (Z.of_nat (length a))) a).

(** Scalar division [x / y]: no finite value when [y] is zero (a numpy
    scalar gives [inf] or [nan], a Python float raises). *)
Definition float_div (x y : Qc) : outcome Qc :=
  if decide (y = 0%Qc) then NonFinite else Returns (x / y)%Qc.

(** Python's [max(a, b)]: [b] only when it is greater than [a]. *)
Definition py_max (a b : Qc) : Qc := if decide (a < b)%Qc then b else a.

(** ** [collections.deque] with a [maxlen] *)

Record deque (A : Type) : Type := Deque { maxlen : N; items : list A }.
Arguments Deque {A} maxlen items.
Arguments maxlen {A} d.
Arguments items {A} d.

(** [d.append(x)]: the element goes in on the right and, if the deque is then
    longer than [maxlen], one element is dropped on the left. *)
Definition deque_append {A} (d : deque A) (x : A) : deque A :=
  let l := items d ++ [x] in
  Deque (maxlen d) (if decide (maxlen d < N.of_nat (length l))%N then drop 1 l else l).

(** ** [DeepCFR] *)

Module DeepCFR.

(** An encoded state: the tensor [[hand_strength, pot_size]]. *)
Definition state : Type := Qc * Qc.

(** References to numpy arrays in the store. *)
Definition loc : Type := nat.

(** One entry of [history]:
    [(state_tensor, strategy, action, rp_self, rp_opp)]. *)
Record decision : Type := Decision {
  state_tensor : state;
  strategy : list Qc;
  action : nat;
  rp_self : Qc;
  rp_opp : Qc
}.

(** The value of [cumulative_strategy[key]]: a dict with the keys
    ['counts'] and ['visits']. *)
Record strategy_entry : Type := StrategyEntry {
  counts : list Qc;
  visits : Z
}.

(** The trainer object, with the attributes the bookkeeping reads and
    writes.  [store] holds the numpy arrays that [cumulative_regrets] and
    [advantage_memory] refer to. *)
Record trainer : Type := Trainer {
  epsilon : Qc;
  epsilon_decay : Qc;
  min_epsilon : Qc;
  iterations : Z;
  store : list (list Qc);
  advantage_memory : deque (state * loc);
  cumulative_regrets : gmap state loc;
  cumulative_strategy : gmap state strategy_entry;
  training_agent : string
}.

Definition set_epsilon (x : Qc) (t : trainer) : trainer :=
  Trainer x (epsilon_decay t) (min_epsilon t) (iterations t) (store t)
    (advantage_memory t) (cumulative_regrets t) (cumulative_strategy t)
    (training_agent t).
Definition set_iterations (x : Z) (t : trainer) : trainer :=
  Trainer (epsilon t) (epsilon_decay t) (min_epsilon t) x (store t)
    (advantage_memory t) (cumulative_regrets t) (cumulative_strategy t)
    (training_agent t).
Definition set_store (x : list (list Qc)) (t : trainer) : trainer :=
  Trainer (epsilon t) (epsilon_decay t) (min_epsilon t) (iterations t) x
    (advantage_memory t) (cumulative_regrets t) (cumulative_strategy t)
    (training_agent t).
Definition set_advantage_memory (x : deque (state * loc)) (t : trainer) : trainer :=
  Trainer (epsilon t) (epsilon_decay t) (min_epsilon t) (iterations t) (store t)
    x (cumulative_regrets t) (cumulative_strategy t) (training_agent t).
Definition set_cumulative_regrets (x : gmap state loc) (t : trainer) : trainer :=
  Trainer (epsilon t) (epsilon_decay t) (min_epsilon t) (iterations t) (store t)
    (advantage_memory t) x (cumulative_strategy t) (training_agent t).
Definition set_cumulative_strategy (x : gmap state strategy_entry) (t : trainer)
  : trainer :=
  Trainer (epsilon t) (epsilon_decay t) (min_epsilon t) (iterations t) (store t)
    (advantage_memory t) (cumulative_regrets t) x (training_agent t).

(** [__init__] *)
Definition init : trainer :=
  {| epsilon := dec 15 100;
     epsilon_decay := dec 995 1000;
     min_epsilon := dec 1 100;
     iterations := 0;
     store := [];
     advantage_memory := Deque 1000000 [];
     cumulative_regrets := ∅;
     cumulative_strategy := ∅;
     training_agent := "player_0" |}.

(** [encode_state], with [self.env.community_card_indices] as
    [board_indices].  The two debug lines format [observation[52]] and
    [observation[53]] before anything else is done; the handler logs and
    re-raises. *)
Definition encode_state
    (evaluate : list (option Z) -> list (option Z) -> exn + Z)
    (board_indices : list Z) (observation : list Qc) : outcome state :=
  _ ← py_index observation 52;
  _ ← py_index observation 53;
  let hole_mask := take 52 observation in
  let hole_indices := (fun i => i + 1) <$> np_where_eq1 hole_mask in
  hand_strength ← HandProcessor.get_strength evaluate hole_indices board_indices;
  player_0_stack ← py_index observation 52;
  player_1_stack ← py_index observation 53;
  let total_pot := (Qc_of_Z 100 - (player_0_stack + player_1_stack))%Qc in
  Returns (round hand_strength 2, round total_pot 1).

(** [get_action_probs]; [net] is the softmax of the network's forward
    pass. *)
Definition get_action_probs (net : state -> list Qc) (state_tensor : state)
    (legal_mask : list Qc) : outcome (list Qc) :=
  let probs := net state_tensor in
  if forallb (fun m => bool_decide (m = 0%Qc)) legal_mask then Returns legal_mask
  else
    legal_probs ← np_binop Qcmult probs legal_mask;
    let sum_probs := np_sum legal_probs in
    if decide (sum_probs = 0%Qc)
    then np_div_scalar legal_mask (np_sum legal_mask)
    else np_div_scalar legal_probs sum_probs.

(** [tuple(state_tensor.cpu().numpy().round(2))] *)
Definition state_key (s : state) : state := (round s.1 2, round s.2 2).

(** [self.cumulative_regrets[key]] on the [defaultdict]: a missing key is
    given a fresh [np.zeros(5)], which is stored under the key. *)
Definition regrets_getitem (key : state) (t : trainer) : loc * trainer :=
  match cumulative_regrets t !! key with
  | Some l => (l, t)
  | None =>
      let l := length (store t) in
      (l, set_cumulative_regrets (<[key := l]> (cumulative_regrets t))
            (set_store (store t ++ [np_zeros 5]) t))
  end.

(** [self.cumulative_strategy[key]] on the [defaultdict]. *)
Definition strategy_getitem (key : state) (t : trainer) : strategy_entry :=
  default (StrategyEntry (np_zeros 5) 0) (cumulative_strategy t !! key).

(** The array a reference points to. *)
Definition deref (t : trainer) (l : loc) : list Qc := default [] (store t !! l).

(** [for a in range(5): if a != action: immediate_regret[a] = -cf_value * strategy[a]] *)
Fixpoint other_regrets (range : list nat) (action : nat) (cf_value : Qc)
    (strategy immediate_regret : list Qc) : outcome (list Qc) :=
  match range with
  | [] => Returns immediate_regret
  | a :: range' =>
      if decide (a ≠ action)
      then p ← np_get strategy a;
           r ← np_set immediate_regret a (- cf_value * p)%Qc;
           other_regrets range' action cf_value strategy r
      else other_regrets range' action cf_value strategy immediate_regret
  end.

(** Lines 180-193: [cf_value] and [immediate_regret] of one decision. *)
Definition immediate_regret_of (player_reward : Qc) (d : decision)
  : outcome (list Qc) :=
  q ← float_div (rp_opp d) (rp_self d + dec 1 100000000)%Qc;
  let cf_value := (player_reward * q)%Qc in
  _ ← np_get (strategy d) (action d);
  p ← np_get (strategy d) (action d);
  immediate_regret ← np_set (np_zeros 5) (action d) (cf_value * (1 - p))%Qc;
  other_regrets (seq 0 5) (action d) cf_value (strategy d) immediate_regret.

(** The body of the loop of [_update_regrets] for one decision. *)
Definition update_decision (player_reward : Qc) (t : trainer) (d : decision)
  : outcome trainer :=
  let key := state_key (state_tensor d) in
  immediate_regret ← immediate_regret_of player_reward d;
  (* line 196 reads the entry for the log, line 198 adds in place *)
  let '(l, t) := regrets_getitem key t in
  sum ← np_iadd (deref t l) immediate_regret;
  let t := set_store (<[l := sum]> (store t)) t in
  (* line 200: the pair holds the array object itself *)
  let t := set_advantage_memory
             (deque_append (advantage_memory t) (state_tensor d, l)) t in
  let e := strategy_getitem key t in
  c ← np_iadd (counts e) (np_scale (strategy d) (rp_self d));
  Returns (set_cumulative_strategy
             (<[key := StrategyEntry c (visits e + 1)]> (cumulative_strategy t)) t).

Fixpoint update_loop (player_reward : Qc) (t : trainer) (history : list decision)
  : outcome trainer :=
  match history with
  | [] => Returns t
  | d :: history' =>
      t' ← update_decision player_reward t d;
      update_loop player_reward t' history'
  end.

(** [_update_regrets] *)
Definition _update_regrets (t : trainer) (history : list decision)
    (final_rewards : gmap string Qc) : outcome trainer :=
  let player_reward := default 0%Qc (final_rewards !! training_agent t) in
  update_loop player_reward t history.

Section Training.

(** The hand played by [_cfr_iteration] (lines 108-157: the environment,
    the networks and the random choices), which hands [history] and
    [final_rewards] to [_update_regrets]. *)
Variable play_hand : trainer -> outcome (list decision * gmap string Qc).

(** [_save_checkpoint]: writes a file and leaves the trainer as it is. *)
Variable _save_checkpoint : trainer -> outcome unit.

Definition _cfr_iteration (t : trainer) : outcome trainer :=
  '(history, final_rewards) ← play_hand t;
  _update_regrets t history final_rewards.

(** The body of the loop of [train], [n] times. *)
Fixpoint train_loop (n : nat) (save_interval : Z) (t : trainer) : outcome trainer :=
  match n with
  | O => Returns t
  | S n' =>
      let t := set_iterations (iterations t + 1) t in
      t ← _cfr_iteration t;
      let t := set_epsilon (py_max (min_epsilon t) (epsilon t * epsilon_decay t)%Qc) t in
      t ← (if decide (save_interval = 0) then Raises ZeroDivisionError
           else if decide (iterations t mod save_interval = 0)
                then _ ← _save_checkpoint t; Returns t
                else Returns t);
      train_loop n' save_interval t
  end.

(** [train]; [range(iterations)] is empty for a negative count. *)
Definition train (iterations batch_size save_interval : Z) (t : trainer)
  : outcome trainer :=
  train_loop (Z.to_nat iterations) save_interval t.

End Training.

End DeepCFR.

(** ** Vocabulary of the statements *)

(** A legal-action mask: every entry is 0 (illegal) or 1 (legal). *)
Definition is_mask (legal_mask : list Qc) : Prop :=
  Forall (fun m => m = 0%Qc \/ m = 1%Qc) legal_mask.

(** The number of legal actions of a mask. *)
Definition legal_count (legal_mask : list Qc) : nat :=
  length (filter (fun m => m = 1%Qc) legal_mask).

(** The uniform distribution over the legal actions of a mask: an equal share
    for each legal action, nothing for an illegal one. *)
Definition uniform_legal (legal_mask : list Qc) : list Qc :=
  (fun m => if decide (m = 1%Qc)
            then (1 / Qc_of_Z (Z.of_nat (legal_count legal_mask)))%Qc
            else 0%Qc) <$> legal_mask.

(** An observation the encoder should refuse: not the 52 card flags followed
    by the two stacks, or no flag set among the 52. *)
Definition malformed (observation : list Qc) : Prop :=
  length observation ≠ 54%nat \/ np_where_eq1 (take 52 observation) = [].

(** Two observations for the closed examples: 54 entries with no card flag
    set and 50 chips in each stack, and 55 entries with the flags of cards 1
    and 2 set. *)
Definition observation_no_hole : list Qc :=
  replicate 52 0%Qc ++ [Qc_of_Z 50; Qc_of_Z 50].
Definition observation_too_long : list Qc :=
  [1; 1]%Qc ++ replicate 50 0%Qc ++ [Qc_of_Z 50; Qc_of_Z 50; Qc_of_Z 7].

(** ** Reading the trainer's tables *)

(** The vector [cumulative_regrets[key]] reads as: the array the key refers
    to, or the zero vector the [defaultdict] would create. *)
Definition regret_of (t : DeepCFR.trainer) (key : DeepCFR.state) : list Qc :=
  match DeepCFR.cumulative_regrets t !! key with
  | Some l => DeepCFR.deref t l
  | None => np_zeros 5
  end.

(** The replay buffer as a reader sees it: every pair with the current
    contents of its array. *)
Definition buffer_view (t : DeepCFR.trainer) : list (DeepCFR.state * list Qc) :=
  (fun e => (e.1, DeepCFR.deref t e.2)) <$> items (DeepCFR.advantage_memory t).

(** Well-formed trainers: every key refers to an allocated array of shape
    [(5,)], no two keys share an array, and every pair of the replay buffer
    refers to the array of its own state key. *)
Definition wf (t : DeepCFR.trainer) : Prop :=
  (forall k l, DeepCFR.cumulative_regrets t !! k = Some l ->
               exists v, DeepCFR.store t !! l = Some v /\ length v = 5%nat) /\
  (forall k1 k2 l, DeepCFR.cumulative_regrets t !! k1 = Some l ->
                   DeepCFR.cumulative_regrets t !! k2 = Some l -> k1 = k2) /\
  (forall s l, (s, l) ∈ items (DeepCFR.advantage_memory t) ->
               DeepCFR.cumulative_regrets t !! DeepCFR.state_key s = Some l).

(** The replay buffer has the capacity [__init__] gave it and is within it. *)
Definition buffer_ok (t : DeepCFR.trainer) : Prop :=
  maxlen (DeepCFR.advantage_memory t) = 1000000%N /\
  (N.of_nat (length (items (DeepCFR.advantage_memory t))) <= 1000000)%N.

(** The counterfactual value of a decision, as the update is specified. *)
Definition counterfactual_value (reward : Qc) (d : DeepCFR.decision) : Qc :=
  (reward * (DeepCFR.rp_opp d / (DeepCFR.rp_self d + dec 1 100000000)))%Qc.

(** What one trajectory adds to the cumulative regret of a key: the sum of
    the immediate regrets of its decisions on that key. *)
Fixpoint regret_delta (reward : Qc) (history : list DeepCFR.decision)
    (key : DeepCFR.state) : list Qc :=
  match history with
  | [] => np_zeros 5
  | d :: history' =>
      let immediate :=
        if decide (DeepCFR.state_key (DeepCFR.state_tensor d) = key)
        then match DeepCFR.immediate_regret_of reward d with
             | Returns r => r
             | _ => np_zeros 5
             end
        else np_zeros 5 in
      zip_with Qcplus immediate (regret_delta reward history' key)
  end.

(** ** Inputs of the closed examples

    Two decisions of one hand that fall on the same state key, and the
    terminal rewards of the hand. *)
Definition example_decision_1 : DeepCFR.decision :=
  DeepCFR.Decision (dec 9 10, Qc_of_Z 3)
    [dec 1 5; dec 1 5; dec 1 5; dec 1 5; dec 1 5] 1 1%Qc 1%Qc.
Definition example_decision_2 : DeepCFR.decision :=
  DeepCFR.Decision (dec 9 10, Qc_of_Z 3)
    [dec 1 2; dec 1 2; 0%Qc; 0%Qc; 0%Qc] 0 (dec 1 5) (dec 1 2).
Definition example_rewards : gmap string Qc :=
  {[ "player_0"%string := Qc_of_Z 2; "player_1"%string := Qc_of_Z (-2) ]}.

(** The immediate regrets of the two example decisions for the reward 2 of
    the training player, written out from the update formulas. *)
Definition example_regret_1 : list Qc :=
  let c := counterfactual_value (Qc_of_Z 2) example_decision_1 in
  [- c * dec 1 5; c * (1 - dec 1 5); - c * dec 1 5; - c * dec 1 5; - c * dec 1 5]%Qc.
Definition example_regret_2 : list Qc :=
  let c := counterfactual_value (Qc_of_Z 2) example_decision_2 in
  [c * (1 - dec 1 2); - c * dec 1 2; - c * 0; - c * 0; - c * 0]%Qc.

(** A hand with no decision of the training player and no reward, and a
    checkpoint writer that succeeds, for the closed examples of [train]. *)
Definition idle_hand (t : DeepCFR.trainer)
  : outcome (list DeepCFR.decision * gmap string Qc) := Returns ([], ∅).
Definition checkpoint_written (t : DeepCFR.trainer) : outcome unit := Returns tt.

(** A trainer whose replay buffer is at capacity: 10^6 pairs of one state. *)
Definition full_buffer_trainer : DeepCFR.trainer :=
  DeepCFR.set_advantage_memory
    (Deque 1000000 (replicate (N.to_nat 1000000) ((dec 9 10, Qc_of_Z 3), 0%nat)))
    DeepCFR.init.

(** ** [PokerEnv]: the card names

    [suit_map] and [rank_map] are dicts, so a key they do not hold raises
    [KeyError]; there is no handler in [_convert_card]. *)

Module PokerEnv.

Definition suit_map : list (Z * string) :=
  [(0, "c"); (1, "d"); (2, "h"); (3, "s")]%string.

Definition rank_map : list (Z * string) :=
  [(0, "2"); (1, "3"); (2, "4"); (3, "5"); (4, "6"); (5, "7"); (6, "8");
   (7, "9"); (8, "T"); (9, "J"); (10, "Q"); (11, "K"); (12, "A")]%string.

(** [d[k]] on a dict written as its list of items. *)
Fixpoint dict_getitem (d : list (Z * string)) (k : Z) : outcome string :=
  match d with
  | [] => Raises KeyError
  | (k', v) :: d' => if decide (k' = k) then Returns v else dict_getitem d' k
  end.

(** [_convert_card]: the name of a card, [None] for index 0. *)
Definition _convert_card (idx : Z) : outcome (option string) :=
  if decide (idx = 0) then Returns None
  else
    let rank := (idx - 1) / 4 in
    let suit := (idx - 1) mod 4 in
    r ← dict_getitem rank_map rank;
    s ← dict_getitem suit_map suit;
    Returns (Some (r +:+ s)).

(** [_get_player_cards] *)
Definition _get_player_cards (observation : list Qc) : outcome (list (option string)) :=
  let hole_mask := take 52 observation in
  sequence ((fun i => _convert_card (i + 1)) <$> np_where_eq1 hole_mask).

End PokerEnv.

(** The check that the name [PokerEnv] gives to an id is the card
    [HandProcessor] builds for it. *)
Definition card_name_check (idx : Z) : bool :=
  match PokerEnv._convert_card idx with
  | Returns (Some name) =>
      bool_decide (Some <$> Card.new name = HandProcessor.convert_card idx)
  | _ => false
  end.

(** The check that a negative id is read as the id 52 above it. *)
Definition card_wrap_check (idx : Z) : bool :=
  bool_decide (HandProcessor.convert_card idx = HandProcessor.convert_card (idx + 52)).

(** The cards [get_strength] builds from a list of ids: the ids that pass
    its [i > 0] filter, converted. *)
Definition cards_of (ids : list Z) : list (option Z) :=
  match sequence (HandProcessor.convert_card <$> filter (fun i => 0 < i) ids) with
  | Returns cards => cards
  | _ => []
  end.

(** The values the pre-flop heuristic can answer with. *)
Definition preflop_values : list Qc :=
  [dec 9 10; dec 7 10; dec 6 10; dec 5 10; dec 4 10].

(** An evaluator for the closed examples that go post-flop: it scores a hand
    by the number of its hole cards. *)
Definition counting_evaluate (board hole : list (option Z)) : exn + Z :=
  inr (Z.of_nat (length hole)).

(** A vector with no negative entry, as a softmax gives. *)
Definition nonnegative (probs : list Qc) : Prop := Forall (fun p => (0 <= p)%Qc) probs.

(** The immediate regret vector as the update is specified: the chosen action
    gets [cf * (1 - p)], every other action [a] gets [-cf * strategy[a]]. *)
Definition expected_regret (cf_value : Qc) (action : nat) (strategy : list Qc)
  : list Qc :=
  imap (fun a p => if decide (a = action)
                   then (cf_value * (1 - p))%Qc else (- cf_value * p)%Qc) strategy.

(** ** [_update_strategy_net]: the targets

    Lines 245-248: for every sampled key the target is
    [counts / visits] of its entry; the sampling of the keys and the fit of
    the network are outside the model. *)

Module StrategyNet.

Definition target (e : DeepCFR.strategy_entry) : outcome (list Qc) :=
  np_div_scalar (DeepCFR.counts e) (Qc_of_Z (DeepCFR.visits e)).

Definition targets (t : DeepCFR.trainer) (sampled_keys : list DeepCFR.state)
  : outcome (list (list Qc)) :=
  sequence ((fun key => target (DeepCFR.strategy_getitem key t)) <$> sampled_keys).

End StrategyNet.

(** A decision the loop of [_update_regrets] can process: the divisor of the
    counterfactual value is not zero, the action is one of the five slots and
    the strategy has shape [(5,)]. *)
Definition valid_decision (d : DeepCFR.decision) : Prop :=
  (DeepCFR.rp_self d + dec 1 100000000)%Qc ≠ 0%Qc /\
  (DeepCFR.action d < 5)%nat /\
  length (DeepCFR.strategy d) = 5%nat.

(** The strategy table as [_update_regrets] leaves it: every entry has counts
    of shape [(5,)] and has been visited. *)
Definition strategy_ok (t : DeepCFR.trainer) : Prop :=
  forall k e, DeepCFR.cumulative_strategy t !! k = Some e ->
              length (DeepCFR.counts e) = 5%nat /\ 1 <= DeepCFR.visits e.

(** [cumulative_strategy[key]['visits']], 0 for a key without entry. *)
Definition visits_of (t : DeepCFR.trainer) (key : DeepCFR.state) : Z :=
  DeepCFR.visits (DeepCFR.strategy_getitem key t).

(** The decisions of a trajectory that fall on a key. *)
Definition decisions_on (key : DeepCFR.state) (history : list DeepCFR.decision)
  : list DeepCFR.decision :=
  filter (fun d => DeepCFR.state_key (DeepCFR.state_tensor d) = key) history.

(** The state keys of the decisions of a trajectory. *)
Definition keys_of (history : list DeepCFR.decision) : gset DeepCFR.state :=
  list_to_set ((fun d => DeepCFR.state_key (DeepCFR.state_tensor d)) <$> history).

(** ** [_cfr_iteration]: the hand that is played

    Lines 108-167 of [src/deep_cfr.py].  The pettingzoo environment, the two
    random sources and the forward passes of the networks do not belong to
    the repository: they are the variables of the section.  What the loop
    does with them is written out from the source. *)

Module GameLoop.

Section Hand.

(** The state of the environment and of the random generators. *)
Variable Env : Type.
Variable Rng : Type.

(** [self.env.reset()] *)
Variable reset : Env -> Env.
(** [self.env.agents] *)
Variable agents : list string.
(** The agent [agent_iter()] yields next, [None] when no agent is left. *)
Variable agent_selection : Env -> option string.
(** [self.env.env.last()]: the observation, the action mask, the reward, and
    the flags [termination] and [truncation]. *)
Variable last : Env -> list Qc * list Qc * Qc * bool * bool.
(** [self.env.env.step(action)] *)
Variable step : Env -> option nat -> outcome Env.
(** [random.random()] *)
Variable random_random : Rng -> Qc * Rng.
(** [np.random.choice(n, p=strategy)] *)
Variable random_choice : Rng -> nat -> list Qc -> outcome (nat * Rng).
(** The softmax of the forward pass of [strategy_net] and [opponent_net]. *)
Variable strategy_net : DeepCFR.state -> list Qc.
Variable opponent_net : DeepCFR.state -> list Qc.
(** The [deuces] evaluator and [self.env.community_card_indices]. *)
Variable evaluate : list (option Z) -> list (option Z) -> exn + Z.
Variable board_indices : list Z.

(** The local variables of [_cfr_iteration] while the hand runs. *)
Record progress : Type := Progress {
  env : Env;
  rng : Rng;
  history : list DeepCFR.decision;
  rp_self : Qc;
  rp_opp : Qc;
  final_rewards : gmap string Qc
}.

(** [final_rewards[agent] += reward] on a plain dict. *)
Definition add_reward (final_rewards : gmap string Qc) (agent : string) (reward : Qc)
  : outcome (gmap string Qc) :=
  match final_rewards !! agent with
  | Some r => Returns (<[agent := (r + reward)%Qc]> final_rewards)
  | None => Raises KeyError
  end.

(** One pass of the body of the [for agent in ... agent_iter()] loop. *)
Definition turn (t : DeepCFR.trainer) (agent : string) (p : progress)
  : outcome progress :=
  let '(obs, legal_mask, reward, termination, truncation) := last (env p) in
  let done := termination || truncation in
  if done then
    rewards ← add_reward (final_rewards p) agent reward;
    env' ← step (env p) None;
    Returns (Progress env' (rng p) (history p) (rp_self p) (rp_opp p) rewards)
  else
    state_tensor ← DeepCFR.encode_state evaluate board_indices obs;
    if decide (agent = DeepCFR.training_agent t) then
      let '(u, rng1) := random_random (rng p) in
      strategy ← (if decide (u < DeepCFR.epsilon t)%Qc
                  then np_div_scalar legal_mask (np_sum legal_mask)
                  else DeepCFR.get_action_probs strategy_net state_tensor legal_mask);
      '(action, rng2) ← random_choice rng1 (length strategy) strategy;
      let record := DeepCFR.Decision state_tensor strategy action (rp_self p) (rp_opp p) in
      chosen ← np_get strategy action;
      env' ← step (env p) (Some action);
      Returns (Progress env' rng2 (history p ++ [record]) (rp_self p * chosen)%Qc
                 (rp_opp p) (final_rewards p))
    else
      strategy ← DeepCFR.get_action_probs opponent_net state_tensor legal_mask;
      '(action, rng1) ← random_choice (rng p) (length strategy) strategy;
      chosen ← np_get strategy action;
      env' ← step (env p) (Some action);
      Returns (Progress env' rng1 (history p) (rp_self p) (rp_opp p * chosen)%Qc
                 (final_rewards p)).

(** The loop: [agent_iter] stops when no agent is left or after [max_iter]
    agents. *)
Fixpoint agent_loop (max_iter : nat) (t : DeepCFR.trainer) (p : progress)
  : outcome progress :=
  match max_iter with
  | O => Returns p
  | S n =>
      match agent_selection (env p) with
      | None => Returns p
      | Some agent => p' ← turn t agent p; agent_loop n t p'
      end
  end.

(** The dict [{agent: 0 for agent in self.env.agents}]. *)
Definition zero_rewards : gmap string Qc :=
  list_to_map ((fun agent => (agent, 0%Qc)) <$> agents).

(** Lines 108-167: the reset, line 109 that reads the observation of
    ['player_0'], the loop, and the log lines that read
    [final_rewards['player_0']] and [final_rewards['player_1']]. *)
Definition play_hand (max_iter : nat) (e : Env) (r : Rng) (t : DeepCFR.trainer)
  : outcome (list DeepCFR.decision * gmap string Qc) :=
  let start := Progress (reset e) r [] 1%Qc 1%Qc zero_rewards in
  _ ← (if decide ("player_0"%string ∈ agents) then Returns tt else Raises KeyError);
  p ← agent_loop max_iter t start;
  _ ← (if final_rewards p !! "player_0"%string is Some _ then Returns tt else Raises KeyError);
  _ ← (if final_rewards p !! "player_1"%string is Some _ then Returns tt else Raises KeyError);
  Returns (history p, final_rewards p).

End Hand.

End GameLoop.



(** A vector of probabilities: every entry between 0 and 1. *)
Definition unit_interval (probs : list Qc) : Prop :=
  Forall (fun p => (0 <= p)%Qc /\ (p <= 1)%Qc) probs.

(** ** A scripted hand for the closed examples

    An environment that lets player_0, player_1 and player_0 again act with
    the first two actions legal, then pays -1 and 1 and ends; the random
    sources always draw 0.5 and the action 1; both networks answer with the
    uniform vector. *)
Definition script_agent (n : nat) : option string :=
  match n with
  | 0%nat | 2%nat | 4%nat => Some "player_0"%string
  | 1%nat | 3%nat => Some "player_1"%string
  | _ => None
  end.
Definition script_last (n : nat) : list Qc * list Qc * Qc * bool * bool :=
  (observation_too_long, [1; 1; 0; 0; 0]%Qc,
   (if decide (n = 3%nat) then Qc_of_Z (-1) else if decide (n = 4%nat) then 1 else 0)%Qc,
   bool_decide (3 <= n)%nat, false).
Definition script_step (n : nat) (action : option nat) : outcome nat := Returns (S n).
Definition script_random (r : unit) : Qc * unit := (dec 1 2, r).
Definition script_choice (r : unit) (n : nat) (p : list Qc) : outcome (nat * unit) :=
  if decide (1 < n)%nat then Returns (1%nat, r) else Raises ValueError.
Definition script_net (s : DeepCFR.state) : list Qc :=
  [dec 1 5; dec 1 5; dec 1 5; dec 1 5; dec 1 5].
Definition script_hand (t : DeepCFR.trainer)
  : outcome (list DeepCFR.decision * gmap string Qc) :=
  GameLoop.play_hand nat unit (fun e => e) ["player_0"; "player_1"]%string
    script_agent script_last script_step script_random script_choice
    script_net script_net no_table_evaluate [] 100 0%nat tt t.

(** A recorded decision whose numbers are probabilities. *)
Definition probabilistic (d : DeepCFR.decision) : Prop :=
  unit_interval (DeepCFR.strategy d) /\
  (0 <= DeepCFR.rp_self d)%Qc /\ (DeepCFR.rp_self d <= 1)%Qc.

(** ** The exploration rate in binary64

    The trainer above keeps [epsilon] as an exact rational.  Python computes
    line 280 in binary64 and rounds every product, so the rate the program
    holds after some iterations is the value below; the primitive floats are
    IEEE 754 binary64, which is what a Python float is. *)

Module Float64.
Import PrimFloat SpecFloat FloatOps.

(** Lines 38-40: the literals of [__init__], each read as the nearest
    binary64 number, as Python reads them. *)
Definition epsilon : float := 0.15%float.
Definition epsilon_decay : float := 0.995%float.
Definition min_epsilon : float := 0.01%float.

(** Python's [max(a, b)] on two floats: [b] only when [b > a]. *)
Definition py_max (a b : float) : float := if PrimFloat.ltb a b then b else a.

(** Line 280: [self.epsilon = max(self.min_epsilon, self.epsilon * self.epsilon_decay)]. *)
Definition decay (e : float) : float :=
  py_max min_epsilon (PrimFloat.mul e epsilon_decay).

(** The rate after [n] iterations of the loop of [train]. *)
Definition epsilon_after (n : nat) : float := Nat.iter n decay epsilon.

(** The rational number a finite float stands for; a zero, an infinity and
    a [nan] are read as 0 (the schedule produces none of them). *)
Definition value (x : float) : Q :=
  match Prim2SF x with
  | S754_finite s m e =>
      let q := (inject_Z (Z.pos m) * 2 ^ e)%Q in if s then (- q)%Q else q
  | _ => 0%Q
  end.

End Float64.

(** The closed form of the schedule as the specification writes it,
    [max(0.01, 0.15 * 0.995^n)], over the rationals. *)
Definition closed_form (n : nat) : Qc :=
  py_max (dec 1 100) (dec 15 100 * dec 995 1000 ^ n)%Qc.

(** The distance allowed between the binary64 rate and the closed form:
    [1e-15]. *)
Definition rounding_bound : Q := 1 # 1000000000000000.

(** The closed form computed step by step on unreduced fractions, and the
    comparison of the first [k] binary64 rates with it. *)
Definition closed_form_steps (n : nat) : Q :=
  Nat.iter n (fun c => c * (995 # 1000))%Q (15 # 100)%Q.
Definition q_max (a b : Q) : Q := if Qle_bool b a then a else b.
Definition within (x : PrimFloat.float) (c : Q) : bool :=
  Qle_bool (Qabs (Float64.value x - q_max (1 # 100) c)) rounding_bound.
Fixpoint schedule_check (k : nat) (x : PrimFloat.float) (c : Q) : bool :=
  within x c &&
  match k with
  | O => true
  | S k => schedule_check k (Float64.decay x) (c * (995 # 1000))%Q
  end.

(** * Properties *)

(** ** Generic facts about outcomes and indexing *)

Lemma py_index_spec {A} (l : list A) (i : Z) :
  0 <= i < Z.of_nat (length l) ->
  exists x, l !! Z.to_nat i = Some x /\ py_index l i = Returns x.
Proof.
  intros Hi. unfold py_index.
  destruct (Z.ltb_spec i 0) as [?|_]; [lia|].
  destruct (Z.leb_spec 0 i) as [_|?]; [|lia].
  destruct (Z.ltb_spec i (Z.of_nat (length l))) as [_|?]; [|lia].
  simpl. destruct (l !! Z.to_nat i) as [x|] eqn:Hx; [eauto|].
  apply lookup_ge_None in Hx. lia.
Qed.

Lemma py_index_cases {A} (l : list A) (i : Z) :
  (exists x, x ∈ l /\ py_index l i = Returns x) \/ py_index l i = Raises IndexError.
Proof.
  unfold py_index.
  destruct ((0 <=? _) && _); [|by right].
  destruct (l !! _) as [x|] eqn:Hx; [|by right].
  left. exists x. split; [|done]. by eapply list_elem_of_lookup_2.
Qed.

Lemma py_index_out_of_range {A} (l : list A) (i : Z) :
  Z.of_nat (length l) <= i -> py_index l i = Raises IndexError.
Proof.
  intros Hi. unfold py_index.
  destruct (Z.ltb_spec i 0) as [?|_]; [lia|].
  destruct (Z.ltb_spec i (Z.of_nat (length l))) as [?|_]; [lia|].
  by rewrite andb_false_r.
Qed.

Lemma sequence_returns {A} (ms : list (outcome A)) :
  Forall (fun m => exists x, m = Returns x) ms -> exists xs, sequence ms = Returns xs.
Proof.
  induction 1 as [|m ms [x ->] _ [xs IH]]; simpl; [eauto|].
  rewrite IH. simpl. eauto.
Qed.

Lemma sequence_length {A} (ms : list (outcome A)) xs :
  sequence ms = Returns xs -> length xs = length ms.
Proof.
  revert xs. induction ms as [|m ms IH]; intros xs; simpl.
  - by intros [= <-].
  - destruct m as [x| |e]; simpl; try done.
    destruct (sequence ms) as [ys| |e]; simpl; try done.
    intros [= <-]. simpl. f_equal. by apply IH.
Qed.

Lemma sequence_raises {A} (ms : list (outcome A)) e :
  Forall (fun m => (exists x, m = Returns x) \/ m = Raises e) ms ->
  Exists (fun m => m = Raises e) ms ->
  sequence ms = Raises e.
Proof.
  induction 1 as [|m ms Hm Hms IH]; intros Hex; [by inversion Hex|].
  simpl. destruct Hm as [[x ->]| ->]; [|done].
  simpl. inversion Hex as [? ? Hx|? ? Hx']; subst; [done|].
  by rewrite IH.
Qed.

(** ** Cards *)

Example convert_card_1 : HandProcessor.convert_card 1 = Returns (Some 98306).
Proof. vm_compute. reflexivity. Qed.

Lemma sort_two (a b : Z) :
  merge_sort Z.le [a; b] = if decide (a <= b) then [a; b] else [b; a].
Proof. unfold merge_sort. simpl. by destruct (decide (a <= b)). Qed.

(** Every rank string joined to every suit string is a card [deuces] knows. *)
Lemma card_new_known :
  Forall (fun r => Forall (fun s => exists c, Card.new (r +:+ s) = Returns c)
                     HandProcessor.suits) HandProcessor.ranks.
Proof.
  repeat (apply Forall_cons; split;
          [repeat (apply Forall_cons; split; [eexists; vm_compute; reflexivity|]);
           apply Forall_nil_2|]).
  apply Forall_nil_2.
Qed.

(** [convert_card] never raises and never yields a non-finite value. *)
Lemma convert_card_returns (idx : Z) :
  exists c, HandProcessor.convert_card idx = Returns c.
Proof.
  unfold HandProcessor.convert_card. destruct (decide (idx = 0)); [eauto|].
  destruct (py_index_cases HandProcessor.ranks ((idx - 1) / 4)) as [(r & Hr & ->)| ->];
    [|simpl; eauto].
  destruct (py_index_cases HandProcessor.suits ((idx - 1) mod 4)) as [(s & Hs & ->)| ->];
    [|simpl; eauto].
  simpl.
  pose proof card_new_known as HK.
  rewrite Forall_forall in HK. specialize (HK r Hr).
  rewrite Forall_forall in HK. destruct (HK s Hs) as [c ->].
  simpl. eauto.
Qed.

(** An id above 52 has no rank string: the handler answers [None]. *)
Lemma convert_card_above (idx : Z) :
  52 < idx -> HandProcessor.convert_card idx = Returns None.
Proof.
  intros Hidx. unfold HandProcessor.convert_card.
  destruct (decide (idx = 0)); [done|].
  rewrite (py_index_out_of_range HandProcessor.ranks); [done|].
  change (Z.of_nat (length HandProcessor.ranks)) with 13.
  apply Z.div_le_lower_bound; lia.
Qed.

Lemma valid_card_check_all : forallb valid_card_check (seqZ 1 52) = true.
Proof. vm_compute. reflexivity. Qed.

Lemma convert_card_valid (idx : Z) :
  1 <= idx <= 52 ->
  exists c, HandProcessor.convert_card idx = Returns (Some c) /\
            Card.get_rank_int (Some c) = Returns (card_rank idx) /\
            Card.get_suit_int (Some c) = Returns (suit_code (card_suit idx)).
Proof.
  intros Hidx.
  pose proof valid_card_check_all as Hall.
  rewrite forallb_forall in Hall.
  assert (In idx (seqZ 1 52)) as Hin.
  { apply list_elem_of_In, elem_of_seqZ. lia. }
  specialize (Hall idx Hin). unfold valid_card_check in Hall.
  destruct (HandProcessor.convert_card idx) as [[c|]| |]; try done.
  apply andb_prop in Hall as [H1 H2].
  apply bool_decide_eq_true in H1, H2. eauto.
Qed.

Lemma suit_code_inj (s1 s2 : Z) :
  0 <= s1 < 4 -> 0 <= s2 < 4 -> suit_code s1 = suit_code s2 -> s1 = s2.
Proof. unfold suit_code. intros ? ?. repeat case_decide; lia. Qed.

Lemma card_suit_range (idx : Z) : 0 <= card_suit idx < 4.
Proof. unfold card_suit. apply Z.mod_pos_bound. lia. Qed.

Lemma board_converts (board_indices : list Z) :
  exists board,
    sequence (HandProcessor.convert_card <$> filter (fun i => 0 < i) board_indices)
      = Returns board /\
    length board = length (filter (fun i => 0 < i) board_indices).
Proof.
  destruct (sequence_returns
              (HandProcessor.convert_card <$> filter (fun i => 0 < i) board_indices))
    as [board Hb].
  { apply Forall_fmap, Forall_forall. intros idx _. apply convert_card_returns. }
  exists board. split; [done|].
  apply sequence_length in Hb. by rewrite length_fmap in Hb.
Qed.

Lemma estimate_preflop_two (c1 c2 : Z) (h1 h2 : Z) :
  Card.get_rank_int (Some c1) = Returns (card_rank h1) ->
  Card.get_rank_int (Some c2) = Returns (card_rank h2) ->
  Card.get_suit_int (Some c1) = Returns (suit_code (card_suit h1)) ->
  Card.get_suit_int (Some c2) = Returns (suit_code (card_suit h2)) ->
  HandProcessor._estimate_preflop_strength [Some c1; Some c2]
    = Returns (preflop_table h1 h2).
Proof.
  intros Hr1 Hr2 Hs1 Hs2.
  unfold HandProcessor._estimate_preflop_strength.
  change (Card.get_rank_int <$> [Some c1; Some c2])
    with [Card.get_rank_int (Some c1); Card.get_rank_int (Some c2)].
  cbn [sequence]. rewrite Hr1, Hr2. cbn [mbind outcome_bind].
  rewrite sort_two.
  change (py_index [Some c1; Some c2] 0) with (Returns (Some c1)).
  change (py_index [Some c1; Some c2] 1) with (Returns (Some c2)).
  cbn [mbind outcome_bind]. rewrite Hs1, Hs2. cbn [mbind outcome_bind].
  unfold preflop_table, is_pair, is_connector, is_suited.
  pose proof (card_suit_range h1). pose proof (card_suit_range h2).
  assert (suit_code (card_suit h1) = suit_code (card_suit h2)
          <-> card_suit h1 = card_suit h2) as Hsuit.
  { split; [by apply suit_code_inj|congruence]. }
  destruct (decide (card_rank h1 <= card_rank h2));
    cbn [py_index length Z.of_nat]; simpl;
    repeat case_decide; repeat case_bool_decide; try reflexivity; try lia;
    exfalso; tauto.
Qed.

(** C2.  Pre-flop (fewer than three board cards), the strength of two hole
    cards with ids in [1, 52] is read off the table: 0.9 for a pair, 0.7 for a
    suited connector, 0.6 for an unsuited connector, 0.5 for a suited
    non-connector and 0.4 otherwise. *)
Theorem preflop_strength_table
    (evaluate : list (option Z) -> list (option Z) -> exn + Z)
    (h1 h2 : Z) (board_indices : list Z) :
  1 <= h1 <= 52 ->
  1 <= h2 <= 52 ->
  (board_size board_indices < 3)%nat ->
  HandProcessor.get_strength evaluate [h1; h2] board_indices
    = Returns (preflop_table h1 h2)
  /\ (is_pair h1 h2 -> preflop_table h1 h2 = dec 9 10)
  /\ (~ is_pair h1 h2 -> is_connector h1 h2 -> is_suited h1 h2 ->
      preflop_table h1 h2 = dec 7 10)
  /\ (~ is_pair h1 h2 -> is_connector h1 h2 -> ~ is_suited h1 h2 ->
      preflop_table h1 h2 = dec 6 10)
  /\ (~ is_pair h1 h2 -> ~ is_connector h1 h2 -> is_suited h1 h2 ->
      preflop_table h1 h2 = dec 5 10)
  /\ (~ is_pair h1 h2 -> ~ is_connector h1 h2 -> ~ is_suited h1 h2 ->
      preflop_table h1 h2 = dec 4 10).
Proof.
  intros Hh1 Hh2 Hboard. split.
  - destruct (convert_card_valid h1 Hh1) as (c1 & Hc1 & Hr1 & Hs1).
    destruct (convert_card_valid h2 Hh2) as (c2 & Hc2 & Hr2 & Hs2).
    destruct (board_converts board_indices) as (board & Hb & Hlen).
    unfold HandProcessor.get_strength.
    rewrite !filter_cons_True by lia. rewrite filter_nil.
    change (HandProcessor.convert_card <$> [h1; h2])
      with [HandProcessor.convert_card h1; HandProcessor.convert_card h2].
    cbn [sequence]. rewrite Hc1, Hc2, Hb. cbn [mbind outcome_bind].
    rewrite decide_True by (unfold board_size in Hboard; lia).
    by rewrite (estimate_preflop_two c1 c2 h1 h2).
  - unfold preflop_table. repeat split; intros; repeat case_decide; done.
Qed.

Lemma preflop_strength_table_witness :
  HandProcessor.get_strength no_table_evaluate [1; 2] [] = Returns (dec 9 10) /\
  HandProcessor.get_strength no_table_evaluate [1; 31] [7; 0] = Returns (dec 4 10).
Proof.
  split.
  - destruct (preflop_strength_table no_table_evaluate 1 2 []) as (-> & Hpair & _);
      [lia | lia | vm_compute; lia |].
    rewrite Hpair by reflexivity. reflexivity.
  - destruct (preflop_strength_table no_table_evaluate 1 31 [7; 0])
      as (-> & _ & _ & _ & _ & Hother); [lia | lia | vm_compute; lia |].
    rewrite Hother by (vm_compute; congruence). reflexivity.
Defined.

(** ** Invalid card ids *)

(** No call of the pre-flop heuristic divides: it returns or raises. *)

Lemma finite_bind {A B} (m : outcome A) (f : A -> outcome B) :
  finite m -> (forall x, finite (f x)) -> finite (m ≫= f).
Proof. intros Hm Hf. destruct m; simpl; [apply Hf|done|done]. Qed.

Lemma finite_py_index {A} (l : list A) i : finite (py_index l i).
Proof. by destruct (py_index_cases l i) as [(? & _ & ->)| ->]. Qed.

Lemma finite_sequence {A} (ms : list (outcome A)) :
  Forall finite ms -> finite (sequence ms).
Proof.
  induction 1 as [|m ms Hm _ IH]; simpl; [done|].
  apply finite_bind; [done|]. intros x. by apply finite_bind.
Qed.

Lemma estimate_preflop_finite (hole : list (option Z)) :
  finite (HandProcessor._estimate_preflop_strength hole).
Proof.
  assert (forall c, finite (Card.get_rank_int c)) as Hrank by (by intros []).
  assert (forall c, finite (Card.get_suit_int c)) as Hsuit by (by intros []).
  unfold HandProcessor._estimate_preflop_strength.
  apply finite_bind.
  { apply finite_sequence, Forall_fmap, Forall_forall. intros c _. apply Hrank. }
  intros rs.
  repeat (apply finite_bind; [first [apply finite_py_index | apply Hsuit]|]; intros ?).
  case_decide; [done|].
  repeat (apply finite_bind; [apply finite_py_index|]; intros ?).
  repeat case_decide; done.
Qed.


(** [get_strength] returns a number whatever it is given: its handler turns
    every exception of its body into [0.0]. *)
Lemma get_strength_returns
    (evaluate : list (option Z) -> list (option Z) -> exn + Z)
    (hole_indices board_indices : list Z) :
  exists q, HandProcessor.get_strength evaluate hole_indices board_indices = Returns q.
Proof.
  unfold HandProcessor.get_strength.
  destruct (board_converts hole_indices) as (hole & -> & _).
  destruct (board_converts board_indices) as (board & -> & _).
  cbn [mbind outcome_bind].
  case_decide.
  - pose proof (estimate_preflop_finite hole) as Hfin.
    destruct (HandProcessor._estimate_preflop_strength hole); simpl; eauto. done.
  - destruct (evaluate board hole); simpl; eauto.
Qed.

Lemma sequence_inv {A} (ms : list (outcome A)) xs :
  sequence ms = Returns xs -> ms = Returns <$> xs.
Proof.
  revert xs. induction ms as [|m ms IH]; intros xs; simpl.
  - by intros [= <-].
  - destruct m as [x| |e]; simpl; try done.
    destruct (sequence ms) as [ys| |e]; simpl; try done.
    intros [= <-]. simpl. f_equal. by apply IH.
Qed.

(** Pre-flop, one hole id above 52 is enough for the strength [0.0]. *)
Lemma get_strength_invalid_hole
    (evaluate : list (option Z) -> list (option Z) -> exn + Z)
    (hole_indices board_indices : list Z) (idx : Z) :
  (board_size board_indices < 3)%nat ->
  idx ∈ hole_indices -> 52 < idx ->
  HandProcessor.get_strength evaluate hole_indices board_indices = Returns 0%Qc.
Proof.
  intros Hboard Hin Hidx.
  unfold HandProcessor.get_strength.
  destruct (board_converts hole_indices) as (hole & Hhole & _).
  destruct (board_converts board_indices) as (board & -> & Hlen).
  rewrite Hhole. cbn [mbind outcome_bind].
  rewrite decide_True by (unfold board_size in Hboard; lia).
  assert (None ∈ hole) as Hnone.
  { apply sequence_inv in Hhole.
    assert (Returns None ∈ HandProcessor.convert_card
                              <$> filter (fun i => 0 < i) hole_indices) as HN.
    { rewrite <- (convert_card_above idx Hidx).
      apply list_elem_of_fmap_2, list_elem_of_filter. split; [lia|done]. }
    rewrite Hhole in HN. apply list_elem_of_fmap in HN as (c & [= <-] & Hc). done. }
  unfold HandProcessor._estimate_preflop_strength.
  rewrite (sequence_raises (Card.get_rank_int <$> hole) TypeError); [done| |].
  - apply Forall_fmap, Forall_forall. intros [c|] _; simpl; eauto.
  - apply Exists_fmap, Exists_exists. by exists None.
Qed.

(** C5 (as the code has it).  An id above 52 is answered with [None] by
    [convert_card], which raises nothing; [get_strength] never raises either:
    it catches the failure a [None] card causes and itself returns [0.0],
    which pre-flop happens as soon as one hole id is above 52. *)
Theorem invalid_card_degrades
    (evaluate : list (option Z) -> list (option Z) -> exn + Z) :
  (forall idx, 52 < idx -> HandProcessor.convert_card idx = Returns None) /\
  (forall hole_indices board_indices,
     exists q, HandProcessor.get_strength evaluate hole_indices board_indices
               = Returns q) /\
  (forall hole_indices board_indices idx,
     (board_size board_indices < 3)%nat ->
     idx ∈ hole_indices -> 52 < idx ->
     HandProcessor.get_strength evaluate hole_indices board_indices = Returns 0%Qc).
Proof.
  split; [apply convert_card_above|].
  split; [apply get_strength_returns|].
  apply get_strength_invalid_hole.
Qed.

(** C5 as stated fails: id 53 is out of range, yet neither the converter nor
    the evaluator raises; the evaluator answers [0.0] itself.  A negative id
    handed to the converter wraps around to a real card (-3 reads as the ace
    of clubs, id 49), and an out-of-range board id is ignored pre-flop. *)
Lemma invalid_card_id_not_raised :
  HandProcessor.convert_card 53 = Returns None /\
  HandProcessor.get_strength no_table_evaluate [53; 1] [] = Returns 0%Qc /\
  ~ raised (HandProcessor.get_strength no_table_evaluate [53; 1] []) /\
  HandProcessor.convert_card (-3) = HandProcessor.convert_card 49 /\
  HandProcessor.get_strength no_table_evaluate [1; 2] [53] = Returns (dec 9 10).
Proof.
  repeat split; try (vm_compute; reflexivity).
  intros [e He]. vm_compute in He. discriminate He.
Qed.

(** ** The policy provider *)

Lemma Qcdiv_diag (s : Qc) : s ≠ 0%Qc -> (s / s)%Qc = 1%Qc.
Proof. intros Hs. unfold Qcdiv. by apply Qcmult_inv_r. Qed.

Lemma Qcdiv_0_l (s : Qc) : (0 / s)%Qc = 0%Qc.
Proof. unfold Qcdiv. apply Qcmult_0_l. Qed.

Lemma np_sum_nil : np_sum [] = 0%Qc.
Proof. reflexivity. Qed.

Lemma np_sum_cons (x : Qc) (a : list Qc) : np_sum (x :: a) = (x + np_sum a)%Qc.
Proof. reflexivity. Qed.

Lemma np_sum_div (a : list Qc) (s : Qc) :
  np_sum ((fun x => x / s)%Qc <$> a) = (np_sum a / s)%Qc.
Proof.
  induction a as [|x a IH]; [by rewrite fmap_nil, np_sum_nil, Qcdiv_0_l|].
  rewrite fmap_cons, !np_sum_cons, IH. unfold Qcdiv. by rewrite Qcmult_plus_distr_l.
Qed.

Lemma mask_sum_count (legal_mask : list Qc) :
  is_mask legal_mask ->
  np_sum legal_mask = Qc_of_Z (Z.of_nat (legal_count legal_mask)).
Proof.
  unfold legal_count.
  induction 1 as [|m ms [-> | ->] _ IH].
  - rewrite filter_nil, np_sum_nil. symmetry. apply Z2Qc_inj_0.
  - rewrite filter_cons_False by done. by rewrite np_sum_cons, IH, Qcplus_0_l.
  - rewrite filter_cons_True by done. rewrite length_cons.
    by rewrite np_sum_cons, IH, Nat2Z.inj_succ, <- Z.add_1_l, Z2Qc_inj_add, Z2Qc_inj_1.
Qed.

Lemma mask_all_zero (legal_mask : list Qc) :
  is_mask legal_mask ->
  forallb (fun m => bool_decide (m = 0%Qc)) legal_mask = true <->
  legal_count legal_mask = 0%nat.
Proof.
  unfold legal_count.
  induction 1 as [|m ms [-> | ->] _ IH]; [done| |]; cbn [forallb].
  - rewrite filter_cons_False by done. rewrite bool_decide_eq_true_2 by done. done.
  - rewrite filter_cons_True by done. rewrite bool_decide_eq_false_2 by done.
    rewrite length_cons. split; done.
Qed.

Lemma legal_count_pos (legal_mask : list Qc) (i : nat) :
  legal_mask !! i = Some 1%Qc -> (0 < legal_count legal_mask)%nat.
Proof.
  intros Hi. unfold legal_count.
  assert (1%Qc ∈ filter (fun m => m = 1%Qc) legal_mask) as Hin.
  { apply list_elem_of_filter. split; [done|]. by eapply list_elem_of_lookup_2. }
  destruct (filter _ legal_mask); [by apply elem_of_nil in Hin|simpl; lia].
Qed.

Lemma mask_div_uniform (legal_mask : list Qc) :
  is_mask legal_mask ->
  (fun x => x / np_sum legal_mask)%Qc <$> legal_mask = uniform_legal legal_mask.
Proof.
  intros Hmask. unfold uniform_legal. rewrite <- (mask_sum_count _ Hmask).
  apply Forall_fmap_ext_1.
  eapply Forall_impl; [exact Hmask|]. intros m [-> | ->]; cbv beta.
  - rewrite decide_False by done. apply Qcdiv_0_l.
  - by rewrite decide_True.
Qed.

Lemma count_sum_nonzero (legal_mask : list Qc) :
  is_mask legal_mask -> (0 < legal_count legal_mask)%nat ->
  np_sum legal_mask ≠ 0%Qc.
Proof.
  intros Hmask Hpos. rewrite (mask_sum_count _ Hmask), <- Z2Qc_inj_0.
  intros Heq%Z2Qc_inj. lia.
Qed.

Lemma mask_not_all_zero (legal_mask : list Qc) :
  is_mask legal_mask -> (0 < legal_count legal_mask)%nat ->
  forallb (fun m => bool_decide (m = 0%Qc)) legal_mask = false.
Proof.
  intros Hmask Hpos.
  destruct (forallb _ legal_mask) eqn:Hall; [|done].
  apply (mask_all_zero _ Hmask) in Hall. lia.
Qed.

Lemma uniform_legal_length (legal_mask : list Qc) :
  length (uniform_legal legal_mask) = length legal_mask.
Proof. unfold uniform_legal. apply length_fmap. Qed.

Lemma uniform_legal_illegal (legal_mask : list Qc) (i : nat) :
  legal_mask !! i = Some 0%Qc -> uniform_legal legal_mask !! i = Some 0%Qc.
Proof.
  intros Hi. unfold uniform_legal. rewrite list_lookup_fmap, Hi. cbn.
  by rewrite decide_False.
Qed.

Ltac solve_is_mask :=
  unfold is_mask;
  repeat (apply Forall_cons; split; [first [by left | by right]|]);
  apply Forall_nil_2.

(** C3.  With a 0/1 mask that has at least one legal action, the provider
    returns a vector over the action space that gives 0 to every illegal
    action and whose entries sum to 1 (so within 1e-6 of 1). *)
Theorem action_probs_distribution
    (net : DeepCFR.state -> list Qc) (state_tensor : DeepCFR.state)
    (legal_mask : list Qc) :
  is_mask legal_mask ->
  length (net state_tensor) = length legal_mask ->
  (0 < legal_count legal_mask)%nat ->
  exists probs,
    DeepCFR.get_action_probs net state_tensor legal_mask = Returns probs /\
    length probs = length legal_mask /\
    (forall i, legal_mask !! i = Some 0%Qc -> probs !! i = Some 0%Qc) /\
    np_sum probs = 1%Qc /\
    (- dec 1 1000000 <= np_sum probs - 1 <= dec 1 1000000)%Qc.
Proof.
  intros Hmask Hlen Hpos.
  assert (forall probs, np_sum probs = 1%Qc ->
            (- dec 1 1000000 <= np_sum probs - 1 <= dec 1 1000000)%Qc) as Htol.
  { intros probs ->. split; apply (bool_decide_unpack _); vm_compute; exact I. }
  unfold DeepCFR.get_action_probs.
  rewrite (mask_not_all_zero _ Hmask Hpos).
  unfold np_binop. rewrite decide_True by done. cbn [mbind outcome_bind].
  pose proof (count_sum_nonzero _ Hmask Hpos) as Hsum.
  destruct (decide (np_sum (zip_with Qcmult (net state_tensor) legal_mask) = 0%Qc))
    as [Hzero|Hzero]; unfold np_div_scalar.
  - rewrite decide_False by done. rewrite (mask_div_uniform _ Hmask).
    eexists. split; [done|].
    assert (np_sum (uniform_legal legal_mask) = 1%Qc) as Hone.
    { rewrite <- (mask_div_uniform _ Hmask), np_sum_div. by apply Qcdiv_diag. }
    repeat split; auto using uniform_legal_length, uniform_legal_illegal; by apply Htol.
  - rewrite decide_False by done. eexists. split; [done|].
    assert (np_sum ((fun x => x / np_sum (zip_with Qcmult (net state_tensor) legal_mask))%Qc
                      <$> zip_with Qcmult (net state_tensor) legal_mask) = 1%Qc) as Hone.
    { rewrite np_sum_div. by apply Qcdiv_diag. }
    repeat split; [| |done|by apply Htol|by apply Htol].
    + rewrite length_fmap, length_zip_with. lia.
    + intros i Hi. rewrite list_lookup_fmap, lookup_zip_with, Hi.
      destruct (net state_tensor !! i) as [p|] eqn:Hp.
      * cbn. by rewrite Qcmult_0_r, Qcdiv_0_l.
      * apply lookup_ge_None in Hp. apply lookup_lt_Some in Hi. lia.
Qed.

Lemma action_probs_distribution_witness :
  exists probs,
    DeepCFR.get_action_probs (fun _ => [dec 1 2; dec 1 4; dec 1 8; dec 1 16; dec 1 16])
      (dec 9 10, 0%Qc) [0; 1; 1; 0; 0]%Qc = Returns probs /\
    probs !! 0%nat = Some 0%Qc /\ np_sum probs = 1%Qc.
Proof.
  destruct (action_probs_distribution
              (fun _ => [dec 1 2; dec 1 4; dec 1 8; dec 1 16; dec 1 16])
              (dec 9 10, 0%Qc) [0; 1; 1; 0; 0]%Qc)
    as (probs & Hret & _ & Hzero & Hsum & _).
  - solve_is_mask.
  - reflexivity.
  - vm_compute. lia.
  - exists probs. split; [exact Hret|]. split; [by apply Hzero|exact Hsum].
Defined.

(** C6.  With a 0/1 mask whose masked probabilities sum to zero, the provider
    returns the uniform distribution over the legal actions: it raises
    nothing and divides by nothing that is zero.  For the all-zero mask that
    vector is the mask itself, all zero. *)
Theorem action_probs_fallback
    (net : DeepCFR.state -> list Qc) (state_tensor : DeepCFR.state)
    (legal_mask : list Qc) :
  is_mask legal_mask ->
  length (net state_tensor) = length legal_mask ->
  np_sum (zip_with Qcmult (net state_tensor) legal_mask) = 0%Qc ->
  DeepCFR.get_action_probs net state_tensor legal_mask
    = Returns (uniform_legal legal_mask)
  /\ (legal_count legal_mask = 0%nat -> uniform_legal legal_mask = legal_mask).
Proof.
  intros Hmask Hlen Hzero.
  assert (legal_count legal_mask = 0%nat -> uniform_legal legal_mask = legal_mask)
    as Hdegenerate.
  { intros Hcount. unfold uniform_legal.
    trans (id <$> legal_mask); [|apply list_fmap_id]. apply Forall_fmap_ext_1.
    unfold legal_count in Hcount. apply length_zero_iff_nil in Hcount.
    apply Forall_forall. intros m Hm. cbv beta.
    case_decide as H1;
      [|by destruct (proj1 (Forall_forall _ _) Hmask m Hm) as [-> | ->]].
    assert (m ∈ filter (fun m => m = 1%Qc) legal_mask) as Hin
      by (by apply list_elem_of_filter).
    rewrite Hcount in Hin. by apply elem_of_nil in Hin. }
  split; [|done].
  unfold DeepCFR.get_action_probs.
  destruct (forallb _ legal_mask) eqn:Hall.
  - apply (mask_all_zero _ Hmask) in Hall. by rewrite Hdegenerate.
  - assert (0 < legal_count legal_mask)%nat as Hpos.
    { destruct (legal_count legal_mask) eqn:Hc; [|lia].
      apply (mask_all_zero _ Hmask) in Hc. congruence. }
    unfold np_binop. rewrite decide_True by done. cbn [mbind outcome_bind].
    rewrite decide_True by done. unfold np_div_scalar.
    rewrite decide_False by (by apply count_sum_nonzero).
    by rewrite (mask_div_uniform _ Hmask).
Qed.

Lemma action_probs_fallback_witness :
  DeepCFR.get_action_probs (fun _ => [0; 0; 1; 0; 0]%Qc) (dec 9 10, 0%Qc)
    [1; 1; 0; 0; 0]%Qc = Returns [dec 1 2; dec 1 2; 0; 0; 0]%Qc /\
  DeepCFR.get_action_probs (fun _ => [dec 1 2; dec 1 2; 0; 0; 0]%Qc) (dec 9 10, 0%Qc)
    [0; 0; 0; 0; 0]%Qc = Returns [0; 0; 0; 0; 0]%Qc.
Proof.
  split.
  - destruct (action_probs_fallback (fun _ => [0; 0; 1; 0; 0]%Qc) (dec 9 10, 0%Qc)
                [1; 1; 0; 0; 0]%Qc) as [-> _].
    + solve_is_mask.
    + reflexivity.
    + apply (bool_decide_unpack _). vm_compute. exact I.
    + apply (bool_decide_unpack _). vm_compute. exact I.
  - destruct (action_probs_fallback (fun _ => [dec 1 2; dec 1 2; 0; 0; 0]%Qc)
                (dec 9 10, 0%Qc) [0; 0; 0; 0; 0]%Qc) as [-> ->].
    + solve_is_mask.
    + reflexivity.
    + apply (bool_decide_unpack _). vm_compute. exact I.
    + reflexivity.
    + reflexivity.
Defined.

(** ** The state encoder *)

Ltac by_computation := apply (bool_decide_unpack _); vm_compute; exact I.

Lemma get_strength_no_hole
    (evaluate : list (option Z) -> list (option Z) -> exn + Z)
    (board_indices : list Z) :
  (board_size board_indices < 3)%nat ->
  HandProcessor.get_strength evaluate [] board_indices = Returns 0%Qc.
Proof.
  intros Hboard. unfold HandProcessor.get_strength.
  destruct (board_converts board_indices) as (board & -> & Hlen).
  rewrite filter_nil. cbn [fmap list_fmap sequence mbind outcome_bind].
  rewrite decide_True by (unfold board_size in Hboard; lia).
  reflexivity.
Qed.

Lemma round_zero (ndigits : nat) : (ndigits <= 2)%nat -> round 0%Qc ndigits = 0%Qc.
Proof.
  intros H. destruct ndigits as [|[|[|?]]]; [by_computation..|lia].
Qed.

(** C4 (as the code has it).  The encoder raises [IndexError] exactly when
    the observation has fewer than 54 entries.  With 54 entries or more it
    returns an encoded state, whatever the length and the card flags; when no
    flag is set among the first 52 and the board is pre-flop, the encoded hand
    strength is [0.0]. *)
Theorem encode_state_checks_only_stacks
    (evaluate : list (option Z) -> list (option Z) -> exn + Z)
    (board_indices : list Z) (observation : list Qc) :
  ((length observation < 54)%nat ->
   DeepCFR.encode_state evaluate board_indices observation = Raises IndexError) /\
  ((54 <= length observation)%nat ->
   exists s, DeepCFR.encode_state evaluate board_indices observation = Returns s) /\
  ((54 <= length observation)%nat ->
   np_where_eq1 (take 52 observation) = [] ->
   (board_size board_indices < 3)%nat ->
   exists pot, DeepCFR.encode_state evaluate board_indices observation
               = Returns (0%Qc, pot)).
Proof.
  unfold DeepCFR.encode_state. split; [|split].
  - intros Hlen. destruct (decide (length observation < 53)%nat).
    + by rewrite (py_index_out_of_range observation 52) by lia.
    + destruct (py_index_spec observation 52) as (x & _ & ->); [lia|].
      cbn [mbind outcome_bind].
      by rewrite (py_index_out_of_range observation 53) by lia.
  - intros Hlen.
    destruct (py_index_spec observation 52) as (x & _ & ->); [lia|].
    destruct (py_index_spec observation 53) as (y & _ & ->); [lia|].
    cbn [mbind outcome_bind].
    destruct (get_strength_returns evaluate
                ((fun i => i + 1) <$> np_where_eq1 (take 52 observation))
                board_indices) as [q ->].
    cbn [mbind outcome_bind]. eauto.
  - intros Hlen Hnone Hboard.
    destruct (py_index_spec observation 52) as (x & _ & ->); [lia|].
    destruct (py_index_spec observation 53) as (y & _ & ->); [lia|].
    cbn [mbind outcome_bind].
    rewrite Hnone, fmap_nil, get_strength_no_hole by done.
    cbn [mbind outcome_bind]. rewrite round_zero by lia. eauto.
Qed.

(** C4 as stated fails: an observation with no card flag set, and one that is
    one entry too long, are both encoded without any error. *)
Lemma malformed_observation_encoded :
  malformed observation_no_hole /\
  DeepCFR.encode_state no_table_evaluate [] observation_no_hole
    = Returns (0%Qc, 0%Qc) /\
  malformed observation_too_long /\
  DeepCFR.encode_state no_table_evaluate [] observation_too_long
    = Returns (dec 9 10, 0%Qc).
Proof.
  split; [right; reflexivity|]. split; [by_computation|].
  split; [left; vm_compute; lia|]. by_computation.
Qed.

(** ** The regret update *)

Lemma np_get_returns (a : list Qc) (i : nat) (x : Qc) :
  np_get a i = Returns x <-> a !! i = Some x.
Proof. unfold np_get. destruct (a !! i); split; congruence. Qed.

Lemma np_set_returns (a : list Qc) (i : nat) (x : Qc) (r : list Qc) :
  np_set a i x = Returns r <-> (i < length a)%nat /\ r = <[i := x]> a.
Proof.
  unfold np_set. case_decide; split.
  - intros [= <-]. done.
  - intros [_ ->]. done.
  - done.
  - intros [? _]. done.
Qed.

Lemma bind_returns {A B} (m : outcome A) (f : A -> outcome B) (b : B) :
  m ≫= f = Returns b <-> exists a, m = Returns a /\ f a = Returns b.
Proof.
  destruct m as [a| |e]; simpl; split; try done.
  - eauto.
  - intros (a' & [= <-] & ?). done.
  - intros (a' & ? & _). done.
  - intros (a' & ? & _). done.
Qed.

Lemma other_regrets_spec (range : list nat) (action : nat) (cf_value : Qc)
    (strategy immediate_regret r : list Qc) :
  DeepCFR.other_regrets range action cf_value strategy immediate_regret = Returns r ->
  length r = length immediate_regret /\
  (forall a, a ∈ range -> a ≠ action ->
     exists p, strategy !! a = Some p /\ r !! a = Some (- cf_value * p)%Qc) /\
  (forall a, a ∉ range \/ a = action -> r !! a = immediate_regret !! a).
Proof.
  revert immediate_regret.
  induction range as [|a0 range IH]; intros immediate_regret; cbn [DeepCFR.other_regrets].
  - intros [= <-]. split; [done|]. split; [|done].
    intros a Ha. by apply elem_of_nil in Ha.
  - case_decide as Hne.
    + intros (p & Hp%np_get_returns & (r0 & [Hlt ->]%np_set_returns & Hrest)%bind_returns)
        %bind_returns.
      destruct (IH _ Hrest) as (Hlen & Hset & Hkeep).
      rewrite length_insert in Hlen. split; [done|]. split.
      * intros a Ha Hna. apply elem_of_cons in Ha.
        destruct (decide (a ∈ range)) as [Hin|Hnin]; [by apply Hset|].
        destruct Ha as [-> | Ha]; [|done].
        exists p. split; [done|].
        rewrite Hkeep by (by left). by apply list_lookup_insert_eq.
      * intros a Ha.
        assert (a ≠ a0) as Hneq.
        { destruct Ha as [Ha | ->]; [|done]. intros ->. apply Ha. by left. }
        rewrite Hkeep.
        -- by apply list_lookup_insert_ne.
        -- destruct Ha as [Ha | ->]; [left|by right].
           intros Hin. apply Ha. by right.
    + subst a0. intros Hrest.
      destruct (IH _ Hrest) as (Hlen & Hset & Hkeep).
      split; [done|]. split.
      * intros a Ha Hna. apply elem_of_cons in Ha as [-> | Ha]; [done|]. by apply Hset.
      * intros a Ha. apply Hkeep. destruct Ha as [Ha | ->]; [left|by right].
        intros Hin. apply Ha. by right.
Qed.

(** What [immediate_regret_of] returns, entry by entry. *)
Lemma immediate_regret_spec (reward : Qc) (d : DeepCFR.decision) (r : list Qc) :
  DeepCFR.immediate_regret_of reward d = Returns r ->
  length r = 5%nat /\
  (DeepCFR.action d < 5)%nat /\
  (exists p, DeepCFR.strategy d !! DeepCFR.action d = Some p /\
             r !! DeepCFR.action d
             = Some (counterfactual_value reward d * (1 - p))%Qc) /\
  (forall a, (a < 5)%nat -> a ≠ DeepCFR.action d ->
     exists p, DeepCFR.strategy d !! a = Some p /\
               r !! a = Some (- counterfactual_value reward d * p)%Qc).
Proof.
  unfold DeepCFR.immediate_regret_of, float_div, counterfactual_value.
  case_decide as Hden; [done|]. cbn [mbind outcome_bind].
  intros (_ & _ & (p & Hp%np_get_returns &
            (r0 & [Hlt ->]%np_set_returns & Hrest)%bind_returns)%bind_returns)
    %bind_returns.
  destruct (other_regrets_spec _ _ _ _ _ _ Hrest) as (Hlen & Hset & Hkeep).
  rewrite length_insert in Hlen. change (length (np_zeros 5)) with 5%nat in *.
  split; [done|]. split; [done|]. split.
  - exists p. split; [done|]. rewrite Hkeep by (by right).
    by apply list_lookup_insert_eq.
  - intros a Ha Hne. apply Hset; [|done].
    apply list_elem_of_In, in_seq. lia.
Qed.

Lemma wf_init : wf DeepCFR.init.
Proof.
  split; [|split].
  - intros k l Hk. cbn [DeepCFR.init DeepCFR.cumulative_regrets] in Hk.
    by rewrite lookup_empty in Hk.
  - intros k1 k2 l Hk. cbn [DeepCFR.init DeepCFR.cumulative_regrets] in Hk.
    by rewrite lookup_empty in Hk.
  - intros s l Hin. by apply elem_of_nil in Hin.
Qed.

Lemma regret_of_length (t : DeepCFR.trainer) (key : DeepCFR.state) :
  wf t -> length (regret_of t key) = 5%nat.
Proof.
  intros (Halloc & _ & _). unfold regret_of, DeepCFR.deref.
  destruct (DeepCFR.cumulative_regrets t !! key) as [l|] eqn:Hk; [|done].
  destruct (Halloc _ _ Hk) as (v & -> & Hv). done.
Qed.

(** Reading an entry of the [defaultdict] leaves every vector as it reads and
    yields a reference to the vector of the key. *)
Lemma regrets_getitem_spec (key : DeepCFR.state) (t t0 : DeepCFR.trainer)
    (l : DeepCFR.loc) :
  wf t -> DeepCFR.regrets_getitem key t = (l, t0) ->
  wf t0 /\
  DeepCFR.cumulative_regrets t0 !! key = Some l /\
  DeepCFR.deref t0 l = regret_of t key /\
  (forall k, regret_of t0 k = regret_of t k) /\
  DeepCFR.advantage_memory t0 = DeepCFR.advantage_memory t /\
  DeepCFR.cumulative_strategy t0 = DeepCFR.cumulative_strategy t /\
  DeepCFR.epsilon t0 = DeepCFR.epsilon t /\
  DeepCFR.epsilon_decay t0 = DeepCFR.epsilon_decay t /\
  DeepCFR.min_epsilon t0 = DeepCFR.min_epsilon t /\
  DeepCFR.iterations t0 = DeepCFR.iterations t /\
  DeepCFR.training_agent t0 = DeepCFR.training_agent t.
Proof.
  intros Hwf. unfold DeepCFR.regrets_getitem.
  destruct (DeepCFR.cumulative_regrets t !! key) as [l0|] eqn:Hk.
  - intros [= <- <-]. repeat split; try done; try apply Hwf.
    unfold regret_of. by rewrite Hk.
  - intros [= <- <-]. destruct Hwf as (Halloc & Hinj & Hbuf).
    assert (forall k l', DeepCFR.cumulative_regrets t !! k = Some l' ->
                         (l' < length (DeepCFR.store t))%nat) as Hlt.
    { intros k l' Hk'. destruct (Halloc _ _ Hk') as (v & Hv & _).
      by apply lookup_lt_Some in Hv. }
    repeat split; try done; cbn.
    + intros k l'. rewrite lookup_insert. case_decide as Hkk.
      * intros [= <-]. exists (np_zeros 5). split; [|done].
        rewrite lookup_app_r by done. by rewrite Nat.sub_diag.
      * intros Hk'. destruct (Halloc _ _ Hk') as (v & Hv & Hlen).
        exists v. split; [|done]. by apply lookup_app_l_Some.
    + intros k1 k2 l'. rewrite !lookup_insert.
      repeat case_decide; subst; try done.
      * intros [= <-] Hk2. apply Hlt in Hk2. lia.
      * intros Hk1 [= <-]. apply Hlt in Hk1. lia.
      * apply Hinj.
    + intros s l' Hin. rewrite lookup_insert. case_decide as Hkk.
      * apply Hbuf in Hin. congruence.
      * by apply Hbuf.
    + by rewrite lookup_insert_eq.
    + unfold DeepCFR.deref, regret_of. cbn. rewrite Hk.
      rewrite lookup_app_r by done. by rewrite Nat.sub_diag.
    + intros k. unfold regret_of, DeepCFR.deref. cbn.
      rewrite lookup_insert. case_decide as Hkk.
      * subst k. rewrite Hk. rewrite lookup_app_r by done. by rewrite Nat.sub_diag.
      * destruct (DeepCFR.cumulative_regrets t !! k) as [l'|] eqn:Hk'; [|done].
        destruct (Halloc _ _ Hk') as (v & Hv & _).
        by rewrite (lookup_app_l_Some _ _ _ _ Hv), Hv.
Qed.

Lemma deque_append_elem {A} (d : deque A) (x y : A) :
  y ∈ items (deque_append d x) -> y ∈ items d \/ y = x.
Proof.
  unfold deque_append. cbn [items]. intros Hy.
  assert (y ∈ items d ++ [x]) as Hin.
  { case_decide; [|done]. by eapply subseteq_drop. }
  apply elem_of_app in Hin as [?|Hin%list_elem_of_singleton]; auto.
Qed.

Lemma np_iadd_same_length (a b r : list Qc) :
  length a = length b -> np_iadd a b = Returns r -> r = zip_with Qcplus a b.
Proof. intros Hlen. unfold np_iadd. rewrite decide_True by done. congruence. Qed.

(** One decision of the loop of [_update_regrets], on a well-formed trainer. *)
Lemma update_decision_spec (reward : Qc) (t t' : DeepCFR.trainer)
    (d : DeepCFR.decision) :
  wf t -> DeepCFR.update_decision reward t d = Returns t' ->
  exists immediate l,
    DeepCFR.immediate_regret_of reward d = Returns immediate /\
    wf t' /\
    DeepCFR.cumulative_regrets t' !! DeepCFR.state_key (DeepCFR.state_tensor d)
      = Some l /\
    regret_of t' (DeepCFR.state_key (DeepCFR.state_tensor d))
      = zip_with Qcplus (regret_of t (DeepCFR.state_key (DeepCFR.state_tensor d)))
          immediate /\
    (forall k, k ≠ DeepCFR.state_key (DeepCFR.state_tensor d) ->
               regret_of t' k = regret_of t k) /\
    DeepCFR.advantage_memory t'
      = deque_append (DeepCFR.advantage_memory t) (DeepCFR.state_tensor d, l) /\
    DeepCFR.epsilon t' = DeepCFR.epsilon t /\
    DeepCFR.epsilon_decay t' = DeepCFR.epsilon_decay t /\
    DeepCFR.min_epsilon t' = DeepCFR.min_epsilon t /\
    DeepCFR.iterations t' = DeepCFR.iterations t /\
    DeepCFR.training_agent t' = DeepCFR.training_agent t.
Proof.
  intros Hwf. unfold DeepCFR.update_decision.
  set (key := DeepCFR.state_key (DeepCFR.state_tensor d)).
  intros (immediate & Himm & Hrest)%bind_returns.
  destruct (DeepCFR.regrets_getitem key t) as [l t0] eqn:Hget.
  destruct (regrets_getitem_spec _ _ _ _ Hwf Hget)
    as (Hwf0 & Hkey & Hderef & Hsame & Hmem & Hstrat & He & Hed & Hme & Hit & Hag).
  apply bind_returns in Hrest as (sum & Hsum & Hrest).
  apply bind_returns in Hrest as (c & _ & [= <-]).
  destruct (immediate_regret_spec _ _ _ Himm) as (Hlen & _).
  pose proof (regret_of_length t key Hwf) as Hlenk.
  apply np_iadd_same_length in Hsum; [|by rewrite Hderef, Hlenk, Hlen].
  rewrite Hderef in Hsum.
  destruct Hwf0 as (Halloc & Hinj & Hbuf).
  destruct (Halloc _ _ Hkey) as (v & Hv & Hvlen).
  assert (l < length (DeepCFR.store t0))%nat as Hl by (by eapply lookup_lt_Some).
  exists immediate, l. split; [done|]. split; [|repeat split; try done; cbn].
  - split; [|split]; cbn.
    + intros k l' Hk. destruct (decide (l' = l)) as [-> | Hne].
      * exists sum. split; [by apply list_lookup_insert_eq|].
        rewrite Hsum, length_zip_with, Hlenk, Hlen. done.
      * rewrite list_lookup_insert_ne by done. by eapply Halloc.
    + apply Hinj.
    + intros s l' [Hin | [= -> ->]]%deque_append_elem; [by apply Hbuf|done].
  - unfold regret_of, DeepCFR.deref. cbn. rewrite Hkey.
    by rewrite list_lookup_insert_eq.
  - intros k Hk. rewrite <- Hsame. unfold regret_of, DeepCFR.deref. cbn.
    destruct (DeepCFR.cumulative_regrets t0 !! k) as [l'|] eqn:Hk'; [|done].
    rewrite list_lookup_insert_ne; [done|].
    intros <-. apply Hk. by eapply Hinj.
  - by rewrite Hmem.
Qed.

Lemma update_loop_app (reward : Qc) (t : DeepCFR.trainer)
    (h1 h2 : list DeepCFR.decision) :
  DeepCFR.update_loop reward t (h1 ++ h2)
  = DeepCFR.update_loop reward t h1 ≫= fun t1 => DeepCFR.update_loop reward t1 h2.
Proof.
  revert t. induction h1 as [|d h1 IH]; intros t; [done|].
  cbn [app DeepCFR.update_loop].
  destruct (DeepCFR.update_decision reward t d) as [t1| |e]; [|done|done].
  cbn [mbind outcome_bind]. apply IH.
Qed.

Lemma update_loop_wf (reward : Qc) (t t' : DeepCFR.trainer)
    (history : list DeepCFR.decision) :
  wf t -> DeepCFR.update_loop reward t history = Returns t' -> wf t'.
Proof.
  revert t. induction history as [|d history IH]; intros t Hwf; cbn [DeepCFR.update_loop].
  - by intros [= <-].
  - intros (t1 & Hd & Hrest)%bind_returns.
    destruct (update_decision_spec _ _ _ _ Hwf Hd) as (_ & _ & _ & Hwf1 & _).
    by eapply IH.
Qed.

(** C1.  In a run of [_update_regrets] that returns, every recorded decision
    is processed by one pass of the loop body, and that pass computes
    [cf_value = reward * (rp_opp / (rp_self + 1e-8))], the immediate regret
    [cf_value * (1 - strategy[action])] for the chosen action and
    [-cf_value * strategy[a]] for every other action [a], and adds that vector
    to the cumulative regret of the decision's state key. *)
Theorem regret_update_formula
    (t t' : DeepCFR.trainer) (history : list DeepCFR.decision)
    (final_rewards : gmap string Qc) (i : nat) (d : DeepCFR.decision) :
  wf t ->
  DeepCFR._update_regrets t history final_rewards = Returns t' ->
  history !! i = Some d ->
  let reward := default 0%Qc (final_rewards !! DeepCFR.training_agent t) in
  let cf_value := (reward * (DeepCFR.rp_opp d / (DeepCFR.rp_self d + dec 1 100000000)))%Qc in
  let key := DeepCFR.state_key (DeepCFR.state_tensor d) in
  exists (t1 t2 : DeepCFR.trainer) (p : Qc) (immediate_regret : list Qc),
    DeepCFR.update_loop reward t (take i history) = Returns t1 /\
    DeepCFR.update_decision reward t1 d = Returns t2 /\
    DeepCFR.update_loop reward t2 (drop (S i) history) = Returns t' /\
    DeepCFR.immediate_regret_of reward d = Returns immediate_regret /\
    DeepCFR.strategy d !! DeepCFR.action d = Some p /\
    length immediate_regret = 5%nat /\
    immediate_regret !! DeepCFR.action d = Some (cf_value * (1 - p))%Qc /\
    (forall a, (a < 5)%nat -> a ≠ DeepCFR.action d ->
       exists pa, DeepCFR.strategy d !! a = Some pa /\
                  immediate_regret !! a = Some (- cf_value * pa)%Qc) /\
    regret_of t2 key = zip_with Qcplus (regret_of t1 key) immediate_regret.
Proof.
  intros Hwf Hrun Hi reward cf_value key.
  unfold DeepCFR._update_regrets in Hrun. fold reward in Hrun.
  rewrite <- (take_drop_middle history i d Hi) in Hrun.
  rewrite update_loop_app in Hrun.
  apply bind_returns in Hrun as (t1 & Hpre & Hrun).
  cbn [DeepCFR.update_loop] in Hrun.
  apply bind_returns in Hrun as (t2 & Hd & Hpost).
  pose proof (update_loop_wf _ _ _ _ Hwf Hpre) as Hwf1.
  destruct (update_decision_spec _ _ _ _ Hwf1 Hd)
    as (immediate & l & Himm & _ & _ & Hadd & _).
  destruct (immediate_regret_spec _ _ _ Himm) as (Hlen & _ & (p & Hp & Hchosen) & Hother).
  exists t1, t2, p, immediate. repeat split; try done.
Qed.

Lemma regret_update_formula_witness :
  exists (t' t1 t2 : DeepCFR.trainer) (immediate_regret : list Qc),
    DeepCFR._update_regrets DeepCFR.init [example_decision_1; example_decision_2]
      example_rewards = Returns t' /\
    DeepCFR.update_decision (Qc_of_Z 2) t1 example_decision_2 = Returns t2 /\
    immediate_regret !! 0%nat
      = Some (counterfactual_value (Qc_of_Z 2) example_decision_2 * (1 - dec 1 2))%Qc /\
    regret_of t2 (dec 9 10, Qc_of_Z 3)
      = zip_with Qcplus (regret_of t1 (dec 9 10, Qc_of_Z 3)) immediate_regret.
Proof.
  assert (exists t', DeepCFR._update_regrets DeepCFR.init
                       [example_decision_1; example_decision_2] example_rewards
                     = Returns t') as [t' Hrun].
  { eexists. vm_compute. reflexivity. }
  destruct (regret_update_formula DeepCFR.init t'
              [example_decision_1; example_decision_2] example_rewards 1
              example_decision_2 wf_init Hrun eq_refl)
    as (t1 & t2 & p & immediate & _ & Hd & _ & _ & Hp & _ & Hchosen & _ & Hadd).
  exists t', t1, t2, immediate. split; [exact Hrun|]. split; [exact Hd|].
  injection Hp as <-. split; [exact Hchosen|].
  assert (DeepCFR.state_key (dec 9 10, Qc_of_Z 3) = (dec 9 10, Qc_of_Z 3)) as Hkey
    by by_computation.
  cbn [example_decision_2 DeepCFR.state_tensor] in Hadd. rewrite Hkey in Hadd.
  exact Hadd.
Defined.

(** ** Replaying a trajectory *)

Lemma zip_with_plus_assoc (a b c : list Qc) :
  zip_with Qcplus (zip_with Qcplus a b) c = zip_with Qcplus a (zip_with Qcplus b c).
Proof.
  revert b c. induction a as [|x a IH]; intros [|y b] [|z c]; cbn [zip_with]; try done.
  by rewrite IH, Qcplus_assoc.
Qed.

Lemma zip_with_plus_zeros (a : list Qc) (n : nat) :
  length a = n -> zip_with Qcplus a (np_zeros n) = a.
Proof.
  intros <-. induction a as [|x a IH]; [done|].
  cbn [length np_zeros replicate zip_with]. fold (np_zeros (length a)).
  by rewrite IH, Qcplus_0_r.
Qed.

Lemma zip_with_zeros_plus (a : list Qc) (n : nat) :
  length a = n -> zip_with Qcplus (np_zeros n) a = a.
Proof.
  intros <-. induction a as [|x a IH]; [done|].
  cbn [length np_zeros replicate zip_with]. fold (np_zeros (length a)).
  by rewrite IH, Qcplus_0_l.
Qed.

Lemma zip_with_plus_minus (a b : list Qc) :
  length a = length b -> zip_with Qcminus (zip_with Qcplus a b) a = b.
Proof.
  revert b. induction a as [|x a IH]; intros [|y b] Hlen; try done.
  cbn [zip_with]. injection Hlen as Hlen. rewrite IH by done. f_equal. ring.
Qed.

Lemma regret_delta_length (reward : Qc) (history : list DeepCFR.decision)
    (key : DeepCFR.state) :
  length (regret_delta reward history key) = 5%nat.
Proof.
  induction history as [|d history IH]; [done|].
  cbn [regret_delta]. rewrite length_zip_with, IH.
  case_decide; [|done].
  destruct (DeepCFR.immediate_regret_of reward d) as [r| |e] eqn:Hr; [|done|done].
  destruct (immediate_regret_spec _ _ _ Hr) as (-> & _). done.
Qed.

(** The cumulative regrets after a run are those before it plus a vector that
    is computed from the trajectory and the reward alone. *)
Lemma update_loop_delta (reward : Qc) (t t' : DeepCFR.trainer)
    (history : list DeepCFR.decision) (key : DeepCFR.state) :
  wf t -> DeepCFR.update_loop reward t history = Returns t' ->
  regret_of t' key = zip_with Qcplus (regret_of t key) (regret_delta reward history key).
Proof.
  revert t. induction history as [|d history IH]; intros t Hwf; cbn [DeepCFR.update_loop].
  - intros [= <-]. cbn [regret_delta].
    by rewrite zip_with_plus_zeros by (by apply regret_of_length).
  - intros (t1 & Hd & Hrest)%bind_returns.
    destruct (update_decision_spec _ _ _ _ Hwf Hd)
      as (immediate & l & Himm & Hwf1 & _ & Hadd & Hframe & _).
    rewrite (IH _ Hwf1 Hrest). cbn [regret_delta]. rewrite Himm.
    rewrite <- zip_with_plus_assoc. f_equal.
    case_decide as Hk.
    + by rewrite <- Hk, Hadd.
    + rewrite Hframe by done.
      by rewrite zip_with_plus_zeros by (by apply regret_of_length).
Qed.

(** C10.  Replaying a trajectory with the same final rewards adds the same
    vector to the cumulative regret of every key, whatever the table held
    before: the difference is [regret_delta], a function of the trajectory and
    the training player's reward. *)
Theorem regret_update_replay
    (t1 t2 t1' t2' : DeepCFR.trainer) (history : list DeepCFR.decision)
    (final_rewards : gmap string Qc) (key : DeepCFR.state) :
  wf t1 -> wf t2 ->
  DeepCFR.training_agent t1 = DeepCFR.training_agent t2 ->
  DeepCFR._update_regrets t1 history final_rewards = Returns t1' ->
  DeepCFR._update_regrets t2 history final_rewards = Returns t2' ->
  zip_with Qcminus (regret_of t1' key) (regret_of t1 key)
  = zip_with Qcminus (regret_of t2' key) (regret_of t2 key)
  /\ zip_with Qcminus (regret_of t1' key) (regret_of t1 key)
     = regret_delta (default 0%Qc (final_rewards !! DeepCFR.training_agent t1))
         history key.
Proof.
  intros Hwf1 Hwf2 Hagent Hrun1 Hrun2. unfold DeepCFR._update_regrets in *.
  rewrite <- Hagent in Hrun2.
  rewrite (update_loop_delta _ _ _ _ key Hwf1 Hrun1).
  rewrite (update_loop_delta _ _ _ _ key Hwf2 Hrun2).
  rewrite !zip_with_plus_minus
    by (by rewrite regret_of_length, regret_delta_length).
  done.
Qed.

Lemma regret_update_replay_witness :
  exists (t' t'' : DeepCFR.trainer),
    DeepCFR._update_regrets DeepCFR.init [example_decision_1; example_decision_2]
      example_rewards = Returns t' /\
    DeepCFR._update_regrets t' [example_decision_1; example_decision_2]
      example_rewards = Returns t'' /\
    zip_with Qcminus (regret_of t' (dec 9 10, Qc_of_Z 3))
      (regret_of DeepCFR.init (dec 9 10, Qc_of_Z 3))
    = zip_with Qcminus (regret_of t'' (dec 9 10, Qc_of_Z 3))
        (regret_of t' (dec 9 10, Qc_of_Z 3)).
Proof.
  assert (exists t', DeepCFR._update_regrets DeepCFR.init
                       [example_decision_1; example_decision_2] example_rewards
                     = Returns t') as [t' Hrun1].
  { eexists. vm_compute. reflexivity. }
  assert (wf t') as Hwf'.
  { unfold DeepCFR._update_regrets in Hrun1. eapply update_loop_wf; [|exact Hrun1].
    exact wf_init. }
  assert (DeepCFR.training_agent t' = "player_0"%string) as Hagent.
  { vm_compute in Hrun1. injection Hrun1 as <-. reflexivity. }
  assert (exists t'', DeepCFR._update_regrets t'
                        [example_decision_1; example_decision_2] example_rewards
                      = Returns t'') as [t'' Hrun2].
  { vm_compute in Hrun1. injection Hrun1 as <-. eexists. vm_compute. reflexivity. }
  exists t', t''. split; [exact Hrun1|]. split; [exact Hrun2|].
  apply (regret_update_replay DeepCFR.init t' t' t''
           [example_decision_1; example_decision_2] example_rewards
           (dec 9 10, Qc_of_Z 3) wf_init Hwf' (eq_sym Hagent) Hrun1 Hrun2).
Defined.

(** ** The replay buffer *)

(** The pairs of the replay buffer hold references: on a well-formed trainer
    every pair reads as the cumulative regret its state key has now. *)
Lemma buffer_view_current (t : DeepCFR.trainer) (s : DeepCFR.state) (v : list Qc) :
  wf t -> (s, v) ∈ buffer_view t -> v = regret_of t (DeepCFR.state_key s).
Proof.
  intros (_ & _ & Hbuf) Hin. unfold buffer_view in Hin.
  apply list_elem_of_fmap in Hin as ([s' l] & [= -> ->] & Hin).
  unfold regret_of. by rewrite (Hbuf _ _ Hin).
Qed.

(** C7 on the code.  After the first decision of the example hand the buffer
    holds one pair, with the regret vector of that moment.  The second
    decision falls on the same state key; after it both pairs of the buffer
    read as the new cumulative vector, so the first pair has changed. *)
Theorem replay_entry_overwritten :
  buffer_view <$> DeepCFR._update_regrets DeepCFR.init [example_decision_1]
                    example_rewards
    = Returns [((dec 9 10, Qc_of_Z 3), example_regret_1)] /\
  buffer_view <$> DeepCFR._update_regrets DeepCFR.init
                    [example_decision_1; example_decision_2] example_rewards
    = Returns [((dec 9 10, Qc_of_Z 3), zip_with Qcplus example_regret_1 example_regret_2);
               ((dec 9 10, Qc_of_Z 3), zip_with Qcplus example_regret_1 example_regret_2)] /\
  example_regret_1 ≠ zip_with Qcplus example_regret_1 example_regret_2.
Proof.
  split; [by_computation|]. split; [by_computation|].
  intros Heq. apply (f_equal (fun v => bool_decide (v !! 0%nat = Some (- dec 40000000 100000001)%Qc))) in Heq.
  vm_compute in Heq. discriminate Heq.
Qed.

Lemma deque_append_maxlen {A} (d : deque A) (x : A) :
  maxlen (deque_append d x) = maxlen d.
Proof. reflexivity. Qed.

(** Below capacity the element is added on the right. *)
Lemma deque_append_room {A} (d : deque A) (x : A) :
  (N.of_nat (length (items d)) < maxlen d)%N ->
  items (deque_append d x) = items d ++ [x].
Proof.
  intros Hlt. unfold deque_append. cbn [items].
  rewrite decide_False; [done|]. rewrite length_app. cbn [length]. lia.
Qed.

(** At capacity the oldest element leaves on the left and the size stays. *)
Lemma deque_append_full {A} (d : deque A) (x oldest : A) (rest : list A) :
  items d = oldest :: rest ->
  N.of_nat (length (items d)) = maxlen d ->
  items (deque_append d x) = rest ++ [x] /\
  length (items (deque_append d x)) = length (items d).
Proof.
  intros Hitems Hfull. unfold deque_append. cbn [items].
  rewrite decide_True by (rewrite length_app; cbn [length]; lia).
  rewrite Hitems. change (drop 1 ((oldest :: rest) ++ [x])) with (rest ++ [x]).
  split; [done|]. rewrite length_app. cbn [length]. lia.
Qed.

(** Within capacity before, within capacity after. *)
Lemma deque_append_bounded {A} (d : deque A) (x : A) :
  (N.of_nat (length (items d)) <= maxlen d)%N ->
  (N.of_nat (length (items (deque_append d x))) <= maxlen d)%N.
Proof.
  intros Hle. unfold deque_append. cbn [items]. case_decide as Hover.
  - rewrite length_drop, length_app. cbn [length]. lia.
  - lia.
Qed.

Example deque_append_evicts_oldest :
  items (deque_append (Deque 3 [1; 2; 3]) 4) = [2; 3; 4].
Proof. reflexivity. Qed.

(** What one pass of the loop body leaves untouched, and what it does to the
    replay buffer; no well-formedness is needed for this. *)
Lemma update_decision_frame (reward : Qc) (t t' : DeepCFR.trainer)
    (d : DeepCFR.decision) :
  DeepCFR.update_decision reward t d = Returns t' ->
  (exists l, DeepCFR.advantage_memory t'
             = deque_append (DeepCFR.advantage_memory t) (DeepCFR.state_tensor d, l)) /\
  DeepCFR.epsilon t' = DeepCFR.epsilon t /\
  DeepCFR.epsilon_decay t' = DeepCFR.epsilon_decay t /\
  DeepCFR.min_epsilon t' = DeepCFR.min_epsilon t /\
  DeepCFR.iterations t' = DeepCFR.iterations t /\
  DeepCFR.training_agent t' = DeepCFR.training_agent t.
Proof.
  unfold DeepCFR.update_decision.
  intros (immediate & _ & Hrest)%bind_returns.
  unfold DeepCFR.regrets_getitem in Hrest.
  destruct (DeepCFR.cumulative_regrets t !! _) as [l|];
    apply bind_returns in Hrest as (sum & _ & Hrest);
    apply bind_returns in Hrest as (c & _ & [= <-]);
    (split; [by eexists|done]).
Qed.

Lemma update_loop_frame (reward : Qc) (t t' : DeepCFR.trainer)
    (history : list DeepCFR.decision) :
  DeepCFR.update_loop reward t history = Returns t' ->
  (buffer_ok t -> buffer_ok t') /\
  DeepCFR.epsilon t' = DeepCFR.epsilon t /\
  DeepCFR.epsilon_decay t' = DeepCFR.epsilon_decay t /\
  DeepCFR.min_epsilon t' = DeepCFR.min_epsilon t /\
  DeepCFR.iterations t' = DeepCFR.iterations t /\
  DeepCFR.training_agent t' = DeepCFR.training_agent t.
Proof.
  revert t. induction history as [|d history IH]; intros t; cbn [DeepCFR.update_loop].
  - by intros [= <-].
  - intros (t1 & Hd & Hrest)%bind_returns.
    destruct (update_decision_frame _ _ _ _ Hd) as ([l Hmem] & He & Hed & Hme & Hit & Hag).
    destruct (IH _ Hrest) as (Hok & He' & Hed' & Hme' & Hit' & Hag').
    split; [|repeat split; congruence].
    intros [Hmax Hlen]. apply Hok. unfold buffer_ok. rewrite Hmem.
    rewrite deque_append_maxlen. split; [done|].
    rewrite <- Hmax. apply deque_append_bounded. by rewrite Hmax.
Qed.

(** ** Training iterations and the exploration rate *)

Lemma update_regrets_frame (t t' : DeepCFR.trainer) (history : list DeepCFR.decision)
    (final_rewards : gmap string Qc) :
  DeepCFR._update_regrets t history final_rewards = Returns t' ->
  (buffer_ok t -> buffer_ok t') /\
  DeepCFR.epsilon t' = DeepCFR.epsilon t /\
  DeepCFR.epsilon_decay t' = DeepCFR.epsilon_decay t /\
  DeepCFR.min_epsilon t' = DeepCFR.min_epsilon t /\
  DeepCFR.iterations t' = DeepCFR.iterations t /\
  DeepCFR.training_agent t' = DeepCFR.training_agent t.
Proof. apply update_loop_frame. Qed.

Section TrainingFacts.

Variable play_hand : DeepCFR.trainer -> outcome (list DeepCFR.decision * gmap string Qc).
Variable _save_checkpoint : DeepCFR.trainer -> outcome unit.

(** One completed pass of the loop of [train]: the counter goes up by one and
    the exploration rate is updated once. *)
Lemma train_loop_step (save_interval : Z) (t t' : DeepCFR.trainer) :
  DeepCFR.train_loop play_hand _save_checkpoint 1 save_interval t = Returns t' ->
  (buffer_ok t -> buffer_ok t') /\
  DeepCFR.iterations t' = DeepCFR.iterations t + 1 /\
  DeepCFR.epsilon t'
    = py_max (DeepCFR.min_epsilon t) (DeepCFR.epsilon t * DeepCFR.epsilon_decay t)%Qc /\
  DeepCFR.epsilon_decay t' = DeepCFR.epsilon_decay t /\
  DeepCFR.min_epsilon t' = DeepCFR.min_epsilon t.
Proof.
  cbn [DeepCFR.train_loop]. unfold DeepCFR._cfr_iteration.
  intros (t1 & ([history final_rewards] & _ & Hupd)%bind_returns & Hrest)%bind_returns.
  apply bind_returns in Hrest as (t2 & Hsave & [= <-]).
  destruct (update_regrets_frame _ _ _ _ Hupd) as (Hok & He & Hed & Hme & Hit & _).
  cbn in He, Hed, Hme, Hit, Hok.
  assert (t2 = DeepCFR.set_epsilon
                 (py_max (DeepCFR.min_epsilon t1)
                    (DeepCFR.epsilon t1 * DeepCFR.epsilon_decay t1)%Qc) t1) as ->.
  { repeat case_decide; try done.
    - by apply bind_returns in Hsave as (_ & _ & [= <-]).
    - by injection Hsave as <-. }
  split; [|cbn; rewrite He, Hed, Hme, Hit; done].
  intros Hb. apply Hok, Hb.
Qed.

Lemma train_loop_succ (n : nat) (save_interval : Z) (t : DeepCFR.trainer) :
  DeepCFR.train_loop play_hand _save_checkpoint (S n) save_interval t
  = DeepCFR.train_loop play_hand _save_checkpoint 1 save_interval t
      ≫= DeepCFR.train_loop play_hand _save_checkpoint n save_interval.
Proof.
  cbn [DeepCFR.train_loop].
  destruct (DeepCFR._cfr_iteration play_hand _) as [t1| |e]; [|done|done].
  cbn [mbind outcome_bind].
  repeat case_decide; try done.
  by destruct (_save_checkpoint _) as [[]| |].
Qed.

End TrainingFacts.

Lemma iter_shift {A} (f : A -> A) (n : nat) (x : A) :
  Nat.iter n f (f x) = f (Nat.iter n f x).
Proof. induction n as [|n IH]; [done|]. simpl. by rewrite <- IH. Qed.

(** [n] completed passes: the counter goes up by [n] and the update of the
    exploration rate has been applied [n] times. *)
Lemma train_loop_iterates
    (play_hand : DeepCFR.trainer -> outcome (list DeepCFR.decision * gmap string Qc))
    (_save_checkpoint : DeepCFR.trainer -> outcome unit)
    (n : nat) (save_interval : Z) (t t' : DeepCFR.trainer) :
  DeepCFR.train_loop play_hand _save_checkpoint n save_interval t = Returns t' ->
  (buffer_ok t -> buffer_ok t') /\
  DeepCFR.iterations t' = DeepCFR.iterations t + Z.of_nat n /\
  DeepCFR.epsilon t'
    = Nat.iter n (fun e => py_max (DeepCFR.min_epsilon t) (e * DeepCFR.epsilon_decay t)%Qc)
        (DeepCFR.epsilon t) /\
  DeepCFR.epsilon_decay t' = DeepCFR.epsilon_decay t /\
  DeepCFR.min_epsilon t' = DeepCFR.min_epsilon t.
Proof.
  revert t. induction n as [|n IH]; intros t.
  - intros [= <-]. split; [done|]. split; [lia|done].
  - rewrite train_loop_succ.
    intros (t1 & Hstep & Hrest)%bind_returns.
    destruct (train_loop_step _ _ _ _ _ Hstep) as (Hok1 & Hit1 & He1 & Hed1 & Hme1).
    destruct (IH _ Hrest) as (Hok & Hit & He & Hed & Hme).
    split; [auto|]. split; [lia|]. split; [|split; congruence].
    rewrite He, He1, Hed1, Hme1.
    exact (iter_shift (fun e => py_max (DeepCFR.min_epsilon t)
                                  (e * DeepCFR.epsilon_decay t)%Qc) n (DeepCFR.epsilon t)).
Qed.

Lemma py_max_step (m a d : Qc) :
  (0 <= m)%Qc -> (0 <= d)%Qc -> (d <= 1)%Qc ->
  py_max m (py_max m a * d)%Qc = py_max m (a * d)%Qc.
Proof.
  intros Hm Hd0 Hd1. unfold py_max at 2.
  assert (m * d <= m)%Qc as Hmd.
  { rewrite <- (Qcmult_1_l m) at 2. rewrite (Qcmult_comm m d).
    by apply Qcmult_le_compat_r. }
  case_decide as Hlt; [done|].
  apply Qcnot_lt_le in Hlt.
  assert (a * d <= m)%Qc as Had.
  { eapply Qcle_trans; [|exact Hmd]. by apply Qcmult_le_compat_r. }
  unfold py_max. rewrite !decide_False; [done| |]; by apply Qcle_not_lt.
Qed.

(** The closed form of the schedule, for a floor that is not negative and not
    above the starting rate, and a decay factor between 0 and 1. *)
Lemma epsilon_closed_form (m e d : Qc) (n : nat) :
  (0 <= m)%Qc -> (m <= e)%Qc -> (0 <= d)%Qc -> (d <= 1)%Qc ->
  Nat.iter n (fun x => py_max m (x * d)%Qc) e = py_max m (e * d ^ n)%Qc.
Proof.
  intros Hm Hme Hd0 Hd1. induction n as [|n IH].
  - change (Nat.iter 0 (fun x => py_max m (x * d)%Qc) e) with e.
    cbn [Qcpower]. rewrite Qcmult_1_r. unfold py_max.
    case_decide as Hlt; [done|]. apply Qcnot_lt_le in Hlt. by apply Qcle_antisym.
  - change (Nat.iter (S n) (fun x => py_max m (x * d)%Qc) e)
      with (py_max m (Nat.iter n (fun x => py_max m (x * d)%Qc) e * d)%Qc).
    rewrite IH, py_max_step by done.
    f_equal. cbn [Qcpower]. ring.
Qed.

Lemma schedule_check_sound (k : nat) (x : PrimFloat.float) (c : Q) :
  schedule_check k x c = true ->
  forall i, (i <= k)%nat ->
    within (Nat.iter i Float64.decay x) (Nat.iter i (fun c => c * (995 # 1000))%Q c) = true.
Proof.
  revert x c. induction k as [|k IH]; intros x c Hcheck i Hi; cbn [schedule_check] in Hcheck;
    apply andb_prop in Hcheck as [Hhere Hrest].
  - by replace i with 0%nat by lia.
  - destruct i as [|i]; [done|]. rewrite !Nat.iter_succ_r. apply IH; [done|lia].
Qed.

(** The first 542 binary64 rates, compared one by one with the closed form. *)
Lemma schedule_checked : schedule_check 541 Float64.epsilon (15 # 100)%Q = true.
Proof. vm_compute. reflexivity. Qed.

Lemma closed_form_steps_nonneg (n : nat) : (0 <= closed_form_steps n)%Q.
Proof.
  induction n as [|n IH]; [done|].
  change (closed_form_steps (S n)) with (closed_form_steps n * (995 # 1000))%Q.
  by apply Qmult_le_0_compat.
Qed.

Lemma closed_form_steps_succ (n : nat) : (closed_form_steps (S n) <= closed_form_steps n)%Q.
Proof.
  change (closed_form_steps (S n)) with (closed_form_steps n * (995 # 1000))%Q.
  pose proof (closed_form_steps_nonneg n) as Hn.
  assert ((995 # 1000) <= 1)%Q as Hq by done.
  nra.
Qed.

(** From iteration 541 on, [0.15 * 0.995^n] is below the floor. *)
Lemma closed_form_steps_floor (n : nat) :
  (541 <= n)%nat -> q_max (1 # 100) (closed_form_steps n) = (1 # 100)%Q.
Proof.
  intros Hn. unfold q_max.
  assert (closed_form_steps n <= 1 # 100)%Q as Hle.
  { induction Hn as [|n Hn IH].
    - apply Qle_bool_iff. vm_compute. reflexivity.
    - eapply Qle_trans; [apply closed_form_steps_succ|exact IH]. }
  apply Qle_bool_iff in Hle. by rewrite Hle.
Qed.

(** The floor is a fixed point of the binary64 update, reached at iteration
    541. *)
Lemma epsilon_after_floor (n : nat) :
  (541 <= n)%nat -> Float64.epsilon_after n = Float64.min_epsilon.
Proof.
  induction 1 as [|n Hn IH].
  - vm_compute. reflexivity.
  - change (Float64.epsilon_after (S n)) with (Float64.decay (Float64.epsilon_after n)).
    rewrite IH. vm_compute. reflexivity.
Qed.

Lemma epsilon_after_steps (n : nat) :
  (Qabs (Float64.value (Float64.epsilon_after n) - q_max (1 # 100) (closed_form_steps n))
   <= rounding_bound)%Q.
Proof.
  apply Qle_bool_iff. change (within (Float64.epsilon_after n) (closed_form_steps n) = true).
  destruct (decide (n <= 541)%nat) as [Hn|Hn].
  - exact (schedule_check_sound _ _ _ schedule_checked n Hn).
  - unfold within. rewrite epsilon_after_floor, closed_form_steps_floor by lia.
    vm_compute. reflexivity.
Qed.

Lemma closed_form_value (n : nat) :
  (this (closed_form n) == q_max (1 # 100) (closed_form_steps n))%Q.
Proof.
  assert (this (dec 15 100 * dec 995 1000 ^ n)%Qc == closed_form_steps n)%Q as Hsteps.
  { induction n as [|n IH].
    - done.
    - change (closed_form_steps (S n)) with (closed_form_steps n * (995 # 1000))%Q.
      rewrite <- IH. cbn [Qcpower]. generalize (dec 995 1000 ^ n)%Qc. intros p.
      unfold dec, Qcmult, Q2Qc. cbn [this]. rewrite !Qred_correct. ring. }
  unfold closed_form, py_max, q_max. case_decide as Hlt.
  - rewrite Hsteps. destruct (Qle_bool _ _) eqn:Hle; [|done].
    apply Qle_bool_iff in Hle. unfold Qclt in Hlt. rewrite Hsteps in Hlt.
    cbn in Hlt. rewrite Qred_correct in Hlt. by apply Qle_not_lt in Hle.
  - destruct (Qle_bool _ _) eqn:Hle.
    + cbn. apply Qred_correct.
    + destruct Hlt. unfold Qclt. rewrite Hsteps. cbn. rewrite Qred_correct.
      apply Qnot_le_lt. intros Hc. apply Qle_bool_iff in Hc. congruence.
Qed.

(** The binary64 rate stays within [1e-15] of the closed form, for every
    number of iterations. *)
Lemma epsilon_after_close (n : nat) :
  (Qabs (Float64.value (Float64.epsilon_after n) - closed_form n) <= rounding_bound)%Q.
Proof. rewrite closed_form_value. apply epsilon_after_steps. Qed.

(** C8.  A run of [train] that returns has completed [n] iterations, each of
    which updated the exploration rate once by
    [epsilon = max(min_epsilon, epsilon * epsilon_decay)].  With the
    parameters of [__init__] the rate the program holds after [n]
    iterations, computed in binary64 with every product rounded, is within
    [1e-15] of the rate of the exact trainer and of
    [max(0.01, 0.15 * 0.995 ^ n)], and from iteration 541 on it is exactly
    the floor [0.01]. *)
Theorem epsilon_decay_schedule
    (play_hand : DeepCFR.trainer -> outcome (list DeepCFR.decision * gmap string Qc))
    (_save_checkpoint : DeepCFR.trainer -> outcome unit)
    (count batch_size save_interval : Z) (t t' : DeepCFR.trainer) :
  DeepCFR.train play_hand _save_checkpoint count batch_size save_interval t
    = Returns t' ->
  DeepCFR.iterations t' = DeepCFR.iterations t + Z.of_nat (Z.to_nat count) /\
  DeepCFR.epsilon t'
    = Nat.iter (Z.to_nat count)
        (fun e => py_max (DeepCFR.min_epsilon t) (e * DeepCFR.epsilon_decay t)%Qc)
        (DeepCFR.epsilon t) /\
  (DeepCFR.epsilon t = dec 15 100 ->
   DeepCFR.epsilon_decay t = dec 995 1000 ->
   DeepCFR.min_epsilon t = dec 1 100 ->
   (Qabs (Float64.value (Float64.epsilon_after (Z.to_nat count)) - DeepCFR.epsilon t')
    <= rounding_bound)%Q) /\
  (Qabs (Float64.value (Float64.epsilon_after (Z.to_nat count))
         - closed_form (Z.to_nat count)) <= rounding_bound)%Q /\
  ((541 <= Z.to_nat count)%nat ->
   Float64.epsilon_after (Z.to_nat count) = Float64.min_epsilon).
Proof.
  unfold DeepCFR.train. intros Hrun.
  destruct (train_loop_iterates _ _ _ _ _ _ Hrun) as (_ & Hit & He & _ & _).
  split; [done|]. split; [done|]. split; [|split].
  - intros He0 Hd Hm. rewrite He, He0, Hd, Hm.
    rewrite epsilon_closed_form by by_computation. apply epsilon_after_close.
  - apply epsilon_after_close.
  - apply epsilon_after_floor.
Qed.

Lemma epsilon_decay_schedule_witness :
  exists t',
    DeepCFR.train idle_hand checkpoint_written 3 512 1000 DeepCFR.init = Returns t' /\
    DeepCFR.iterations t' = 3 /\
    (Qabs (Float64.value (Float64.epsilon_after 3) - DeepCFR.epsilon t')
     <= rounding_bound)%Q.
Proof.
  assert (exists t', DeepCFR.train idle_hand checkpoint_written 3 512 1000 DeepCFR.init
                     = Returns t') as [t' Hrun].
  { eexists. vm_compute. reflexivity. }
  destruct (epsilon_decay_schedule _ _ _ _ _ _ _ Hrun) as (Hit & _ & He & _).
  exists t'. split; [exact Hrun|]. split; [exact Hit|].
  apply He; reflexivity.
Defined.

(** C8, the closed form is not met exactly.  After ten iterations the
    program holds 0.14266651956986576, that is 5140103074984744 / 2^55.
    This is not [max(0.01, 0.15 * 0.995 ^ 10)], and it is not the binary64
    number nearest to it either: the next binary64 number up,
    0.14266651956986579, is closer. *)
Theorem epsilon_after_ten_updates :
  (Float64.value (Float64.epsilon_after 10)
   == 5140103074984744 # 36028797018963968)%Q /\
  (Float64.value (PrimFloat.next_up (Float64.epsilon_after 10))
   == 5140103074984745 # 36028797018963968)%Q /\
  ~ (Float64.value (Float64.epsilon_after 10) == closed_form 10)%Q /\
  (Qabs (Float64.value (PrimFloat.next_up (Float64.epsilon_after 10)) - closed_form 10)
   < Qabs (Float64.value (Float64.epsilon_after 10) - closed_form 10))%Q.
Proof.
  split; [|split; [|split]].
  - vm_compute. reflexivity.
  - vm_compute. reflexivity.
  - intros Heq. apply Qeq_bool_iff in Heq. vm_compute in Heq. discriminate.
  - vm_compute. reflexivity.
Qed.

(** ** The capacity of the replay buffer *)

(** C9.  The replay buffer is created with capacity 10^6 and empty; a run of
    [_update_regrets] and a run of [train] keep the capacity and keep the
    buffer within it; and an append to the buffer at capacity drops exactly
    the oldest pair, puts the new one last and leaves the size at capacity. *)
Theorem replay_buffer_bounded_fifo :
  buffer_ok DeepCFR.init /\
  (forall t history final_rewards t',
     buffer_ok t ->
     DeepCFR._update_regrets t history final_rewards = Returns t' ->
     buffer_ok t') /\
  (forall play_hand _save_checkpoint count batch_size save_interval t t',
     buffer_ok t ->
     DeepCFR.train play_hand _save_checkpoint count batch_size save_interval t
       = Returns t' ->
     buffer_ok t') /\
  (forall t entry oldest rest,
     buffer_ok t ->
     items (DeepCFR.advantage_memory t) = oldest :: rest ->
     N.of_nat (length (items (DeepCFR.advantage_memory t))) = 1000000%N ->
     items (deque_append (DeepCFR.advantage_memory t) entry) = rest ++ [entry] /\
     N.of_nat (length (items (deque_append (DeepCFR.advantage_memory t) entry)))
       = 1000000%N).
Proof.
  split; [|split; [|split]].
  - split; [done|]. cbn. lia.
  - intros t history final_rewards t' Hok Hrun.
    by apply (update_regrets_frame _ _ _ _ Hrun).
  - intros play_hand _save_checkpoint count batch_size save_interval t t' Hok Hrun.
    unfold DeepCFR.train in Hrun.
    by apply (train_loop_iterates _ _ _ _ _ _ Hrun).
  - intros t entry oldest rest [Hmax _] Hitems Hfull.
    destruct (deque_append_full (DeepCFR.advantage_memory t) entry oldest rest Hitems)
      as [Happ Hlen]; [by rewrite Hmax|].
    split; [done|]. by rewrite Hlen.
Qed.

Lemma replay_buffer_bounded_fifo_witness :
  buffer_ok full_buffer_trainer /\
  items (deque_append (DeepCFR.advantage_memory full_buffer_trainer)
           ((dec 9 10, Qc_of_Z 3), 1%nat))
    = replicate (N.to_nat 999999) ((dec 9 10, Qc_of_Z 3), 0%nat)
        ++ [((dec 9 10, Qc_of_Z 3), 1%nat)].
Proof.
  assert (N.of_nat (length (items (DeepCFR.advantage_memory full_buffer_trainer)))
          = 1000000%N) as Hfull.
  { unfold full_buffer_trainer.
    cbn [DeepCFR.advantage_memory DeepCFR.set_advantage_memory items].
    rewrite length_replicate. apply N2Nat.id. }
  assert (buffer_ok full_buffer_trainer) as Hok.
  { split; [reflexivity|]. rewrite Hfull. apply N.le_refl. }
  split; [exact Hok|].
  destruct replay_buffer_bounded_fifo as (_ & _ & _ & Hfifo).
  apply (Hfifo full_buffer_trainer ((dec 9 10, Qc_of_Z 3), 1%nat)
           ((dec 9 10, Qc_of_Z 3), 0%nat)
           (replicate (N.to_nat 999999) ((dec 9 10, Qc_of_Z 3), 0%nat)) Hok);
    [|exact Hfull].
  unfold full_buffer_trainer.
  cbn [DeepCFR.advantage_memory DeepCFR.set_advantage_memory items].
  replace (N.to_nat 1000000) with (S (N.to_nat 999999)); [reflexivity|].
  rewrite <- N2Nat.inj_succ. reflexivity.
Defined.

(** ** Well-formedness along a training run

    The trainer [__init__] builds is well-formed ([wf_init]); a run of
    [_update_regrets] keeps it so ([update_loop_wf]), and so does [train]. *)

Lemma train_loop_wf
    (play_hand : DeepCFR.trainer -> outcome (list DeepCFR.decision * gmap string Qc))
    (_save_checkpoint : DeepCFR.trainer -> outcome unit)
    (n : nat) (save_interval : Z) (t t' : DeepCFR.trainer) :
  wf t ->
  DeepCFR.train_loop play_hand _save_checkpoint n save_interval t = Returns t' ->
  wf t'.
Proof.
  revert t. induction n as [|n IH]; intros t Hwf; cbn [DeepCFR.train_loop].
  - by intros [= <-].
  - unfold DeepCFR._cfr_iteration.
    intros (t1 & ([history final_rewards] & _ & Hupd)%bind_returns & Hrest)%bind_returns.
    apply bind_returns in Hrest as (t2 & Hsave & Hrest).
    assert (wf t1) as Hwf1 by (by eapply update_loop_wf; [|exact Hupd]).
    apply (IH t2); [|done].
    assert (t2 = DeepCFR.set_epsilon
                   (py_max (DeepCFR.min_epsilon t1)
                      (DeepCFR.epsilon t1 * DeepCFR.epsilon_decay t1)%Qc) t1) as ->.
    { repeat case_decide; try done.
      - by apply bind_returns in Hsave as (_ & _ & [= <-]).
      - by injection Hsave as <-. }
    exact Hwf1.
Qed.

(** * Further properties of the code *)

(** ** Card conversion *)

(** X1.  [HandProcessor.convert_card] is injective on the valid ids: two
    different ids in [1, 52] convert to two different cards. *)
Theorem convert_card_injective (i j : Z) :
  1 <= i <= 52 -> 1 <= j <= 52 -> i ≠ j ->
  HandProcessor.convert_card i ≠ HandProcessor.convert_card j.
Proof.
  intros Hi Hj Hne Heq. apply Hne.
  destruct (convert_card_valid i Hi) as (ci & Hci & Hri & Hsi).
  destruct (convert_card_valid j Hj) as (cj & Hcj & Hrj & Hsj).
  rewrite Hci, Hcj in Heq. injection Heq as ->.
  rewrite Hri in Hrj. rewrite Hsi in Hsj.
  injection Hrj as Hrank. injection Hsj as Hsuit.
  apply suit_code_inj in Hsuit; [|apply card_suit_range..].
  unfold card_rank, card_suit in *.
  pose proof (Z.div_mod (i - 1) 4). pose proof (Z.div_mod (j - 1) 4). lia.
Qed.

Lemma convert_card_injective_witness :
  HandProcessor.convert_card 1 ≠ HandProcessor.convert_card 52.
Proof. apply convert_card_injective; lia. Defined.

Lemma py_index_below_range {A} (l : list A) (i : Z) :
  i < - Z.of_nat (length l) -> py_index l i = Raises IndexError.
Proof.
  intros Hi. unfold py_index.
  destruct (Z.ltb_spec i 0) as [_|?]; [|lia].
  destruct (Z.leb_spec 0 (i + Z.of_nat (length l))) as [?|_]; [lia|]. done.
Qed.

Lemma card_wrap_check_all : forallb card_wrap_check (seqZ (-51) 51) = true.
Proof. vm_compute. reflexivity. Qed.

(** X2.  A negative id handed to [HandProcessor.convert_card] is not refused:
    the rank list is indexed from its end, so an id in [-51, -1] converts to
    the card of the id 52 above it; from -52 downwards the answer is
    [None]. *)
Theorem convert_card_negative (idx : Z) :
  (-52 < idx < 0 ->
   HandProcessor.convert_card idx = HandProcessor.convert_card (idx + 52) /\
   exists c, HandProcessor.convert_card idx = Returns (Some c)) /\
  (idx <= -52 -> HandProcessor.convert_card idx = Returns None).
Proof.
  split.
  - intros Hidx.
    pose proof card_wrap_check_all as Hall. rewrite forallb_forall in Hall.
    assert (In idx (seqZ (-51) 51)) as Hin.
    { apply list_elem_of_In, elem_of_seqZ. lia. }
    specialize (Hall idx Hin). unfold card_wrap_check in Hall.
    apply bool_decide_eq_true in Hall. split; [done|].
    rewrite Hall.
    destruct (convert_card_valid (idx + 52)) as (c & -> & _); [lia|]. eauto.
  - intros Hidx. unfold HandProcessor.convert_card.
    rewrite decide_False by lia.
    rewrite (py_index_below_range HandProcessor.ranks); [done|].
    change (Z.of_nat (length HandProcessor.ranks)) with 13.
    assert ((idx - 1) / 4 <= -14); [|lia].
    apply Z.lt_succ_r, Z.div_lt_upper_bound; lia.
Qed.

Lemma card_name_check_all : forallb card_name_check (seqZ 1 52) = true.
Proof. vm_compute. reflexivity. Qed.

Lemma dict_getitem_missing (d : list (Z * string)) (k : Z) :
  Forall (fun kv => kv.1 ≠ k) d -> PokerEnv.dict_getitem d k = Raises KeyError.
Proof.
  induction 1 as [|[k' v] d Hk _ IH]; [done|].
  cbn [PokerEnv.dict_getitem]. by rewrite decide_False.
Qed.

(** X3.  The two card converters agree on the valid ids: for an id in
    [1, 52], [PokerEnv._convert_card] returns a name that [deuces] reads as
    the card [HandProcessor.convert_card] builds.  Outside [0, 52] the
    [PokerEnv] converter raises [KeyError]. *)
Theorem card_name_matches_card (idx : Z) :
  (1 <= idx <= 52 ->
   exists name, PokerEnv._convert_card idx = Returns (Some name) /\
                Some <$> Card.new name = HandProcessor.convert_card idx) /\
  (idx < 0 \/ 52 < idx -> PokerEnv._convert_card idx = Raises KeyError).
Proof.
  split.
  - intros Hidx.
    pose proof card_name_check_all as Hall. rewrite forallb_forall in Hall.
    assert (In idx (seqZ 1 52)) as Hin.
    { apply list_elem_of_In, elem_of_seqZ. lia. }
    specialize (Hall idx Hin). unfold card_name_check in Hall.
    destruct (PokerEnv._convert_card idx) as [[name|]| |]; try done.
    apply bool_decide_eq_true in Hall. eauto.
  - intros Hidx. unfold PokerEnv._convert_card.
    rewrite decide_False by lia.
    rewrite (dict_getitem_missing PokerEnv.rank_map); [done|].
    assert ((idx - 1) / 4 < 0 \/ 12 < (idx - 1) / 4) as Hrank.
    { destruct Hidx; [left|right].
      - apply Z.div_lt_upper_bound; lia.
      - assert (13 <= (idx - 1) / 4) by (apply Z.div_le_lower_bound; lia). lia. }
    unfold PokerEnv.rank_map.
    repeat (apply Forall_cons; split; [cbn; lia|]). apply Forall_nil_2.
Qed.

Lemma np_where_eq1_elem (a : list Qc) (i : Z) :
  i ∈ np_where_eq1 a -> 0 <= i < Z.of_nat (length a).
Proof.
  unfold np_where_eq1. intros Hin.
  apply list_elem_of_omap in Hin as ([j x] & Hin & Hsome).
  case_decide; [|done]. injection Hsome as ->.
  apply elem_of_zip_l, elem_of_seqZ in Hin. lia.
Qed.

(** Every id in [1, 52] has a name. *)
Lemma card_name_exists (idx : Z) :
  1 <= idx <= 52 -> exists name, PokerEnv._convert_card idx = Returns (Some name).
Proof.
  intros Hidx.
  pose proof card_name_check_all as Hall. rewrite forallb_forall in Hall.
  assert (In idx (seqZ 1 52)) as Hin.
  { apply list_elem_of_In, elem_of_seqZ. lia. }
  specialize (Hall idx Hin). unfold card_name_check in Hall.
  destruct (PokerEnv._convert_card idx) as [[name|]| |]; try done. eauto.
Qed.

(** X4.  [PokerEnv._get_player_cards] raises nothing on any observation: it
    returns one card name for every flag set among the first 52 entries. *)
Theorem get_player_cards_names (observation : list Qc) :
  exists names,
    PokerEnv._get_player_cards observation = Returns (Some <$> names) /\
    length names = length (np_where_eq1 (take 52 observation)).
Proof.
  unfold PokerEnv._get_player_cards.
  assert (Forall (fun i => 0 <= i < 52) (np_where_eq1 (take 52 observation))) as Hrange.
  { apply Forall_forall. intros i Hi%np_where_eq1_elem.
    rewrite length_take in Hi. lia. }
  induction Hrange as [|i rest Hi _ (names & Hnames & Hlen)].
  - by exists [].
  - destruct (card_name_exists (i + 1)) as (name & Hname); [lia|].
    exists (name :: names). cbn [fmap list_fmap sequence].
    rewrite Hname. cbn [mbind outcome_bind].
    change (list_fmap Z (outcome (option string))
              (fun i => PokerEnv._convert_card (i + 1)) rest)
      with ((fun i => PokerEnv._convert_card (i + 1)) <$> rest).
    rewrite Hnames. cbn [mbind outcome_bind length]. split; [done|]. by rewrite Hlen.
Qed.

(** ** Hand strength *)

(** Pre-flop strength of two valid hole cards, for the properties below. *)
Lemma get_strength_two_cards
    (evaluate : list (option Z) -> list (option Z) -> exn + Z)
    (h1 h2 : Z) (board_indices : list Z) :
  1 <= h1 <= 52 -> 1 <= h2 <= 52 -> (board_size board_indices < 3)%nat ->
  HandProcessor.get_strength evaluate [h1; h2] board_indices
  = Returns (preflop_table h1 h2).
Proof.
  intros Hh1 Hh2 Hboard.
  destruct (convert_card_valid h1 Hh1) as (c1 & Hc1 & Hr1 & Hs1).
  destruct (convert_card_valid h2 Hh2) as (c2 & Hc2 & Hr2 & Hs2).
  destruct (board_converts board_indices) as (board & Hb & Hlen).
  unfold HandProcessor.get_strength.
  rewrite !filter_cons_True by lia. rewrite filter_nil.
  change (HandProcessor.convert_card <$> [h1; h2])
    with [HandProcessor.convert_card h1; HandProcessor.convert_card h2].
  cbn [sequence]. rewrite Hc1, Hc2, Hb. cbn [mbind outcome_bind].
  rewrite decide_True by (unfold board_size in Hboard; lia).
  by rewrite (estimate_preflop_two c1 c2 h1 h2).
Qed.

(** X5.  Pre-flop, the strength of two valid hole cards does not depend on
    the order in which the two ids are given. *)
Theorem preflop_strength_symmetric
    (evaluate : list (option Z) -> list (option Z) -> exn + Z)
    (h1 h2 : Z) (board_indices : list Z) :
  1 <= h1 <= 52 -> 1 <= h2 <= 52 -> (board_size board_indices < 3)%nat ->
  HandProcessor.get_strength evaluate [h1; h2] board_indices
  = HandProcessor.get_strength evaluate [h2; h1] board_indices.
Proof.
  intros Hh1 Hh2 Hboard. rewrite !get_strength_two_cards by done.
  f_equal. unfold preflop_table, is_pair, is_connector, is_suited.
  repeat case_decide; try done; exfalso; lia.
Qed.

Lemma preflop_strength_symmetric_witness :
  HandProcessor.get_strength no_table_evaluate [5; 10] [3]
  = HandProcessor.get_strength no_table_evaluate [10; 5] [3].
Proof. apply preflop_strength_symmetric; [lia | lia | vm_compute; lia]. Defined.

(** X6.  Pre-flop, whatever the hole ids are (none, one, many, invalid ones),
    the strength is 0.0 or one of the five values of the table. *)
Theorem preflop_strength_values
    (evaluate : list (option Z) -> list (option Z) -> exn + Z)
    (hole_indices board_indices : list Z) :
  (board_size board_indices < 3)%nat ->
  exists q, HandProcessor.get_strength evaluate hole_indices board_indices = Returns q /\
            (q = 0%Qc \/ q ∈ preflop_values).
Proof.
  intros Hboard. unfold HandProcessor.get_strength.
  destruct (board_converts hole_indices) as (hole & -> & _).
  destruct (board_converts board_indices) as (board & -> & Hlen).
  cbn [mbind outcome_bind].
  rewrite decide_True by (unfold board_size in Hboard; lia).
  pose proof (estimate_preflop_finite hole) as Hfin.
  destruct (HandProcessor._estimate_preflop_strength hole) as [q| |e] eqn:Hq;
    [|done|exists 0%Qc; split; [done|by left]].
  exists q. split; [done|]. right.
  unfold HandProcessor._estimate_preflop_strength in Hq.
  repeat (apply bind_returns in Hq as (? & _ & Hq)).
  unfold preflop_values.
  case_decide; [injection Hq as <-; set_solver|].
  repeat (apply bind_returns in Hq as (? & _ & Hq)).
  repeat case_decide; try case_bool_decide; injection Hq as <-; set_solver.
Qed.

Lemma preflop_strength_values_witness :
  exists q, HandProcessor.get_strength no_table_evaluate [3; 17; 60] [] = Returns q /\
            (q = 0%Qc \/ q ∈ preflop_values).
Proof. apply preflop_strength_values. vm_compute. lia. Defined.

Ltac qc_to_q :=
  unfold Qcle, Qclt, Qcdiv, Qcminus, Qcplus, Qcmult, Qcopp, Qcinv, Q2Qc, Qc_of_Z, dec in *;
  cbn [this] in *; rewrite ?Qred_correct in *.

Lemma strength_of_score_lt (s1 s2 : Z) :
  s1 < s2 ->
  (1 - Card.get_five_card_rank_percentage s2
   < 1 - Card.get_five_card_rank_percentage s1)%Qc.
Proof.
  intros Hlt. unfold Card.get_five_card_rank_percentage, Card.MAX_HIGH_CARD. qc_to_q.
  assert (inject_Z s1 < inject_Z s2)%Q by (by rewrite <- Zlt_Qlt).
  unfold Qdiv. change (/ inject_Z 7462)%Q with (1 # 7462)%Q. lra.
Qed.

Lemma strength_of_score_range (s : Z) :
  1 <= s <= 7462 ->
  (0 <= 1 - Card.get_five_card_rank_percentage s)%Qc /\
  (1 - Card.get_five_card_rank_percentage s < 1)%Qc.
Proof.
  intros [Hlo Hhi]. unfold Card.get_five_card_rank_percentage, Card.MAX_HIGH_CARD.
  qc_to_q.
  assert (inject_Z 1 <= inject_Z s)%Q by (by rewrite <- Zle_Qle).
  assert (inject_Z s <= inject_Z 7462)%Q by (by rewrite <- Zle_Qle).
  unfold Qdiv. change (/ inject_Z 7462)%Q with (1 # 7462)%Q.
  change (inject_Z 1) with 1%Q in *. change (inject_Z 7462) with 7462%Q in *.
  split; lra.
Qed.

(** Post-flop, the strength is computed from the score of the evaluator. *)
Lemma get_strength_postflop
    (evaluate : list (option Z) -> list (option Z) -> exn + Z)
    (hole_indices board_indices : list Z) :
  (3 <= board_size board_indices)%nat ->
  HandProcessor.get_strength evaluate hole_indices board_indices
  = match evaluate (cards_of board_indices) (cards_of hole_indices) with
    | inr score => Returns (1 - Card.get_five_card_rank_percentage score)%Qc
    | inl _ => Returns 0%Qc
    end.
Proof.
  intros Hboard. unfold HandProcessor.get_strength, cards_of.
  destruct (board_converts hole_indices) as (hole & -> & _).
  destruct (board_converts board_indices) as (board & -> & Hlen).
  cbn [mbind outcome_bind].
  rewrite decide_False by (unfold board_size in Hboard; lia).
  by destruct (evaluate board hole).
Qed.

(** X7.  Post-flop (three board cards or more) the strength falls as the
    score of the evaluator rises: of two hands on the same board, the one
    with the lower score (the better hand for [deuces]) gets the strictly
    higher strength. *)
Theorem postflop_strength_monotone
    (evaluate : list (option Z) -> list (option Z) -> exn + Z)
    (hole_1 hole_2 board_indices : list Z) (score_1 score_2 : Z) :
  (3 <= board_size board_indices)%nat ->
  evaluate (cards_of board_indices) (cards_of hole_1) = inr score_1 ->
  evaluate (cards_of board_indices) (cards_of hole_2) = inr score_2 ->
  score_1 < score_2 ->
  exists q1 q2,
    HandProcessor.get_strength evaluate hole_1 board_indices = Returns q1 /\
    HandProcessor.get_strength evaluate hole_2 board_indices = Returns q2 /\
    (q2 < q1)%Qc.
Proof.
  intros Hboard H1 H2 Hlt.
  rewrite !get_strength_postflop by done. rewrite H1, H2.
  eexists _, _. split; [done|]. split; [done|]. by apply strength_of_score_lt.
Qed.

Lemma postflop_strength_monotone_witness :
  exists q1 q2,
    HandProcessor.get_strength counting_evaluate [1] [9; 10; 11] = Returns q1 /\
    HandProcessor.get_strength counting_evaluate [1; 2] [9; 10; 11] = Returns q2 /\
    (q2 < q1)%Qc.
Proof.
  apply (postflop_strength_monotone counting_evaluate [1] [1; 2] [9; 10; 11] 1 2);
    [vm_compute; lia | reflexivity | reflexivity | lia].
Defined.

(** X8.  Post-flop, a score in [1, 7462] gives a strength in [0, 1), and a
    failure of the evaluator gives the strength 0.0 instead of an error. *)
Theorem postflop_strength_range
    (evaluate : list (option Z) -> list (option Z) -> exn + Z)
    (hole_indices board_indices : list Z) :
  (3 <= board_size board_indices)%nat ->
  (forall score,
     evaluate (cards_of board_indices) (cards_of hole_indices) = inr score ->
     1 <= score <= 7462 ->
     exists q, HandProcessor.get_strength evaluate hole_indices board_indices
               = Returns q /\ (0 <= q)%Qc /\ (q < 1)%Qc) /\
  (forall e,
     evaluate (cards_of board_indices) (cards_of hole_indices) = inl e ->
     HandProcessor.get_strength evaluate hole_indices board_indices = Returns 0%Qc).
Proof.
  intros Hboard. rewrite get_strength_postflop by done. split.
  - intros score -> Hscore. eexists. split; [done|]. by apply strength_of_score_range.
  - by intros e ->.
Qed.

Lemma postflop_strength_range_witness :
  HandProcessor.get_strength no_table_evaluate [1; 2] [9; 10; 11] = Returns 0%Qc.
Proof.
  destruct (postflop_strength_range no_table_evaluate [1; 2] [9; 10; 11]) as [_ Hfail].
  - vm_compute. lia.
  - by apply (Hfail KeyError).
Defined.

(** ** The state encoder and the state key *)

Lemma rint_Z (z : Z) : rint (Qc_of_Z z) = z.
Proof.
  unfold rint, Qc_floor. cbn [this Qc_of_Z]. rewrite Qfloor_Z.
  replace (Qc_of_Z z - Qc_of_Z z)%Qc with 0%Qc by ring. reflexivity.
Qed.

Lemma Qc_cancel (a b c : Qc) : b ≠ 0%Qc -> (a / b * (b * c))%Qc = (a * c)%Qc.
Proof.
  intros Hb. unfold Qcdiv.
  rewrite (Qcmult_assoc (a * / b) b c), <- (Qcmult_assoc a (/ b) b).
  by rewrite Qcmult_inv_l, Qcmult_1_r.
Qed.

Lemma Qc_cancel_r (a b c : Qc) : c ≠ 0%Qc -> (a * c / (b * c))%Qc = (a / b)%Qc.
Proof.
  intros Hc. unfold Qcdiv. rewrite Qcinv_mult_distr.
  rewrite (Qcmult_comm (/ b) (/ c)), Qcmult_assoc, <- (Qcmult_assoc a c (/ c)).
  by rewrite Qcmult_inv_r, Qcmult_1_r.
Qed.

(** A number with at most two decimals is its own rounding to two decimals. *)
Lemma round_of_decimal (k : Z) (d : nat) :
  (d <= 2)%nat ->
  round (Qc_of_Z k / Qc_of_Z (10 ^ Z.of_nat d))%Qc 2
  = (Qc_of_Z k / Qc_of_Z (10 ^ Z.of_nat d))%Qc.
Proof.
  intros Hd. unfold round.
  assert (Qc_of_Z (10 ^ Z.of_nat 2)
          = (Qc_of_Z (10 ^ Z.of_nat d) * Qc_of_Z (10 ^ Z.of_nat (2 - d)))%Qc) as Hsplit.
  { rewrite <- Z2Qc_inj_mul, <- Z.pow_add_r by lia. do 2 f_equal. lia. }
  assert (Qc_of_Z (10 ^ Z.of_nat d) ≠ 0%Qc) as Hnz.
  { rewrite <- Z2Qc_inj_0. intros H%Z2Qc_inj. lia. }
  assert (Qc_of_Z (10 ^ Z.of_nat (2 - d)) ≠ 0%Qc) as Hnz'.
  { rewrite <- Z2Qc_inj_0. intros H%Z2Qc_inj. lia. }
  rewrite Hsplit, Qc_cancel by done.
  rewrite <- Z2Qc_inj_mul, rint_Z, Z2Qc_inj_mul.
  by apply Qc_cancel_r.
Qed.

Lemma round_of_round (x : Qc) (d : nat) :
  (d <= 2)%nat -> round (round x d) 2 = round x d.
Proof. intros Hd. unfold round at 2 3. by apply round_of_decimal. Qed.

(** X9.  An encoded state is its own state key: the rounding to two decimals
    that [_update_regrets] applies to the state tensor changes nothing in
    what [encode_state] returned. *)
Theorem encoded_state_is_key
    (evaluate : list (option Z) -> list (option Z) -> exn + Z)
    (board_indices : list Z) (observation : list Qc) (s : DeepCFR.state) :
  DeepCFR.encode_state evaluate board_indices observation = Returns s ->
  DeepCFR.state_key s = s.
Proof.
  unfold DeepCFR.encode_state. intros Hs.
  repeat (apply bind_returns in Hs as (? & _ & Hs)).
  injection Hs as <-. unfold DeepCFR.state_key. cbn [fst snd].
  by rewrite !round_of_round by lia.
Qed.

Lemma encoded_state_is_key_witness :
  DeepCFR.state_key (dec 9 10, 0%Qc) = (dec 9 10, 0%Qc).
Proof.
  apply (encoded_state_is_key no_table_evaluate [] observation_too_long).
  by_computation.
Defined.

Lemma py_index_take {A} (l : list A) (n : nat) (i : Z) :
  0 <= i < Z.of_nat n -> (n <= length l)%nat ->
  py_index (take n l) i = py_index l i.
Proof.
  intros Hi Hn.
  destruct (py_index_spec l i) as (x & Hx & ->); [lia|].
  destruct (py_index_spec (take n l) i) as (y & Hy & ->); [rewrite length_take; lia|].
  rewrite lookup_take_lt in Hy by lia. congruence.
Qed.

(** X10.  [encode_state] reads the first 54 entries of the observation and
    nothing else: cutting the observation after 54 entries changes neither
    the encoded state nor the error. *)
Theorem encode_state_reads_54
    (evaluate : list (option Z) -> list (option Z) -> exn + Z)
    (board_indices : list Z) (observation : list Qc) :
  DeepCFR.encode_state evaluate board_indices (take 54 observation)
  = DeepCFR.encode_state evaluate board_indices observation.
Proof.
  destruct (decide (length observation <= 54)%nat) as [Hle|Hgt].
  - by rewrite take_ge.
  - unfold DeepCFR.encode_state.
    rewrite !(py_index_take observation 54) by lia.
    rewrite take_take. by replace (52 `min` 54)%nat with 52%nat by lia.
Qed.

(** ** More on the policy provider *)

Lemma np_sum_nonneg (a : list Qc) : nonnegative a -> (0 <= np_sum a)%Qc.
Proof.
  induction 1 as [|x a Hx _ IH]; [done|].
  rewrite np_sum_cons. by apply Qcplus_nonneg_nonneg.
Qed.

Lemma np_sum_bounds_entry (a : list Qc) (x : Qc) :
  nonnegative a -> x ∈ a -> (x <= np_sum a)%Qc.
Proof.
  induction 1 as [|y a Hy Ha IH]; intros Hin; [by apply elem_of_nil in Hin|].
  rewrite np_sum_cons. apply elem_of_cons in Hin as [-> | Hin].
  - rewrite <- (Qcplus_0_r y) at 1. apply Qcplus_le_mono_l. by apply np_sum_nonneg.
  - rewrite <- (Qcplus_0_l x). apply Qcplus_le_compat; [done|by apply IH].
Qed.

Lemma Qcdiv_unit_interval (x s : Qc) :
  (0 <= x)%Qc -> (x <= s)%Qc -> (0 < s)%Qc -> (0 <= x / s)%Qc /\ (x / s <= 1)%Qc.
Proof.
  intros Hx Hxs Hs.
  assert (s ≠ 0%Qc) as Hnz by (intros ->; by apply Qclt_not_eq in Hs).
  split.
  - apply (Qcmult_lt_0_le_reg_r _ _ s); [done|].
    unfold Qcdiv. by rewrite Qcmult_0_l, <- Qcmult_assoc, Qcmult_inv_l, Qcmult_1_r.
  - apply (Qcmult_lt_0_le_reg_r _ _ s); [done|].
    unfold Qcdiv. by rewrite <- Qcmult_assoc, Qcmult_inv_l, Qcmult_1_r, Qcmult_1_l.
Qed.

Lemma masked_nonnegative (probs legal_mask : list Qc) :
  nonnegative probs -> is_mask legal_mask ->
  nonnegative (zip_with Qcmult probs legal_mask).
Proof.
  intros Hp. revert legal_mask.
  induction Hp as [|p probs Hp0 _ IH]; intros [|m legal_mask] Hm; try by constructor.
  apply Forall_cons in Hm as [Hm0 Hm]. cbn [zip_with]. constructor; [|by apply IH].
  destruct Hm0 as [-> | ->]; [by rewrite Qcmult_0_r|by rewrite Qcmult_1_r].
Qed.

(** X11.  If the network's probabilities are not negative, the mask is a 0/1
    mask of the same length with a legal action, then every entry of the
    returned distribution lies between 0 and 1. *)
Theorem action_probs_unit_interval
    (net : DeepCFR.state -> list Qc) (state_tensor : DeepCFR.state)
    (legal_mask : list Qc) :
  is_mask legal_mask ->
  nonnegative (net state_tensor) ->
  length (net state_tensor) = length legal_mask ->
  (0 < legal_count legal_mask)%nat ->
  exists probs,
    DeepCFR.get_action_probs net state_tensor legal_mask = Returns probs /\
    Forall (fun p => (0 <= p)%Qc /\ (p <= 1)%Qc) probs.
Proof.
  intros Hmask Hnonneg Hlen Hpos.
  unfold DeepCFR.get_action_probs.
  rewrite (mask_not_all_zero _ Hmask Hpos).
  unfold np_binop. rewrite decide_True by done. cbn [mbind outcome_bind].
  pose proof (count_sum_nonzero _ Hmask Hpos) as Hsum.
  assert (forall a, nonnegative a -> np_sum a ≠ 0%Qc ->
            Forall (fun p => (0 <= p)%Qc /\ (p <= 1)%Qc)
              ((fun x => x / np_sum a)%Qc <$> a)) as Hnorm.
  { intros a Ha Hnz. apply Forall_fmap, Forall_forall. intros x Hx. cbn.
    apply Qcdiv_unit_interval.
    - by apply (proj1 (Forall_forall _ _) Ha).
    - by apply np_sum_bounds_entry.
    - destruct (Qcle_lt_or_eq _ _ (np_sum_nonneg a Ha)) as [?|Heq]; [done|].
      by destruct Hnz. }
  destruct (decide (np_sum (zip_with Qcmult (net state_tensor) legal_mask) = 0%Qc))
    as [Hzero|Hzero]; unfold np_div_scalar; rewrite decide_False by done.
  - eexists. split; [done|]. apply Hnorm; [|done].
    eapply Forall_impl; [exact Hmask|]. intros m [-> | ->]; done.
  - eexists. split; [done|]. apply Hnorm; [|done]. by apply masked_nonnegative.
Qed.

Lemma action_probs_unit_interval_witness :
  exists probs,
    DeepCFR.get_action_probs (fun _ => [dec 1 2; dec 1 4; dec 1 8; dec 1 16; dec 1 16])
      (dec 9 10, 0%Qc) [0; 1; 1; 0; 0]%Qc = Returns probs /\
    Forall (fun p => (0 <= p)%Qc /\ (p <= 1)%Qc) probs.
Proof.
  apply action_probs_unit_interval.
  - solve_is_mask.
  - repeat (apply Forall_cons; split; [by_computation|]). apply Forall_nil_2.
  - reflexivity.
  - vm_compute. lia.
Defined.

Lemma zip_with_mult_ones (probs legal_mask : list Qc) :
  length probs = length legal_mask ->
  Forall (fun m => m = 1%Qc) legal_mask ->
  zip_with Qcmult probs legal_mask = probs.
Proof.
  revert legal_mask. induction probs as [|p probs IH]; intros [|m legal_mask] Hlen Hones;
    try done.
  apply Forall_cons in Hones as [-> Hones]. cbn [zip_with].
  rewrite Qcmult_1_r. f_equal. apply IH; [|done]. by injection Hlen.
Qed.

(** X12.  With every action legal, a distribution that sums to 1 passes
    through [get_action_probs] unchanged. *)
Theorem action_probs_all_legal
    (net : DeepCFR.state -> list Qc) (state_tensor : DeepCFR.state)
    (legal_mask : list Qc) :
  Forall (fun m => m = 1%Qc) legal_mask ->
  length (net state_tensor) = length legal_mask ->
  np_sum (net state_tensor) = 1%Qc ->
  DeepCFR.get_action_probs net state_tensor legal_mask = Returns (net state_tensor).
Proof.
  intros Hones Hlen Hsum. unfold DeepCFR.get_action_probs.
  destruct legal_mask as [|m legal_mask].
  { destruct (net state_tensor); done. }
  pose proof Hones as Hones'. apply Forall_cons in Hones' as [-> _].
  cbn [forallb]. rewrite bool_decide_eq_false_2 by done. cbn [andb].
  unfold np_binop. rewrite decide_True by done. cbn [mbind outcome_bind].
  rewrite zip_with_mult_ones by done. rewrite Hsum.
  rewrite decide_False by done. unfold np_div_scalar. rewrite decide_False by done.
  f_equal. trans (id <$> net state_tensor); [|apply list_fmap_id].
  apply list_fmap_ext. intros _ x _. cbn. unfold Qcdiv.
  replace (/ 1)%Qc with 1%Qc by by_computation. apply Qcmult_1_r.
Qed.

Lemma action_probs_all_legal_witness :
  DeepCFR.get_action_probs (fun _ => [dec 1 2; dec 1 4; dec 1 8; dec 1 16; dec 1 16])
    (dec 9 10, 0%Qc) [1; 1; 1; 1; 1]%Qc
  = Returns [dec 1 2; dec 1 4; dec 1 8; dec 1 16; dec 1 16].
Proof.
  apply (action_probs_all_legal
           (fun _ => [dec 1 2; dec 1 4; dec 1 8; dec 1 16; dec 1 16])).
  - repeat (apply Forall_cons; split; [reflexivity|]). apply Forall_nil_2.
  - reflexivity.
  - by_computation.
Defined.

(** X13.  A mask whose length is neither that of the network's output nor 1,
    against an output of a length other than 1, makes [get_action_probs]
    raise [ValueError], unless the mask is all zero, which is returned before
    the two arrays meet. *)
Theorem action_probs_shape_mismatch
    (net : DeepCFR.state -> list Qc) (state_tensor : DeepCFR.state)
    (legal_mask : list Qc) :
  length (net state_tensor) ≠ length legal_mask ->
  length (net state_tensor) ≠ 1%nat ->
  length legal_mask ≠ 1%nat ->
  DeepCFR.get_action_probs net state_tensor legal_mask
  = if forallb (fun m => bool_decide (m = 0%Qc)) legal_mask
    then Returns legal_mask else Raises ValueError.
Proof.
  intros Hne Hp Hm. unfold DeepCFR.get_action_probs.
  destruct (forallb _ legal_mask); [done|].
  unfold np_binop. rewrite decide_False by done.
  destruct (net state_tensor) as [|p [|p' probs]]; [| done |];
    destruct legal_mask as [|m [|m' legal_mask]]; done.
Qed.

Lemma action_probs_shape_mismatch_witness :
  DeepCFR.get_action_probs (fun _ => [dec 1 2; dec 1 4; dec 1 8; dec 1 16; dec 1 16])
    (dec 9 10, 0%Qc) [1; 0; 1]%Qc = Raises ValueError.
Proof.
  rewrite (action_probs_shape_mismatch
             (fun _ => [dec 1 2; dec 1 4; dec 1 8; dec 1 16; dec 1 16]));
    [reflexivity | cbn; lia | cbn; lia | cbn; lia].
Defined.

(** ** More on the regret update *)

Lemma immediate_regret_explicit (reward : Qc) (d : DeepCFR.decision) (r : list Qc) :
  DeepCFR.immediate_regret_of reward d = Returns r ->
  length (DeepCFR.strategy d) = 5%nat ->
  r = expected_regret (counterfactual_value reward d) (DeepCFR.action d)
        (DeepCFR.strategy d).
Proof.
  intros Hr Hlen.
  destruct (immediate_regret_spec _ _ _ Hr) as (Hrlen & Hact & (p & Hp & Hchosen) & Hother).
  apply list_eq. intros a. unfold expected_regret. rewrite list_lookup_imap.
  destruct (decide (a < 5)%nat) as [Ha|Ha].
  - destruct (decide (a = DeepCFR.action d)) as [-> | Hne].
    + by rewrite Hchosen, Hp.
    + by destruct (Hother a Ha Hne) as (pa & -> & ->).
  - rewrite !lookup_ge_None_2 by lia. done.
Qed.

Lemma counterfactual_value_sign (reward : Qc) (d : DeepCFR.decision) :
  (0 <= DeepCFR.rp_self d)%Qc -> (0 <= DeepCFR.rp_opp d)%Qc ->
  ((0 <= reward)%Qc -> (0 <= counterfactual_value reward d)%Qc) /\
  ((reward <= 0)%Qc -> (counterfactual_value reward d <= 0)%Qc).
Proof.
  intros Hself Hopp. unfold counterfactual_value.
  generalize dependent (DeepCFR.rp_self d). generalize dependent (DeepCFR.rp_opp d).
  intros o Ho s Hs.
  assert (0 <= o / (s + dec 1 100000000))%Qc as Hq.
  { qc_to_q.
    apply Qmult_le_0_compat; [done|]. apply Qinv_le_0_compat.
    unfold Q2Qc. cbn [this]. rewrite Qred_correct. lra. }
  generalize dependent (o / (s + dec 1 100000000))%Qc. intros q Hq.
  split; intros Hr; qc_to_q; nra.
Qed.

Lemma regret_entry_sign (c p : Qc) :
  (0 <= p)%Qc -> (p <= 1)%Qc ->
  ((0 <= c)%Qc -> (0 <= c * (1 - p))%Qc /\ (- c * p <= 0)%Qc) /\
  ((c <= 0)%Qc -> (c * (1 - p) <= 0)%Qc /\ (0 <= - c * p)%Qc).
Proof.
  intros Hp0 Hp1. split; intros Hc; split; qc_to_q; nra.
Qed.

(** X14.  For a decision whose strategy entries lie between 0 and 1 and
    whose reach probabilities are not negative, a reward of the training
    player that is not negative gives the action taken an immediate regret
    that is not negative and every other action one that is not positive; a
    reward that is not positive gives the opposite signs.  Only signs are
    stated, which the rounding of a product keeps. *)
Theorem immediate_regret_signs (reward : Qc) (d : DeepCFR.decision) (r : list Qc) :
  DeepCFR.immediate_regret_of reward d = Returns r ->
  unit_interval (DeepCFR.strategy d) ->
  (0 <= DeepCFR.rp_self d)%Qc -> (0 <= DeepCFR.rp_opp d)%Qc ->
  ((0 <= reward)%Qc ->
   forall a x, r !! a = Some x ->
     if decide (a = DeepCFR.action d) then (0 <= x)%Qc else (x <= 0)%Qc) /\
  ((reward <= 0)%Qc ->
   forall a x, r !! a = Some x ->
     if decide (a = DeepCFR.action d) then (x <= 0)%Qc else (0 <= x)%Qc).
Proof.
  intros Hr Hunit Hself Hopp.
  destruct (immediate_regret_spec _ _ _ Hr) as (Hlen & Hact & (p & Hp & Hchosen) & Hother).
  destruct (counterfactual_value_sign reward d Hself Hopp) as [Hwon Hlost].
  assert (forall a q, DeepCFR.strategy d !! a = Some q -> (0 <= q)%Qc /\ (q <= 1)%Qc)
    as Hentry.
  { intros a q Hq. apply (proj1 (Forall_forall _ _) Hunit). by eapply list_elem_of_lookup_2. }
  split; intros Hreward a x Hx.
  - specialize (Hwon Hreward). case_decide as Ha.
    + subst a. rewrite Hchosen in Hx. injection Hx as <-.
      destruct (Hentry _ _ Hp) as [Hp0 Hp1].
      exact (proj1 (proj1 (regret_entry_sign _ _ Hp0 Hp1) Hwon)).
    + assert (a < 5)%nat as Hlt by (apply lookup_lt_Some in Hx; lia).
      destruct (Hother a Hlt Ha) as (q & Hq & Hra). rewrite Hra in Hx. injection Hx as <-.
      destruct (Hentry _ _ Hq) as [Hq0 Hq1].
      exact (proj2 (proj1 (regret_entry_sign _ _ Hq0 Hq1) Hwon)).
  - specialize (Hlost Hreward). case_decide as Ha.
    + subst a. rewrite Hchosen in Hx. injection Hx as <-.
      destruct (Hentry _ _ Hp) as [Hp0 Hp1].
      exact (proj1 (proj2 (regret_entry_sign _ _ Hp0 Hp1) Hlost)).
    + assert (a < 5)%nat as Hlt by (apply lookup_lt_Some in Hx; lia).
      destruct (Hother a Hlt Ha) as (q & Hq & Hra). rewrite Hra in Hx. injection Hx as <-.
      destruct (Hentry _ _ Hq) as [Hq0 Hq1].
      exact (proj2 (proj2 (regret_entry_sign _ _ Hq0 Hq1) Hlost)).
Qed.

Lemma immediate_regret_signs_witness :
  exists r, DeepCFR.immediate_regret_of (Qc_of_Z 2) example_decision_1 = Returns r /\
            forall a x, r !! a = Some x ->
              if decide (a = DeepCFR.action example_decision_1)
              then (0 <= x)%Qc else (x <= 0)%Qc.
Proof.
  assert (exists r, DeepCFR.immediate_regret_of (Qc_of_Z 2) example_decision_1
                    = Returns r) as [r Hr].
  { eexists. vm_compute. reflexivity. }
  exists r. split; [exact Hr|].
  apply (immediate_regret_signs _ _ _ Hr).
  - repeat (apply Forall_cons; split; [split; by_computation|]). apply Forall_nil_2.
  - by_computation.
  - by_computation.
  - by_computation.
Defined.

Lemma immediate_regret_returns (reward : Qc) (d : DeepCFR.decision) :
  valid_decision d -> exists r, DeepCFR.immediate_regret_of reward d = Returns r.
Proof.
  intros (Hden & Hact & Hlen). unfold DeepCFR.immediate_regret_of, float_div.
  rewrite decide_False by done. cbn [mbind outcome_bind].
  destruct (DeepCFR.strategy d) as [|s0 [|s1 [|s2 [|s3 [|s4 [|]]]]]]; try done.
  destruct (DeepCFR.action d) as [|[|[|[|[|]]]]]; [..|lia]; eexists; reflexivity.
Qed.

Lemma immediate_regret_valid (reward : Qc) (d : DeepCFR.decision) (r : list Qc) :
  DeepCFR.immediate_regret_of reward d = Returns r ->
  (DeepCFR.rp_self d + dec 1 100000000)%Qc ≠ 0%Qc /\
  (DeepCFR.action d < 5)%nat /\
  (5 <= length (DeepCFR.strategy d))%nat.
Proof.
  intros Hr.
  destruct (immediate_regret_spec _ _ _ Hr) as (_ & Hact & (p & Hp & _) & Hother).
  split; [|split; [done|]].
  - unfold DeepCFR.immediate_regret_of, float_div in Hr. by case_decide.
  - destruct (decide (DeepCFR.action d = 4%nat)) as [Heq|Hne].
    + rewrite Heq in Hp. apply lookup_lt_Some in Hp. lia.
    + destruct (Hother 4%nat) as (p4 & Hp4 & _); [lia|done|].
      apply lookup_lt_Some in Hp4. lia.
Qed.

(** What one pass of the loop body does to the strategy table. *)
Lemma update_decision_strategy (reward : Qc) (t t' : DeepCFR.trainer)
    (d : DeepCFR.decision) :
  DeepCFR.update_decision reward t d = Returns t' ->
  exists c,
    np_iadd (DeepCFR.counts
               (DeepCFR.strategy_getitem (DeepCFR.state_key (DeepCFR.state_tensor d)) t))
      (np_scale (DeepCFR.strategy d) (DeepCFR.rp_self d)) = Returns c /\
    DeepCFR.cumulative_strategy t'
    = <[DeepCFR.state_key (DeepCFR.state_tensor d) :=
          DeepCFR.StrategyEntry c
            (DeepCFR.visits
               (DeepCFR.strategy_getitem
                  (DeepCFR.state_key (DeepCFR.state_tensor d)) t) + 1)]>
        (DeepCFR.cumulative_strategy t).
Proof.
  unfold DeepCFR.update_decision.
  intros (immediate & _ & Hrest)%bind_returns.
  unfold DeepCFR.regrets_getitem in Hrest.
  destruct (DeepCFR.cumulative_regrets t !! _) as [l|];
    apply bind_returns in Hrest as (sum & _ & Hrest);
    apply bind_returns in Hrest as (c & Hc & [= <-]);
    exists c; (split; [exact Hc|done]).
Qed.

Lemma np_iadd_length (a b c : list Qc) :
  np_iadd a b = Returns c -> (1 < length b)%nat ->
  length b = length a /\ c = zip_with Qcplus a b.
Proof.
  unfold np_iadd. case_decide as Hlen.
  - intros [= <-] _. done.
  - destruct b as [|y [|y' b]]; try done. cbn. lia.
Qed.

Lemma strategy_getitem_ok (t : DeepCFR.trainer) (key : DeepCFR.state) :
  strategy_ok t ->
  length (DeepCFR.counts (DeepCFR.strategy_getitem key t)) = 5%nat /\
  0 <= DeepCFR.visits (DeepCFR.strategy_getitem key t).
Proof.
  intros Hok. unfold DeepCFR.strategy_getitem.
  destruct (DeepCFR.cumulative_strategy t !! key) as [e|] eqn:He; [|done].
  destruct (Hok _ _ He). cbn. split; [done|lia].
Qed.

Lemma update_decision_strategy_ok (reward : Qc) (t t' : DeepCFR.trainer)
    (d : DeepCFR.decision) :
  strategy_ok t -> DeepCFR.update_decision reward t d = Returns t' -> strategy_ok t'.
Proof.
  intros Hok Hd.
  destruct (update_decision_strategy _ _ _ _ Hd) as (c & Hc & Htable).
  destruct (strategy_getitem_ok t (DeepCFR.state_key (DeepCFR.state_tensor d)) Hok)
    as [Hlen Hvis].
  apply bind_returns in Hd as (immediate & Himm & _).
  destruct (immediate_regret_valid _ _ _ Himm) as (_ & _ & Hs).
  apply np_iadd_length in Hc as [Hlen' ->];
    [|unfold np_scale; rewrite length_fmap; lia].
  unfold np_scale in Hlen'. rewrite length_fmap in Hlen'.
  intros k e. rewrite Htable, lookup_insert. case_decide.
  - intros [= <-]. cbn [DeepCFR.counts DeepCFR.visits].
    unfold np_scale. rewrite length_zip_with, length_fmap. split; lia.
  - apply Hok.
Qed.

Lemma update_loop_strategy_ok (reward : Qc) (t t' : DeepCFR.trainer)
    (history : list DeepCFR.decision) :
  strategy_ok t -> DeepCFR.update_loop reward t history = Returns t' -> strategy_ok t'.
Proof.
  revert t. induction history as [|d history IH]; intros t Hok; cbn [DeepCFR.update_loop].
  - by intros [= <-].
  - intros (t1 & Hd & Hrest)%bind_returns.
    eapply IH; [|exact Hrest]. by eapply update_decision_strategy_ok.
Qed.

Lemma strategy_ok_init : strategy_ok DeepCFR.init.
Proof.
  intros k e He. cbn [DeepCFR.init DeepCFR.cumulative_strategy] in He.
  by rewrite lookup_empty in He.
Qed.

Lemma immediate_regret_zero_reward (d : DeepCFR.decision) (r : list Qc) :
  DeepCFR.immediate_regret_of 0%Qc d = Returns r -> r = np_zeros 5.
Proof.
  intros Hr.
  destruct (immediate_regret_spec _ _ _ Hr) as (Hlen & Hact & (p & _ & Hchosen) & Hother).
  assert (counterfactual_value 0%Qc d = 0%Qc) as Hcf
    by (unfold counterfactual_value; apply Qcmult_0_l).
  rewrite Hcf in *.
  apply list_eq. intros a. unfold np_zeros.
  destruct (decide (a < 5)%nat) as [Ha|Ha].
  - rewrite lookup_replicate_2 by done.
    destruct (decide (a = DeepCFR.action d)) as [-> | Hne].
    + rewrite Hchosen. f_equal. ring.
    + destruct (Hother a Ha Hne) as (pa & _ & ->). f_equal. ring.
  - rewrite !lookup_ge_None_2; [done|rewrite length_replicate; lia|lia].
Qed.

Lemma regret_delta_zero_reward (history : list DeepCFR.decision) (key : DeepCFR.state) :
  regret_delta 0%Qc history key = np_zeros 5.
Proof.
  induction history as [|d history IH]; [done|].
  cbn [regret_delta]. rewrite IH.
  case_decide; [|done].
  destruct (DeepCFR.immediate_regret_of 0%Qc d) as [r| |e] eqn:Hr; [|done|done].
  by rewrite (immediate_regret_zero_reward _ _ Hr).
Qed.

(** X15.  A hand that brings the training player the reward 0, or whose
    final rewards do not name the training player at all, leaves every
    cumulative regret vector with the values it had. *)
Theorem zero_reward_keeps_regrets
    (t t' : DeepCFR.trainer) (history : list DeepCFR.decision)
    (final_rewards : gmap string Qc) (key : DeepCFR.state) :
  wf t ->
  final_rewards !! DeepCFR.training_agent t = None \/
  final_rewards !! DeepCFR.training_agent t = Some 0%Qc ->
  DeepCFR._update_regrets t history final_rewards = Returns t' ->
  regret_of t' key = regret_of t key.
Proof.
  intros Hwf Hreward Hrun. unfold DeepCFR._update_regrets in Hrun.
  assert (default 0%Qc (final_rewards !! DeepCFR.training_agent t) = 0%Qc) as Hzero
    by (by destruct Hreward as [-> | ->]).
  rewrite Hzero in Hrun.
  rewrite (update_loop_delta _ _ _ _ key Hwf Hrun), regret_delta_zero_reward.
  apply zip_with_plus_zeros. by apply regret_of_length.
Qed.

Lemma zero_reward_keeps_regrets_witness :
  exists t',
    DeepCFR._update_regrets DeepCFR.init [example_decision_1; example_decision_2] ∅
      = Returns t' /\
    regret_of t' (dec 9 10, Qc_of_Z 3) = np_zeros 5.
Proof.
  assert (exists t', DeepCFR._update_regrets DeepCFR.init
                       [example_decision_1; example_decision_2] ∅ = Returns t')
    as [t' Hrun].
  { eexists. vm_compute. reflexivity. }
  exists t'. split; [exact Hrun|].
  rewrite (zero_reward_keeps_regrets DeepCFR.init t' _ ∅ (dec 9 10, Qc_of_Z 3)
             wf_init (or_introl (lookup_empty _)) Hrun).
  reflexivity.
Defined.

(** One pass of the loop body succeeds exactly on a valid decision. *)
Lemma update_decision_returns_iff (reward : Qc) (t : DeepCFR.trainer)
    (d : DeepCFR.decision) :
  wf t -> strategy_ok t ->
  (exists t', DeepCFR.update_decision reward t d = Returns t') <-> valid_decision d.
Proof.
  intros Hwf Hok. split.
  - intros [t' Hd].
    destruct (update_decision_strategy _ _ _ _ Hd) as (c & Hc & _).
    apply bind_returns in Hd as (immediate & Himm & _).
    destruct (immediate_regret_valid _ _ _ Himm) as (Hden & Hact & Hs).
    split; [done|]. split; [done|].
    apply np_iadd_length in Hc as [Hlen _];
      [|unfold np_scale; rewrite length_fmap; lia].
    unfold np_scale in Hlen. rewrite length_fmap in Hlen.
    rewrite Hlen. by apply strategy_getitem_ok.
  - intros Hvalid. destruct (immediate_regret_returns reward d Hvalid) as [r Hr].
    destruct (immediate_regret_spec _ _ _ Hr) as (Hrlen & _).
    destruct Hvalid as (_ & _ & Hslen).
    unfold DeepCFR.update_decision. rewrite Hr. cbn [mbind outcome_bind].
    destruct (DeepCFR.regrets_getitem _ t) as [l t0] eqn:Hget.
    destruct (regrets_getitem_spec _ _ _ _ Hwf Hget)
      as (_ & _ & Hderef & _ & _ & Hstrat & _).
    cbv beta iota zeta.
    assert (np_iadd (DeepCFR.deref t0 l) r
            = Returns (zip_with Qcplus (DeepCFR.deref t0 l) r)) as ->.
    { unfold np_iadd.
      by rewrite decide_True by (by rewrite Hderef, regret_of_length, Hrlen). }
    cbn [mbind outcome_bind].
    assert (forall t1, DeepCFR.cumulative_strategy t1 = DeepCFR.cumulative_strategy t ->
              DeepCFR.strategy_getitem (DeepCFR.state_key (DeepCFR.state_tensor d)) t1
              = DeepCFR.strategy_getitem (DeepCFR.state_key (DeepCFR.state_tensor d)) t)
      as Hext.
    { intros t1 Heq. unfold DeepCFR.strategy_getitem. by rewrite Heq. }
    rewrite !Hext by exact Hstrat. unfold np_iadd.
    rewrite decide_True; [cbn [mbind outcome_bind]; eauto|].
    unfold np_scale. rewrite length_fmap, Hslen. by apply strategy_getitem_ok.
Qed.

(** X16.  On a trainer as [__init__] and earlier runs leave it,
    [_update_regrets] returns exactly when every decision of the trajectory
    is valid: an action below 5, a strategy of length 5 and
    [rp_self + 1e-8] not zero.  Any other trajectory makes it raise (or
    divide by zero). *)
Theorem update_regrets_returns_iff
    (t : DeepCFR.trainer) (history : list DeepCFR.decision)
    (final_rewards : gmap string Qc) :
  wf t -> strategy_ok t ->
  (exists t', DeepCFR._update_regrets t history final_rewards = Returns t')
  <-> Forall valid_decision history.
Proof.
  unfold DeepCFR._update_regrets.
  generalize (default 0%Qc (final_rewards !! DeepCFR.training_agent t)). intros reward.
  revert t. induction history as [|d history IH]; intros t Hwf Hok;
    cbn [DeepCFR.update_loop].
  - split; [by constructor|eauto].
  - split.
    + intros [t' (t1 & Hd & Hrest)%bind_returns].
      pose proof (update_decision_spec _ _ _ _ Hwf Hd) as (_ & _ & _ & Hwf1 & _).
      pose proof (update_decision_strategy_ok _ _ _ _ Hok Hd) as Hok1.
      constructor.
      * apply (update_decision_returns_iff reward t d Hwf Hok). eauto.
      * apply (IH t1 Hwf1 Hok1). eauto.
    + intros [Hd Hrest]%Forall_cons.
      apply (update_decision_returns_iff reward t d Hwf Hok) in Hd as [t1 Hd].
      pose proof (update_decision_spec _ _ _ _ Hwf Hd) as (_ & _ & _ & Hwf1 & _).
      pose proof (update_decision_strategy_ok _ _ _ _ Hok Hd) as Hok1.
      rewrite Hd. cbn [mbind outcome_bind]. by apply (IH t1 Hwf1 Hok1).
Qed.

Lemma update_regrets_returns_iff_witness :
  (exists t', DeepCFR._update_regrets DeepCFR.init
                [example_decision_1; example_decision_2] example_rewards = Returns t')
  <-> Forall valid_decision [example_decision_1; example_decision_2].
Proof. apply update_regrets_returns_iff; [exact wf_init|exact strategy_ok_init]. Defined.

Lemma visits_of_insert (t t' : DeepCFR.trainer) (k key : DeepCFR.state)
    (c : list Qc) (v : Z) :
  DeepCFR.cumulative_strategy t'
  = <[k := DeepCFR.StrategyEntry c v]> (DeepCFR.cumulative_strategy t) ->
  visits_of t' key = if decide (k = key) then v else visits_of t key.
Proof.
  intros Htable. unfold visits_of, DeepCFR.strategy_getitem.
  rewrite Htable, lookup_insert. by case_decide.
Qed.

(** X17.  A run of [_update_regrets] raises the visit count of every key by
    the number of decisions of the trajectory that fall on the key. *)
Theorem update_regrets_counts_visits
    (t t' : DeepCFR.trainer) (history : list DeepCFR.decision)
    (final_rewards : gmap string Qc) (key : DeepCFR.state) :
  DeepCFR._update_regrets t history final_rewards = Returns t' ->
  visits_of t' key = visits_of t key + Z.of_nat (length (decisions_on key history)).
Proof.
  unfold DeepCFR._update_regrets.
  generalize (default 0%Qc (final_rewards !! DeepCFR.training_agent t)). intros reward.
  revert t. induction history as [|d history IH]; intros t; cbn [DeepCFR.update_loop].
  - intros [= <-]. unfold decisions_on. rewrite filter_nil. cbn [length]. lia.
  - intros (t1 & Hd & Hrest)%bind_returns.
    destruct (update_decision_strategy _ _ _ _ Hd) as (c & _ & Htable).
    rewrite (IH _ Hrest), (visits_of_insert _ _ _ key _ _ Htable).
    unfold decisions_on. case_decide as Hk.
    + rewrite filter_cons_True by done. rewrite length_cons. subst key.
      unfold visits_of. lia.
    + by rewrite filter_cons_False by done.
Qed.

Lemma update_regrets_counts_visits_witness :
  exists t',
    DeepCFR._update_regrets DeepCFR.init [example_decision_1; example_decision_2]
      example_rewards = Returns t' /\
    visits_of t' (dec 9 10, Qc_of_Z 3) = 2.
Proof.
  assert (exists t', DeepCFR._update_regrets DeepCFR.init
                       [example_decision_1; example_decision_2] example_rewards
                     = Returns t') as [t' Hrun].
  { eexists. vm_compute. reflexivity. }
  exists t'. split; [exact Hrun|].
  rewrite (update_regrets_counts_visits _ _ _ _ (dec 9 10, Qc_of_Z 3) Hrun).
  by_computation.
Defined.

(** X18.  After a returning run of [_update_regrets], the target
    [counts / visits] that [_update_strategy_net] computes for a key of the
    strategy table divides by a visit count of at least 1: it is a finite
    vector of length 5. *)
Theorem strategy_target_finite
    (t t' : DeepCFR.trainer) (history : list DeepCFR.decision)
    (final_rewards : gmap string Qc) (key : DeepCFR.state) (e : DeepCFR.strategy_entry) :
  strategy_ok t ->
  DeepCFR._update_regrets t history final_rewards = Returns t' ->
  DeepCFR.cumulative_strategy t' !! key = Some e ->
  1 <= DeepCFR.visits e /\
  StrategyNet.target (DeepCFR.strategy_getitem key t')
  = Returns ((fun x => x / Qc_of_Z (DeepCFR.visits e))%Qc <$> DeepCFR.counts e) /\
  length (DeepCFR.counts e) = 5%nat.
Proof.
  intros Hok Hrun He. unfold DeepCFR._update_regrets in Hrun.
  pose proof (update_loop_strategy_ok _ _ _ _ Hok Hrun) as Hok'.
  destruct (Hok' _ _ He) as [Hlen Hvis].
  split; [done|]. split; [|done].
  unfold StrategyNet.target, DeepCFR.strategy_getitem. rewrite He. cbn [default].
  unfold np_div_scalar. rewrite decide_False; [done|].
  rewrite <- Z2Qc_inj_0. intros Heq%Z2Qc_inj. change (id e) with e in Heq. lia.
Qed.

Lemma strategy_target_finite_witness :
  exists t' e,
    DeepCFR._update_regrets DeepCFR.init [example_decision_1; example_decision_2]
      example_rewards = Returns t' /\
    DeepCFR.cumulative_strategy t' !! (dec 9 10, Qc_of_Z 3) = Some e /\
    1 <= DeepCFR.visits e.
Proof.
  assert (exists t', DeepCFR._update_regrets DeepCFR.init
                       [example_decision_1; example_decision_2] example_rewards
                     = Returns t') as [t' Hrun].
  { eexists. vm_compute. reflexivity. }
  assert (exists e, DeepCFR.cumulative_strategy t' !! (dec 9 10, Qc_of_Z 3) = Some e)
    as [e He].
  { vm_compute in Hrun. injection Hrun as <-. eexists. vm_compute. reflexivity. }
  exists t', e. split; [exact Hrun|]. split; [exact He|].
  apply (strategy_target_finite DeepCFR.init t' _ _ _ e strategy_ok_init Hrun He).
Defined.

(** ** More on the replay buffer and the regret table *)

Lemma deque_append_within {A} (d : deque A) (x : A) :
  (N.of_nat (length (items d)) <= maxlen d)%N ->
  (N.of_nat (length (items (deque_append d x))) <= maxlen (deque_append d x))%N.
Proof. intros Hle. rewrite deque_append_maxlen. by apply deque_append_bounded. Qed.

(** Appending a run of elements leaves the most recent [maxlen] ones. *)
Lemma deque_extend_items {A} (d : deque A) (xs : list A) :
  (N.of_nat (length (items d)) <= maxlen d)%N ->
  maxlen (foldl deque_append d xs) = maxlen d /\
  items (foldl deque_append d xs)
  = drop (length (items d ++ xs) - N.to_nat (maxlen d)) (items d ++ xs).
Proof.
  revert d. induction xs as [|x xs IH]; intros d Hle; cbn [foldl].
  - split; [done|]. rewrite app_nil_r.
    replace (length (items d) - N.to_nat (maxlen d))%nat with 0%nat by lia. done.
  - destruct (IH (deque_append d x) (deque_append_within d x Hle)) as [Hmax Hitems].
    rewrite deque_append_maxlen in Hmax, Hitems. split; [done|].
    rewrite Hitems. unfold deque_append. cbn [items].
    case_decide as Hover.
    + rewrite length_app in Hover. cbn [length] in Hover.
      destruct (items d) as [|y l] eqn:Hd; [cbn [length] in *; cbn [app drop]|].
      * assert (maxlen d = 0%N) as Hzero by lia. rewrite Hzero.
        change (N.to_nat 0) with 0%nat. rewrite !Nat.sub_0_r.
        rewrite drop_all. by rewrite (drop_all (x :: xs)).
      * change (drop 1 ((y :: l) ++ [x])) with (l ++ [x]).
        rewrite <- (assoc_L app l [x] xs). change ([x] ++ xs) with (x :: xs).
        change ((y :: l) ++ x :: xs) with (y :: (l ++ x :: xs)).
        cbn [length] in *.
        replace (S (length (l ++ x :: xs)) - N.to_nat (maxlen d))%nat
          with (S (length (l ++ x :: xs) - N.to_nat (maxlen d)))%nat; [done|].
        rewrite length_app. cbn [length]. lia.
    + by rewrite <- (assoc_L app (items d) [x] xs).
Qed.

(** What a run of the loop does to the replay buffer: one pair per decision,
    in the order of the trajectory, each with the state tensor as given. *)
Lemma update_loop_memory (reward : Qc) (t t' : DeepCFR.trainer)
    (history : list DeepCFR.decision) :
  DeepCFR.update_loop reward t history = Returns t' ->
  exists pairs,
    pairs.*1 = DeepCFR.state_tensor <$> history /\
    DeepCFR.advantage_memory t'
    = foldl deque_append (DeepCFR.advantage_memory t) pairs.
Proof.
  revert t. induction history as [|d history IH]; intros t; cbn [DeepCFR.update_loop].
  - intros [= <-]. by exists [].
  - intros (t1 & Hd & Hrest)%bind_returns.
    destruct (update_decision_frame _ _ _ _ Hd) as ([l Hmem] & _).
    destruct (IH _ Hrest) as (pairs & Hstates & Hmem').
    exists ((DeepCFR.state_tensor d, l) :: pairs). split.
    + cbn [fmap list_fmap fst]. by rewrite <- Hstates.
    + cbn [foldl]. by rewrite <- Hmem.
Qed.

(** X19.  After a returning run of [_update_regrets] the replay buffer holds,
    oldest first, the states it held followed by one state per decision of
    the trajectory, cut on the left to the 10^6 most recent; while there is
    room it simply grows by one pair per decision. *)
Theorem replay_buffer_states
    (t t' : DeepCFR.trainer) (history : list DeepCFR.decision)
    (final_rewards : gmap string Qc) :
  buffer_ok t ->
  DeepCFR._update_regrets t history final_rewards = Returns t' ->
  let before := (items (DeepCFR.advantage_memory t)).*1 in
  let added := DeepCFR.state_tensor <$> history in
  (items (DeepCFR.advantage_memory t')).*1
  = drop (length (before ++ added) - N.to_nat 1000000) (before ++ added) /\
  ((N.of_nat (length (before ++ added)) <= 1000000)%N ->
   (items (DeepCFR.advantage_memory t')).*1 = before ++ added).
Proof.
  intros [Hmax Hlen] Hrun before added. unfold DeepCFR._update_regrets in Hrun.
  destruct (update_loop_memory _ _ _ _ Hrun) as (pairs & Hstates & ->).
  destruct (deque_extend_items (DeepCFR.advantage_memory t) pairs) as [_ ->];
    [by rewrite Hmax|].
  rewrite Hmax, fmap_drop, fmap_app, Hstates.
  assert (length (items (DeepCFR.advantage_memory t) ++ pairs)
          = length (before ++ added)) as ->.
  { unfold before, added. rewrite !length_app, !length_fmap.
    f_equal. by rewrite <- (length_fmap fst pairs), Hstates, length_fmap. }
  split; [done|]. intros Hroom.
  replace (length (before ++ added) - N.to_nat 1000000)%nat with 0%nat by lia. done.
Qed.

Lemma replay_buffer_states_witness :
  exists t',
    DeepCFR._update_regrets DeepCFR.init [example_decision_1; example_decision_2]
      example_rewards = Returns t' /\
    (items (DeepCFR.advantage_memory t')).*1
    = [(dec 9 10, Qc_of_Z 3); (dec 9 10, Qc_of_Z 3)].
Proof.
  assert (exists t', DeepCFR._update_regrets DeepCFR.init
                       [example_decision_1; example_decision_2] example_rewards
                     = Returns t') as [t' Hrun].
  { eexists. vm_compute. reflexivity. }
  exists t'. split; [exact Hrun|].
  destruct (replay_buffer_states DeepCFR.init t' _ _
              (conj eq_refl (N.le_0_l 1000000)) Hrun) as [_ Hroom].
  apply Hroom. cbn. lia.
Defined.

(** ** More on [train] *)

Lemma Qcpower_le_1 (d : Qc) (n : nat) : (0 <= d)%Qc -> (d <= 1)%Qc -> (d ^ n <= 1)%Qc.
Proof.
  intros Hd0 Hd1. induction n as [|n IH]; [apply Qcle_refl|].
  cbn [Qcpower]. eapply Qcle_trans.
  - apply Qcmult_le_compat_r; [exact Hd1|by apply Qcpower_pos].
  - by rewrite Qcmult_1_l.
Qed.

Lemma py_max_bounds (m x e : Qc) :
  (m <= e)%Qc -> (x <= e)%Qc -> (m <= py_max m x)%Qc /\ (py_max m x <= e)%Qc.
Proof.
  intros Hme Hxe. unfold py_max. case_decide as Hlt.
  - split; [by apply Qclt_le_weak|done].
  - split; [apply Qcle_refl|done].
Qed.

(** X20.  With a floor between 0 and the starting rate and a decay factor
    between 0 and 1, the exploration rate after a returning run of [train]
    lies between the floor and the rate before the run: it never drops below
    [min_epsilon] and never rises. *)
Theorem epsilon_stays_in_range
    (play_hand : DeepCFR.trainer -> outcome (list DeepCFR.decision * gmap string Qc))
    (_save_checkpoint : DeepCFR.trainer -> outcome unit)
    (count batch_size save_interval : Z) (t t' : DeepCFR.trainer) :
  (0 <= DeepCFR.min_epsilon t)%Qc ->
  (DeepCFR.min_epsilon t <= DeepCFR.epsilon t)%Qc ->
  (0 <= DeepCFR.epsilon_decay t)%Qc -> (DeepCFR.epsilon_decay t <= 1)%Qc ->
  DeepCFR.train play_hand _save_checkpoint count batch_size save_interval t
    = Returns t' ->
  (DeepCFR.min_epsilon t <= DeepCFR.epsilon t')%Qc /\
  (DeepCFR.epsilon t' <= DeepCFR.epsilon t)%Qc.
Proof.
  intros Hm Hme Hd0 Hd1 Hrun. unfold DeepCFR.train in Hrun.
  destruct (train_loop_iterates _ _ _ _ _ _ Hrun) as (_ & _ & He & _ & _).
  rewrite He, epsilon_closed_form by done.
  apply py_max_bounds; [done|].
  rewrite <- (Qcmult_1_r (DeepCFR.epsilon t)) at 2.
  rewrite !(Qcmult_comm (DeepCFR.epsilon t)).
  apply Qcmult_le_compat_r; [by apply Qcpower_le_1|].
  exact (Qcle_trans _ _ _ Hm Hme).
Qed.

Lemma epsilon_stays_in_range_witness :
  exists t',
    DeepCFR.train idle_hand checkpoint_written 3 512 1000 DeepCFR.init = Returns t' /\
    (dec 1 100 <= DeepCFR.epsilon t')%Qc /\ (DeepCFR.epsilon t' <= dec 15 100)%Qc.
Proof.
  assert (exists t', DeepCFR.train idle_hand checkpoint_written 3 512 1000 DeepCFR.init
                     = Returns t') as [t' Hrun].
  { eexists. vm_compute. reflexivity. }
  exists t'. split; [exact Hrun|].
  apply (epsilon_stays_in_range idle_hand checkpoint_written 3 512 1000 DeepCFR.init t');
    [by_computation..|exact Hrun].
Defined.

(** X21.  The edges of [train]: a count of iterations that is zero or
    negative returns the trainer as it is; a [save_interval] of 0 makes every
    run of at least one iteration fail, with [ZeroDivisionError] as soon as
    the first hand has been played and booked. *)
Theorem train_edge_cases
    (play_hand : DeepCFR.trainer -> outcome (list DeepCFR.decision * gmap string Qc))
    (_save_checkpoint : DeepCFR.trainer -> outcome unit)
    (count batch_size save_interval : Z) (t : DeepCFR.trainer) :
  (count <= 0 ->
   DeepCFR.train play_hand _save_checkpoint count batch_size save_interval t
   = Returns t) /\
  (1 <= count ->
   forall t', DeepCFR.train play_hand _save_checkpoint count batch_size 0 t
              ≠ Returns t') /\
  (1 <= count ->
   forall t1,
     DeepCFR._cfr_iteration play_hand
       (DeepCFR.set_iterations (DeepCFR.iterations t + 1) t) = Returns t1 ->
     DeepCFR.train play_hand _save_checkpoint count batch_size 0 t
     = Raises ZeroDivisionError).
Proof.
  unfold DeepCFR.train. split; [|split].
  - intros Hcount. by replace (Z.to_nat count) with 0%nat by lia.
  - intros Hcount t'. destruct (Z.to_nat count) as [|n] eqn:Hn; [lia|].
    cbn [DeepCFR.train_loop].
    destruct (DeepCFR._cfr_iteration play_hand _) as [t1| |e]; done.
  - intros Hcount t1 Hhand. destruct (Z.to_nat count) as [|n] eqn:Hn; [lia|].
    cbn [DeepCFR.train_loop]. by rewrite Hhand.
Qed.

(** X22.  After a returning run of [_update_regrets] on a well-formed
    trainer, every pair of the replay buffer, old or new, reads as the
    cumulative regret vector its state key has at the end of the run: the
    pairs share the arrays of the regret table. *)
Theorem replay_buffer_reads_current
    (t t' : DeepCFR.trainer) (history : list DeepCFR.decision)
    (final_rewards : gmap string Qc) (s : DeepCFR.state) (v : list Qc) :
  wf t ->
  DeepCFR._update_regrets t history final_rewards = Returns t' ->
  (s, v) ∈ buffer_view t' ->
  v = regret_of t' (DeepCFR.state_key s).
Proof.
  intros Hwf Hrun Hin. unfold DeepCFR._update_regrets in Hrun.
  apply buffer_view_current; [|done]. by eapply update_loop_wf.
Qed.

Lemma replay_buffer_reads_current_witness :
  exists t' v,
    DeepCFR._update_regrets DeepCFR.init [example_decision_1; example_decision_2]
      example_rewards = Returns t' /\
    buffer_view t' !! 0%nat = Some ((dec 9 10, Qc_of_Z 3), v) /\
    v = regret_of t' (DeepCFR.state_key (dec 9 10, Qc_of_Z 3)).
Proof.
  assert (exists t', DeepCFR._update_regrets DeepCFR.init
                       [example_decision_1; example_decision_2] example_rewards
                     = Returns t') as [t' Hrun].
  { eexists. vm_compute. reflexivity. }
  assert (exists v, buffer_view t' !! 0%nat = Some ((dec 9 10, Qc_of_Z 3), v)) as [v Hv].
  { vm_compute in Hrun. injection Hrun as <-. eexists. vm_compute. reflexivity. }
  exists t', v. split; [exact Hrun|]. split; [exact Hv|].
  apply (replay_buffer_reads_current DeepCFR.init t' _ _ _ v wf_init Hrun).
  by eapply list_elem_of_lookup_2.
Defined.

Lemma update_decision_keys (reward : Qc) (t t' : DeepCFR.trainer)
    (d : DeepCFR.decision) :
  DeepCFR.update_decision reward t d = Returns t' ->
  dom (DeepCFR.cumulative_regrets t')
  = {[DeepCFR.state_key (DeepCFR.state_tensor d)]} ∪ dom (DeepCFR.cumulative_regrets t).
Proof.
  unfold DeepCFR.update_decision.
  intros (immediate & _ & Hrest)%bind_returns.
  unfold DeepCFR.regrets_getitem in Hrest.
  destruct (DeepCFR.cumulative_regrets t !! _) as [l|] eqn:Hk;
    apply bind_returns in Hrest as (sum & _ & Hrest);
    apply bind_returns in Hrest as (c & _ & [= <-]); cbn.
  - apply elem_of_dom_2 in Hk. set_solver.
  - by rewrite dom_insert_L.
Qed.

(** X23.  After a returning run of [_update_regrets] the regret table has an
    entry for exactly the keys it had before and the state keys of the
    decisions of the trajectory: no entry is ever dropped, and a key gets its
    entry at its first decision. *)
Theorem regret_table_keys
    (t t' : DeepCFR.trainer) (history : list DeepCFR.decision)
    (final_rewards : gmap string Qc) :
  DeepCFR._update_regrets t history final_rewards = Returns t' ->
  dom (DeepCFR.cumulative_regrets t')
  = dom (DeepCFR.cumulative_regrets t) ∪ keys_of history.
Proof.
  unfold DeepCFR._update_regrets.
  generalize (default 0%Qc (final_rewards !! DeepCFR.training_agent t)). intros reward.
  revert t. induction history as [|d history IH]; intros t; cbn [DeepCFR.update_loop].
  - intros [= <-]. unfold keys_of. cbn. set_solver.
  - intros (t1 & Hd & Hrest)%bind_returns.
    rewrite (IH _ Hrest), (update_decision_keys _ _ _ _ Hd).
    unfold keys_of. rewrite fmap_cons, list_to_set_cons. set_solver.
Qed.

Lemma regret_table_keys_witness :
  exists t',
    DeepCFR._update_regrets DeepCFR.init [example_decision_1; example_decision_2]
      example_rewards = Returns t' /\
    dom (DeepCFR.cumulative_regrets t') = {[ (dec 9 10, Qc_of_Z 3) ]}.
Proof.
  assert (exists t', DeepCFR._update_regrets DeepCFR.init
                       [example_decision_1; example_decision_2] example_rewards
                     = Returns t') as [t' Hrun].
  { eexists. vm_compute. reflexivity. }
  exists t'. split; [exact Hrun|].
  rewrite (regret_table_keys _ _ _ _ Hrun).
  assert (DeepCFR.state_key (dec 9 10, Qc_of_Z 3) = (dec 9 10, Qc_of_Z 3)) as Hkey
    by by_computation.
  unfold keys_of. cbn [fmap list_fmap example_decision_1 example_decision_2
                       DeepCFR.state_tensor list_to_set].
  rewrite Hkey. cbn [DeepCFR.init DeepCFR.cumulative_regrets]. set_solver.
Defined.

(** ** The hand played by [_cfr_iteration] *)


Section HandFacts.

Variable Env : Type.
Variable Rng : Type.
Variable reset : Env -> Env.
Variable agents : list string.
Variable agent_selection : Env -> option string.
Variable last : Env -> list Qc * list Qc * Qc * bool * bool.
Variable step : Env -> option nat -> outcome Env.
Variable random_random : Rng -> Qc * Rng.
Variable random_choice : Rng -> nat -> list Qc -> outcome (nat * Rng).
Variable strategy_net : DeepCFR.state -> list Qc.
Variable opponent_net : DeepCFR.state -> list Qc.
Variable evaluate : list (option Z) -> list (option Z) -> exn + Z.
Variable board_indices : list Z.

Local Notation turn :=
  (GameLoop.turn Env Rng last step random_random random_choice strategy_net
     opponent_net evaluate board_indices).
Local Notation agent_loop :=
  (GameLoop.agent_loop Env Rng agent_selection last step random_random random_choice
     strategy_net opponent_net evaluate board_indices).
Local Notation history := (GameLoop.history Env Rng).
Local Notation rp_self := (GameLoop.rp_self Env Rng).
Local Notation rp_opp := (GameLoop.rp_opp Env Rng).
Local Notation env := (GameLoop.env Env Rng).

(** What one pass of the loop body does to the trajectory: nothing, or one
    more record, built from what the environment showed and what was drawn. *)
Lemma turn_cases (t : DeepCFR.trainer) (agent : string) (p p' : GameLoop.progress Env Rng) :
  turn t agent p = Returns p' ->
  (history p' = history p /\ rp_self p' = rp_self p) \/
  (exists record chosen obs legal_mask reward termination truncation r1 r2,
     history p' = history p ++ [record] /\
     DeepCFR.rp_self record = rp_self p /\
     DeepCFR.rp_opp record = rp_opp p /\
     DeepCFR.strategy record !! DeepCFR.action record = Some chosen /\
     rp_self p' = (rp_self p * chosen)%Qc /\
     last (env p) = (obs, legal_mask, reward, termination, truncation) /\
     (np_div_scalar legal_mask (np_sum legal_mask) = Returns (DeepCFR.strategy record) \/
      DeepCFR.get_action_probs strategy_net (DeepCFR.state_tensor record) legal_mask
      = Returns (DeepCFR.strategy record)) /\
     random_choice r1 (length (DeepCFR.strategy record)) (DeepCFR.strategy record)
     = Returns (DeepCFR.action record, r2)).
Proof.
  unfold GameLoop.turn.
  destruct (last (env p)) as [[[[obs legal_mask] reward] termination] truncation] eqn:Hlast.
  destruct (termination || truncation).
  { intros (rewards & _ & (env' & _ & [= <-])%bind_returns)%bind_returns. by left. }
  intros (s & Hs & Hrest)%bind_returns.
  case_decide as Hagent.
  - destruct (random_random (GameLoop.rng Env Rng p)) as [u r1] eqn:Hu.
    apply bind_returns in Hrest as (strategy & Hstrategy & Hrest).
    apply bind_returns in Hrest as ([action r2] & Hchoice & Hrest).
    apply bind_returns in Hrest as (chosen & Hchosen%np_get_returns & Hrest).
    apply bind_returns in Hrest as (env' & _ & [= <-]).
    right. exists (DeepCFR.Decision s strategy action (rp_self p) (rp_opp p)), chosen,
      obs, legal_mask, reward, termination, truncation, r1, r2.
    cbn. repeat split; try done.
    case_decide; [by left|by right].
  - apply bind_returns in Hrest as (strategy & _ & Hrest).
    apply bind_returns in Hrest as ([action r1] & _ & Hrest).
    apply bind_returns in Hrest as (chosen & _ & Hrest).
    apply bind_returns in Hrest as (env' & _ & [= <-]). by left.
Qed.



End HandFacts.



Lemma normalized_unit_interval (a : list Qc) :
  nonnegative a -> np_sum a ≠ 0%Qc ->
  unit_interval ((fun x => x / np_sum a)%Qc <$> a).
Proof.
  intros Ha Hnz. apply Forall_fmap, Forall_forall. intros x Hx. cbn.
  apply Qcdiv_unit_interval.
  - by apply (proj1 (Forall_forall _ _) Ha).
  - by apply np_sum_bounds_entry.
  - destruct (Qcle_lt_or_eq _ _ (np_sum_nonneg a Ha)) as [?|Heq]; [done|].
    by destruct Hnz.
Qed.

Lemma np_div_sum_unit_interval (a v : list Qc) :
  nonnegative a -> np_div_scalar a (np_sum a) = Returns v ->
  unit_interval v /\ length v = length a.
Proof.
  intros Ha. unfold np_div_scalar. case_decide as Hsum.
  - case_decide as Hnil; [|done]. intros [= <-]. subst a. split; [constructor|done].
  - intros [= <-]. split; [by apply normalized_unit_interval|by rewrite length_fmap].
Qed.

Lemma mask_nonnegative (legal_mask : list Qc) : is_mask legal_mask -> nonnegative legal_mask.
Proof. intros Hm. eapply Forall_impl; [exact Hm|]. by intros m [-> | ->]. Qed.

Lemma mask_unit_interval (legal_mask : list Qc) : is_mask legal_mask -> unit_interval legal_mask.
Proof. intros Hm. eapply Forall_impl; [exact Hm|]. by intros m [-> | ->]. Qed.

(** Whatever [get_action_probs] returns for a 0/1 mask and a network output
    without negative entries is a vector of probabilities of the mask's
    length. *)
Lemma action_probs_shape (net : DeepCFR.state -> list Qc) (s : DeepCFR.state)
    (legal_mask v : list Qc) :
  is_mask legal_mask -> nonnegative (net s) -> length (net s) = length legal_mask ->
  DeepCFR.get_action_probs net s legal_mask = Returns v ->
  unit_interval v /\ length v = length legal_mask.
Proof.
  intros Hmask Hnet Hlen. unfold DeepCFR.get_action_probs.
  destruct (forallb _ legal_mask).
  { intros [= <-]. split; [by apply mask_unit_interval|done]. }
  unfold np_binop. rewrite decide_True by done. cbn [mbind outcome_bind].
  case_decide as Hzero.
  - by apply np_div_sum_unit_interval, mask_nonnegative.
  - intros Hv. apply np_div_sum_unit_interval in Hv as [Hunit Hvlen];
      [|by apply masked_nonnegative].
    split; [done|]. rewrite Hvlen, length_zip_with. lia.
Qed.

Lemma update_loop_accepts (reward : Qc) (t : DeepCFR.trainer)
    (history : list DeepCFR.decision) :
  wf t -> strategy_ok t -> Forall valid_decision history ->
  exists t', DeepCFR.update_loop reward t history = Returns t'.
Proof.
  intros Hwf Hok Hvalid. revert t Hwf Hok.
  induction Hvalid as [|d history Hd _ IH]; intros t Hwf Hok; cbn [DeepCFR.update_loop].
  - eauto.
  - apply (update_decision_returns_iff reward t d Hwf Hok) in Hd as [t1 Hd].
    pose proof (update_decision_spec _ _ _ _ Hwf Hd) as (_ & _ & _ & Hwf1 & _).
    pose proof (update_decision_strategy_ok _ _ _ _ Hok Hd) as Hok1.
    rewrite Hd. cbn [mbind outcome_bind]. by apply IH.
Qed.

Lemma reach_nonzero (x : Qc) : (0 <= x)%Qc -> (x + dec 1 100000000)%Qc ≠ 0%Qc.
Proof.
  intros Hx Heq.
  assert (0 < x + dec 1 100000000)%Qc as Hpos by (by apply Qcplus_nonneg_pos).
  rewrite Heq in Hpos. by apply Qclt_not_eq in Hpos.
Qed.

Lemma Qcmult_unit_interval (a b : Qc) :
  (0 <= a)%Qc -> (a <= 1)%Qc -> (0 <= b)%Qc -> (b <= 1)%Qc ->
  (0 <= a * b)%Qc /\ (a * b <= 1)%Qc.
Proof.
  intros Ha0 Ha1 Hb0 Hb1. split.
  - rewrite <- (Qcmult_0_l b). by apply Qcmult_le_compat_r.
  - eapply Qcle_trans; [by apply Qcmult_le_compat_r|]. by rewrite Qcmult_1_l.
Qed.

Section HandAccepted.

Variable Env : Type.
Variable Rng : Type.
Variable reset : Env -> Env.
Variable agents : list string.
Variable agent_selection : Env -> option string.
Variable last : Env -> list Qc * list Qc * Qc * bool * bool.
Variable step : Env -> option nat -> outcome Env.
Variable random_random : Rng -> Qc * Rng.
Variable random_choice : Rng -> nat -> list Qc -> outcome (nat * Rng).
Variable strategy_net : DeepCFR.state -> list Qc.
Variable opponent_net : DeepCFR.state -> list Qc.
Variable evaluate : list (option Z) -> list (option Z) -> exn + Z.
Variable board_indices : list Z.

(** The environment shows 0/1 masks over the five action slots. *)
Hypothesis masks_of_five :
  forall e obs legal_mask reward termination truncation,
    last e = (obs, legal_mask, reward, termination, truncation) ->
    is_mask legal_mask /\ length legal_mask = 5%nat.
(** The strategy network answers with five entries, none negative. *)
Hypothesis net_of_five :
  forall s, nonnegative (strategy_net s) /\ length (strategy_net s) = 5%nat.
(** [np.random.choice(n, ...)] draws an index below [n]. *)
Hypothesis choice_in_range :
  forall r n p action r', random_choice r n p = Returns (action, r') -> (action < n)%nat.

Local Notation turn :=
  (GameLoop.turn Env Rng last step random_random random_choice strategy_net
     opponent_net evaluate board_indices).
Local Notation agent_loop :=
  (GameLoop.agent_loop Env Rng agent_selection last step random_random random_choice
     strategy_net opponent_net evaluate board_indices).
Local Notation play_hand :=
  (GameLoop.play_hand Env Rng reset agents agent_selection last step random_random
     random_choice strategy_net opponent_net evaluate board_indices).
Local Notation history := (GameLoop.history Env Rng).
Local Notation rp_self := (GameLoop.rp_self Env Rng).

Definition hand_invariant (p : GameLoop.progress Env Rng) : Prop :=
  Forall valid_decision (history p) /\ Forall probabilistic (history p) /\
  (0 <= rp_self p)%Qc /\ (rp_self p <= 1)%Qc.

Lemma turn_invariant (t : DeepCFR.trainer) (agent : string)
    (p p' : GameLoop.progress Env Rng) :
  turn t agent p = Returns p' -> hand_invariant p -> hand_invariant p'.
Proof.
  intros Hturn (Hvalid & Hprob & Hself0 & Hself1).
  destruct (turn_cases _ _ _ _ _ _ _ _ _ _ _ _ _ _ Hturn) as [[Hh Hr]|Hrecord].
  { unfold hand_invariant. by rewrite Hh, Hr. }
  destruct Hrecord as (record & chosen & obs & legal_mask & reward & termination &
                       truncation & r1 & r2 & Hh & Hself & _ & Hchosen & Hr & Hlast &
                       Hstrategy & Hchoice).
  destruct (masks_of_five _ _ _ _ _ _ Hlast) as [Hmask Hmlen].
  destruct (net_of_five (DeepCFR.state_tensor record)) as [Hnet Hnlen].
  assert (unit_interval (DeepCFR.strategy record) /\
          length (DeepCFR.strategy record) = 5%nat) as [Hunit Hslen].
  { destruct Hstrategy as [Hs|Hs].
    - apply np_div_sum_unit_interval in Hs as [? ?]; [|by apply mask_nonnegative].
      split; [done|congruence].
    - apply action_probs_shape in Hs as [? ?]; [|done|done|congruence].
      split; [done|congruence]. }
  assert ((0 <= chosen)%Qc /\ (chosen <= 1)%Qc) as [Hc0 Hc1].
  { apply (proj1 (Forall_forall _ _) Hunit). by eapply list_elem_of_lookup_2. }
  unfold hand_invariant. rewrite Hh, Hr. split; [|split].
  - apply Forall_app. split; [done|]. apply Forall_singleton.
    split; [|split; [|done]].
    + rewrite Hself. by apply reach_nonzero.
    + apply choice_in_range in Hchoice. lia.
  - apply Forall_app. split; [done|]. apply Forall_singleton.
    unfold probabilistic. by rewrite Hself.
  - by apply Qcmult_unit_interval.
Qed.

Lemma agent_loop_invariant (max_iter : nat) (t : DeepCFR.trainer)
    (p p' : GameLoop.progress Env Rng) :
  agent_loop max_iter t p = Returns p' -> hand_invariant p -> hand_invariant p'.
Proof.
  revert p. induction max_iter as [|n IH]; intros p; cbn [GameLoop.agent_loop].
  - by intros [= <-].
  - destruct (agent_selection (GameLoop.env Env Rng p)) as [agent|]; [|by intros [= <-]].
    intros (p1 & Hturn & Hrest)%bind_returns Hinv.
    eapply IH; [exact Hrest|]. by eapply turn_invariant.
Qed.

(** X25.  If the environment shows 0/1 masks over the five action slots, the
    strategy network answers with five non-negative entries and the draw
    returns an index in range, then every decision a hand records is one
    [_update_regrets] can process and its strategy entries and own reach
    probability lie between 0 and 1; so on a trainer as [__init__] and
    earlier runs leave it, [_cfr_iteration] returns whenever the hand itself
    is played to its end. *)
Theorem recorded_decisions_accepted
    (max_iter : nat) (e : Env) (r : Rng) (t : DeepCFR.trainer)
    (decisions : list DeepCFR.decision) (final_rewards : gmap string Qc) :
  play_hand max_iter e r t = Returns (decisions, final_rewards) ->
  Forall valid_decision decisions /\
  Forall probabilistic decisions /\
  (wf t -> strategy_ok t ->
   exists t', DeepCFR._cfr_iteration (play_hand max_iter e r) t = Returns t').
Proof.
  intros Hplay. pose proof Hplay as Hplay'. unfold GameLoop.play_hand in Hplay'.
  apply bind_returns in Hplay' as (_ & _ & (p & Hloop & Hrest)%bind_returns).
  apply bind_returns in Hrest as (_ & _ & Hrest).
  apply bind_returns in Hrest as (_ & _ & [= <- _]).
  destruct (agent_loop_invariant _ _ _ _ Hloop) as (Hvalid & Hprob & _).
  { repeat split; try done; constructor. }
  split; [done|]. split; [done|]. intros Hwf Hok.
  unfold DeepCFR._cfr_iteration. rewrite Hplay. cbn [mbind outcome_bind].
  unfold DeepCFR._update_regrets. by apply update_loop_accepts.
Qed.

End HandAccepted.

Lemma script_masks_of_five
    (e : nat) (obs legal_mask : list Qc) (reward : Qc) (termination truncation : bool) :
  script_last e = (obs, legal_mask, reward, termination, truncation) ->
  is_mask legal_mask /\ length legal_mask = 5%nat.
Proof.
  unfold script_last. intros Hlast. injection Hlast as _ <- _ _ _.
  split; [solve_is_mask|reflexivity].
Qed.

Lemma script_net_of_five (s : DeepCFR.state) :
  nonnegative (script_net s) /\ length (script_net s) = 5%nat.
Proof.
  split; [|reflexivity].
  repeat (apply Forall_cons; split; [by_computation|]). apply Forall_nil_2.
Qed.

Lemma script_choice_in_range (r : unit) (n : nat) (p : list Qc) (action : nat) (r' : unit) :
  script_choice r n p = Returns (action, r') -> (action < n)%nat.
Proof.
  unfold script_choice. case_decide; [|done].
  intros Hdraw. injection Hdraw as <- _. done.
Qed.

Lemma recorded_decisions_accepted_witness :
  exists t', DeepCFR._cfr_iteration script_hand DeepCFR.init = Returns t'.
Proof.
  assert (exists decisions final_rewards,
            script_hand DeepCFR.init = Returns (decisions, final_rewards))
    as (decisions & final_rewards & Hplay).
  { eexists _, _. vm_compute. reflexivity. }
  unfold script_hand in *.
  pose proof (recorded_decisions_accepted nat unit (fun e => e)
                ["player_0"; "player_1"]%string script_agent script_last script_step
                script_random script_choice script_net script_net no_table_evaluate []
                script_masks_of_five script_net_of_five script_choice_in_range
                100%nat 0%nat tt DeepCFR.init decisions final_rewards Hplay)
    as (_ & _ & Hbooked).
  exact (Hbooked wf_init strategy_ok_init).
Defined.
